(** * Boleta de honorarios (SimpleAPI): lifecycle and RUT validation

    A shallow embedding of [simple_api/models/boleta_honorarios.py].

    Conventions of the embedding.
    - A Python [str] is a [string]; each [ascii] is read as the Unicode code
      point of the same number (0..255, i.e. Latin-1).  The built-ins used by
      the module ([lower], [upper], [strip], [isdigit], [int], [repr],
      [json.dumps]) are written out for that range.  [upper] can leave the
      range, so it yields code points ([N]).
    - A value obtained from [resp.json()] is a [json]; numbers are integers
      (floating point numbers are outside the model).
    - An Odoo [Char]/[Text]/[Selection]/[Date] field is an [option]: [None]
      is the [False] that Odoo yields for an empty field.
    - Exceptions are explicit: a computation returns [Ok v] or [Raise e] and
      keeps the mutations made before the exception.
    - The translation function [_] is the identity; the logger and the
      automatic tracking messages of [mail.thread] are not modelled. *)

From Stdlib Require Import ZArith NArith QArith Bool List String Ascii Lia.
From Stdlib Require Import DecimalString.
Import ListNotations.

Local Open Scope string_scope.
Local Open Scope Z_scope.

(** ** Exceptions *)

Inductive exn_class :=
| UserError | AttributeError | ValueError | RequestError | JSONDecodeError.

Record exn := Exn { exn_class_of : exn_class; exn_msg : string }.

(** [str(e)] *)
Definition str_exn (e : exn) : string := exn_msg e.

Definition is_UserError (e : exn) : bool :=
  match exn_class_of e with UserError => true | _ => false end.

Inductive outcome (A : Type) :=
| Ok (a : A)
| Raise (e : exn).
Arguments Ok {A} a.
Arguments Raise {A} e.

(** ** Python strings over Latin-1 *)

Module Py.

Definition code (c : ascii) : N := N_of_ascii c.

Definition between (lo hi n : N) : bool := (N.leb lo n && N.leb n hi)%bool.

Fixpoint map_str (f : ascii -> ascii) (s : string) : string :=
  match s with
  | EmptyString => EmptyString
  | String c s' => String (f c) (map_str f s')
  end.

(** [bool(s)] *)
Definition nonempty (s : string) : bool :=
  match s with EmptyString => false | _ => true end.

(** [s[:n]] *)
Fixpoint take (n : nat) (s : string) : string :=
  match n, s with
  | S n', String c s' => String c (take n' s')
  | _, _ => EmptyString
  end.

(** [needle in hay] *)
Fixpoint contains (needle hay : string) : bool :=
  (String.prefix needle hay ||
   match hay with
   | EmptyString => false
   | String _ hay' => contains needle hay'
   end)%bool.

(** [s.replace(c, '')] for a one-character [c] *)
Fixpoint remove_char (c : ascii) (s : string) : string :=
  match s with
  | EmptyString => EmptyString
  | String a s' =>
      if Ascii.eqb a c then remove_char c s' else String a (remove_char c s')
  end.

(** [c.lower()]: A-Z and the Latin-1 capitals other than the times sign. *)
Definition lower_char (c : ascii) : ascii :=
  let n := code c in
  if (between 65 90 n || (between 192 222 n && negb (N.eqb n 215)))%bool
  then ascii_of_N (n + 32)%N else c.

Definition lower (s : string) : string := map_str lower_char s.

(** [c.upper()] as code points: a-z and the Latin-1 small letters; the sharp
    s becomes "SS", the micro sign and y-diaeresis leave Latin-1. *)
Definition upper_char (c : ascii) : list N :=
  let n := code c in
  (if between 97 122 n then [n - 32]
   else if N.eqb n 181 then [924]
   else if N.eqb n 223 then [83; 83]
   else if (between 224 254 n && negb (N.eqb n 247))%bool then [n - 32]
   else if N.eqb n 255 then [376]
   else [n])%N.

Definition upper (s : string) : list N :=
  flat_map upper_char (list_ascii_of_string s).

(** [c.isspace()] *)
Definition isspace (c : ascii) : bool :=
  let n := code c in
  (between 9 13 n || between 28 32 n || N.eqb n 133 || N.eqb n 160)%bool.

Fixpoint lstrip (s : string) : string :=
  match s with
  | String c s' => if isspace c then lstrip s' else s
  | EmptyString => EmptyString
  end.

(** drops the trailing white space *)
Fixpoint rstrip (s : string) : string :=
  match s with
  | EmptyString => EmptyString
  | String c s' =>
      match rstrip s' with
      | EmptyString => if isspace c then EmptyString else String c EmptyString
      | t => String c t
      end
  end.

(** [s.strip()] *)
Definition strip (s : string) : string := rstrip (lstrip s).

(** One character of [s.isdigit()]: the decimal digits and the superscripts
    one, two and three. *)
Definition isdigit_cp (n : N) : bool :=
  (between 48 57 n || N.eqb n 178 || N.eqb n 179 || N.eqb n 185)%bool.

(** [s.isdigit()] on code points *)
Definition isdigit (s : list N) : bool :=
  match s with [] => false | _ => forallb isdigit_cp s end.

Definition is_decimal (n : N) : bool := between 48 57 n.

(** [str(n)] for an integer *)
Definition str_Z (z : Z) : string := NilZero.string_of_int (Z.to_int z).

(** White space as [int()] skips it around a literal. *)
Definition int_space (c : ascii) : bool :=
  let n := code c in
  (between 9 13 n || N.eqb n 32 || N.eqb n 133 || N.eqb n 160)%bool.

Fixpoint lstrip_int (s : string) : string :=
  match s with
  | String c s' => if int_space c then lstrip_int s' else s
  | EmptyString => EmptyString
  end.

Fixpoint rstrip_int (s : string) : string :=
  match s with
  | EmptyString => EmptyString
  | String c s' =>
      match rstrip_int s' with
      | EmptyString => if int_space c then EmptyString else String c EmptyString
      | t => String c t
      end
  end.

(** Decimal digits, single underscores allowed between two digits. *)
Fixpoint digits_value (s : string) (acc : Z) (after_digit : bool) : option Z :=
  match s with
  | EmptyString => if after_digit then Some acc else None
  | String c s' =>
      if is_decimal (code c)
      then digits_value s' (10 * acc + (Z.of_N (code c) - 48)) true
      else if (Ascii.eqb c "_" && after_digit)%bool
           then digits_value s' acc false
           else None
  end.

(** [int(s)] for a string; [None] is the [ValueError].  (The interpreter's
    limit on the number of digits is not modelled.) *)
Definition int_str (s : string) : option Z :=
  match rstrip_int (lstrip_int s) with
  | String "+" t => digits_value t 0 false
  | String "-" t => option_map Z.opp (digits_value t 0 false)
  | t => digits_value t 0 false
  end.

Definition hex_digit (n : N) : ascii :=
  if N.ltb n 10 then ascii_of_N (48 + n) else ascii_of_N (87 + n).

Definition hex2 (n : N) : string :=
  String (hex_digit (N.div n 16)) (String (hex_digit (N.modulo n 16)) EmptyString).

Definition quote : ascii := "'".
Definition dquote : ascii := "034".
Definition backslash : ascii := "092".
Definition newline : ascii := "010".

Definition chr (c : ascii) : string := String c EmptyString.

(** [c.isprintable()] *)
Definition isprintable (c : ascii) : bool :=
  let n := code c in
  negb (N.ltb n 32 || between 127 160 n || N.eqb n 173).

Definition repr_char (q : ascii) (c : ascii) : string :=
  let n := code c in
  if (Ascii.eqb c q || Ascii.eqb c backslash)%bool then String backslash (chr c)
  else if N.eqb n 9 then String backslash "t"
  else if N.eqb n 10 then String backslash "n"
  else if N.eqb n 13 then String backslash "r"
  else if isprintable c then chr c
  else String backslash ("x" ++ hex2 n).

Fixpoint flat_str (f : ascii -> string) (s : string) : string :=
  match s with
  | EmptyString => EmptyString
  | String c s' => f c ++ flat_str f s'
  end.

(** [repr(s)] for a string *)
Definition repr_str (s : string) : string :=
  let q := if (contains (chr quote) s && negb (contains (chr dquote) s))%bool
           then dquote else quote in
  String q (flat_str (repr_char q) s ++ chr q).

(** The [ValueError] of [int(s)]. *)
Definition int_error (s : string) : exn :=
  Exn ValueError ("invalid literal for int() with base 10: " ++ repr_str s).

End Py.

(** ** JSON values, as [resp.json()] returns them *)

#[warnings="-register-all"]
Inductive json :=
| JNull
| JBool (b : bool)
| JInt (z : Z)
| JStr (s : string)
| JList (l : list json)
| JDict (d : list (string * json)).

Module Json.

(** [bool(v)] *)
Definition truthy (v : json) : bool :=
  match v with
  | JNull => false
  | JBool b => b
  | JInt z => negb (z =? 0)
  | JStr s => Py.nonempty s
  | JList l => match l with [] => false | _ => true end
  | JDict d => match d with [] => false | _ => true end
  end.

(** [a or b] *)
Definition or_else (a b : json) : json := if truthy a then a else b.

Fixpoint lookup (k : string) (d : list (string * json)) : option json :=
  match d with
  | [] => None
  | (k', v) :: d' => if String.eqb k k' then Some v else lookup k d'
  end.

(** [d.get(k)] on a dict: [None] when the key is absent. *)
Definition get (d : list (string * json)) (k : string) : json :=
  match lookup k d with Some v => v | None => JNull end.

(** [d.get(k, default)] *)
Definition get_default (d : list (string * json)) (k : string) (dflt : json) : json :=
  match lookup k d with Some v => v | None => dflt end.

Definition type_name (v : json) : string :=
  match v with
  | JNull => "NoneType" | JBool _ => "bool" | JInt _ => "int"
  | JStr _ => "str" | JList _ => "list" | JDict _ => "dict"
  end.

Fixpoint join (sep : string) (l : list string) : string :=
  match l with
  | [] => EmptyString
  | [x] => x
  | x :: l' => x ++ sep ++ join sep l'
  end.

(** [repr(v)] *)
Fixpoint repr (v : json) : string :=
  match v with
  | JNull => "None"
  | JBool true => "True"
  | JBool false => "False"
  | JInt z => Py.str_Z z
  | JStr s => Py.repr_str s
  | JList l => "[" ++ join ", " (map repr l) ++ "]"
  | JDict d =>
      "{" ++ join ", " (map (fun '(k, x) => Py.repr_str k ++ ": " ++ repr x) d) ++ "}"
  end.

(** [str(v)], also what an f-string or [%s] renders *)
Definition str (v : json) : string :=
  match v with
  | JStr s => s
  | _ => repr v
  end.

Definition hex4 (n : N) : string := "00" ++ Py.hex2 n.

Definition dumps_char (c : ascii) : string :=
  let n := Py.code c in
  if (Ascii.eqb c Py.dquote || Ascii.eqb c Py.backslash)%bool
  then String Py.backslash (Py.chr c)
  else if N.eqb n 10 then String Py.backslash "n"
  else if N.eqb n 13 then String Py.backslash "r"
  else if N.eqb n 9 then String Py.backslash "t"
  else if N.eqb n 8 then String Py.backslash "b"
  else if N.eqb n 12 then String Py.backslash "f"
  else if Py.between 32 126 n then Py.chr c
  else String Py.backslash ("u" ++ hex4 n).

Definition dumps_str (s : string) : string :=
  String Py.dquote (Py.flat_str dumps_char s ++ Py.chr Py.dquote).

Fixpoint spaces (n : nat) : string :=
  match n with O => EmptyString | S n' => String " " (spaces n') end.

(** the line break and indentation at nesting depth [lvl] (indent=2) *)
Definition nl (lvl : nat) : string := String Py.newline (spaces (2 * lvl)).

(** [json.dumps(v, indent=2)], [lvl] being the nesting depth *)
Fixpoint dumps_at (lvl : nat) (v : json) : string :=
  match v with
  | JNull => "null"
  | JBool true => "true"
  | JBool false => "false"
  | JInt z => Py.str_Z z
  | JStr s => dumps_str s
  | JList [] => "[]"
  | JList l =>
      "[" ++ nl (S lvl) ++ join ("," ++ nl (S lvl)) (map (dumps_at (S lvl)) l)
          ++ nl lvl ++ "]"
  | JDict [] => "{}"
  | JDict d =>
      "{" ++ nl (S lvl)
          ++ join ("," ++ nl (S lvl))
               (map (fun '(k, x) => dumps_str k ++ ": " ++ dumps_at (S lvl) x) d)
          ++ nl lvl ++ "}"
  end.

Definition dumps (v : json) : string := dumps_at 0 v.

End Json.

(** ** Computations with state and exceptions *)

Definition M (S A : Type) : Type := S -> outcome A * S.

Definition ret {S A} (a : A) : M S A := fun s => (Ok a, s).

Definition raise {S A} (e : exn) : M S A := fun s => (Raise e, s).

Definition bind {S A B} (m : M S A) (k : A -> M S B) : M S B :=
  fun s =>
    match m s with
    | (Ok a, s') => k a s'
    | (Raise e, s') => (Raise e, s')
    end.

(** [try: m  except Exception as e: h e] *)
Definition try_except {S A} (m : M S A) (h : exn -> M S A) : M S A :=
  fun s =>
    match m s with
    | (Ok a, s') => (Ok a, s')
    | (Raise e, s') => h e s'
    end.

(** a pure step that may raise *)
Definition lift {S A} (o : outcome A) : M S A := fun s => (o, s).

Definition gets {S A} (f : S -> A) : M S A := fun s => (Ok (f s), s).

Definition modify {S} (f : S -> S) : M S unit := fun s => (Ok tt, f s).

Declare Scope py_scope.
Delimit Scope py_scope with py.
Notation "x <- m ;; k" := (bind m (fun x => k))
  (at level 61, m at next level, right associativity) : py_scope.
Notation "m ;; k" := (bind m (fun _ => k))
  (at level 61, right associativity) : py_scope.
Local Open Scope py_scope.

(** [if c: raise e] *)
Definition raise_if {S} (c : bool) (e : exn) : M S unit :=
  if c then raise e else ret tt.

(** ** The document *)

Inductive doc_state :=
| draft | processing | emitted | downloaded | error | cancelled.

Definition doc_state_eqb (a b : doc_state) : bool :=
  match a, b with
  | draft, draft | processing, processing | emitted, emitted
  | downloaded, downloaded | error, error | cancelled, cancelled => true
  | _, _ => false
  end.

Inductive message_type := notification | comment.

Record message := Message { body : string; mtype : message_type }.

Record date := Date { year : Z; month : Z; day : Z }.

Record boleta := Boleta {
  id : Z;
  numero_boleta : option string;
  fecha_emision : option date;
  state : doc_state;
  rut_usuario : option string;
  password_sii : option string;
  direccion_emisor : option string;
  retencion : option string;
  receptor_rut : option string;
  receptor_nombre : option string;
  receptor_direccion : option string;
  receptor_region : option string;
  receptor_comuna : option string;
  descripcion_servicio : option string;
  valor_bruto : Q;
  response_data : option string;
  email_destinatario : option string;
  error_message : option string;
  fecha_procesamiento : option Z;
  intentos : Z;
  motivo_anulacion : option string;
  (** the chatter of the document ([message_post]), oldest first *)
  messages : list message
}.

Definition with_numero_boleta (v : option string) (r : boleta) : boleta :=
  let 'Boleta a _ c d e f g h i j k l m n o p q r' s t u w := r in
  Boleta a v c d e f g h i j k l m n o p q r' s t u w.

Definition with_state (v : doc_state) (r : boleta) : boleta :=
  let 'Boleta a b c _ e f g h i j k l m n o p q r' s t u w := r in
  Boleta a b c v e f g h i j k l m n o p q r' s t u w.

Definition with_response_data (v : option string) (r : boleta) : boleta :=
  let 'Boleta a b c d e f g h i j k l m n o _ q r' s t u w := r in
  Boleta a b c d e f g h i j k l m n o v q r' s t u w.

Definition with_error_message (v : option string) (r : boleta) : boleta :=
  let 'Boleta a b c d e f g h i j k l m n o p q _ s t u w := r in
  Boleta a b c d e f g h i j k l m n o p q v s t u w.

Definition with_fecha_procesamiento (v : option Z) (r : boleta) : boleta :=
  let 'Boleta a b c d e f g h i j k l m n o p q r' _ t u w := r in
  Boleta a b c d e f g h i j k l m n o p q r' v t u w.

Definition with_intentos (v : Z) (r : boleta) : boleta :=
  let 'Boleta a b c d e f g h i j k l m n o p q r' s _ u w := r in
  Boleta a b c d e f g h i j k l m n o p q r' s v u w.

Definition with_messages (v : list message) (r : boleta) : boleta :=
  let 'Boleta a b c d e f g h i j k l m n o p q r' s t u _ := r in
  Boleta a b c d e f g h i j k l m n o p q r' s t u v.

(** [bool(field)] of a text field *)
Definition filled (f : option string) : bool :=
  match f with Some s => Py.nonempty s | None => false end.

(** a text field inside an f-string *)
Definition str_field (f : option string) : string :=
  match f with Some s => s | None => "False" end.

(** a text field as a JSON value of a request body *)
Definition json_field (f : option string) : json :=
  match f with Some s => JStr s | None => JBool false end.

(** ** The outside world: the clock and the HTTP service *)

Record request := Request {
  url : string;
  headers : list (string * string);
  payload : json;
  timeout : Z
}.

(** What [resp.json()] gives: a value, or a decoding error. *)
Inductive parsed :=
| Parsed (j : json)
| NotJson (why : string).

Record response := Response {
  status_code : Z;
  text : string;
  json_of : parsed
}.

(** [requests.post] returns a response or raises (time-out, connection). *)
Inductive reply :=
| Replied (r : response)
| Failed (why : string).

Record world := World {
  clock : Z;
  (** the requests sent so far, the latest first *)
  outbox : list request
}.

(** The state an operation on one record runs in. *)
Record session := Session { rec : boleta; wld : world }.

Definition on_rec (f : boleta -> boleta) : M session unit :=
  modify (fun s => Session (f (rec s)) (wld s)).

(** [record.message_post(body=..., message_type=...)] *)
Definition message_post (b : string) (t : message_type) : M session unit :=
  on_rec (fun r => with_messages (messages r ++ [Message b t]) r).

(** [fields.Datetime.now()] *)
Definition datetime_now : M session Z := gets (fun s => clock (wld s)).

(** [time.sleep(seconds)] *)
Definition sleep (seconds : Z) : M session unit :=
  modify (fun s => Session (rec s) (World (clock (wld s) + seconds) (outbox (wld s)))).

(** The parameters of [ir.config_parameter] the module reads. *)
Record settings := Settings {
  simpleapi_api_key : option string;
  simpleapi_base_url : option string;
  simpleapi_timeout : option string
}.

Record config := Config { api_key : string; base_url : string; cfg_timeout : Z }.

(** [config.get_param(key, default)] *)
Definition get_param (p : option string) (default : string) : string :=
  match p with
  | Some v => if Py.nonempty v then v else default
  | None => default
  end.

(** [int(s)] on a string *)
Definition py_int (s : string) : outcome Z :=
  match Py.int_str s with
  | Some z => Ok z
  | None => Raise (Py.int_error s)
  end.

(** [int(field)] on a selection field: [int(False)] is 0. *)
Definition int_field (f : option string) : outcome Z :=
  match f with
  | Some s => py_int s
  | None => Ok 0
  end.

Definition no_attribute (ty attr : string) : exn :=
  Exn AttributeError ("'" ++ ty ++ "' object has no attribute '" ++ attr ++ "'").

(** [field.replace('.', '').replace('-', '')] *)
Definition strip_separators (s : string) : string :=
  Py.remove_char "-" (Py.remove_char "." s).

Definition clean_rut (f : option string) : outcome string :=
  match f with
  | Some s => Ok (strip_separators s)
  | None => Raise (no_attribute "bool" "replace")
  end.

Definition pad2 (z : Z) : string :=
  if (0 <=? z) && (z <? 10) then "0" ++ Py.str_Z z else Py.str_Z z.

(** [d.strftime('%d-%m-%Y')], for years of four digits *)
Definition strftime_dmy (f : option date) : outcome string :=
  match f with
  | Some d => Ok (pad2 (day d) ++ "-" ++ pad2 (month d) ++ "-" ++ Py.str_Z (year d))
  | None => Raise (no_attribute "bool" "strftime")
  end.

(** [int(x)] on an amount: truncation towards zero *)
Definition int_amount (q : Q) : Z := Z.quot (Qnum q) (Zpos (Qden q)).

Definition obind {A B} (o : outcome A) (k : A -> outcome B) : outcome B :=
  match o with Ok a => k a | Raise e => Raise e end.

(** Accented letters of the messages. *)
Definition a_acute : string := String "225" EmptyString.
Definition i_acute : string := String "237" EmptyString.
Definition o_acute : string := String "243" EmptyString.
Definition u_acute : string := String "250" EmptyString.

(** ** The requests sent to SimpleAPI *)

(** [POST {base}/bhe/emitir] *)
Definition emitir_request (config : config) (data : json) : request :=
  Request (base_url config ++ "/bhe/emitir")
          [("Content-Type", "application/json");
           ("Accept", "application/json");
           ("Authorization", api_key config)]
          data (cfg_timeout config).

(** [POST {base}/bhe/mail/{folio}/{anio}] *)
Definition mail_request (config : config) (folio : string) (anio : Z)
    (rut : string) (password : option string) (email : string) : request :=
  Request (base_url config ++ "/bhe/mail/" ++ folio ++ "/" ++ Py.str_Z anio)
          [("Authorization", api_key config);
           ("Accept", "application/json");
           ("Content-Type", "application/json");
           ("User-Agent", "odoo-18-bhe")]
          (JDict [("RutUsuario", JStr rut);
                  ("PasswordSII", json_field password);
                  ("Correo", JStr email)])
          (cfg_timeout config).

(** [POST {base}/bhe/anular] *)
Definition anular_request (config : config) (numero : option string)
    (rut : string) (password : option string) : request :=
  Request (base_url config ++ "/bhe/anular")
          [("Content-Type", "application/json");
           ("Accept", "application/json");
           ("Authorization", api_key config)]
          (JDict [("numeroDocumento", json_field numero);
                  ("rutEmisor", JStr rut);
                  ("passwordSII", json_field password)])
          (cfg_timeout config).

(** [POST {base}/bhe/anular/{folio}/{motivo}] *)
Definition anular_path_request (config : config) (folio motivo : string)
    (rut : string) (password : option string) : request :=
  Request (base_url config ++ "/bhe/anular/" ++ folio ++ "/" ++ motivo)
          [("Content-Type", "application/json");
           ("Accept", "application/json");
           ("Authorization", api_key config);
           ("User-Agent", "odoo-18-bhe")]
          (JDict [("RutUsuario", JStr rut);
                  ("PasswordSII", json_field password)])
          (cfg_timeout config).

(** ** The operations of [BoletaHonorarios] *)

Section Operations.

(** The stored configuration and the behaviour of the remote service: the
    reply to the latest request, given everything sent so far. *)
Variable params : settings.
Variable server : list request -> reply.

(** [get_simpleapi_config] *)
Definition get_simpleapi_config : outcome config :=
  let api_key := get_param (simpleapi_api_key params) "4648-N330-6392-2590-9354" in
  let base_url := get_param (simpleapi_base_url params) "https://servicios.simpleapi.cl/api" in
  obind (py_int (get_param (simpleapi_timeout params) "30")) (fun timeout =>
  Ok (Config api_key base_url timeout)).

(** [requests.post(url, json=..., headers=..., timeout=...)] *)
Definition post (req : request) : M session response :=
  fun s =>
    let sent := req :: outbox (wld s) in
    let s' := Session (rec s) (World (clock (wld s)) sent) in
    match server sent with
    | Replied r => (Ok r, s')
    | Failed why => (Raise (Exn RequestError why), s')
    end.

(** [_prepare_api_data] *)
Definition prepare_api_data (r : boleta) : outcome json :=
  obind (clean_rut (rut_usuario r)) (fun rut =>
  obind (int_field (retencion r)) (fun ret_ =>
  obind (strftime_dmy (fecha_emision r)) (fun fecha =>
  obind (clean_rut (receptor_rut r)) (fun rrut =>
  obind (int_field (receptor_region r)) (fun region =>
  Ok (JDict [
    ("RutUsuario", JStr rut);
    ("PasswordSII", json_field (password_sii r));
    ("Retencion", JInt ret_);
    ("FechaEmision", JStr fecha);
    ("Emisor", JDict [("Direccion", json_field (direccion_emisor r))]);
    ("Receptor", JDict [
       ("Rut", JStr rrut);
       ("Nombre", json_field (receptor_nombre r));
       ("Direccion", json_field (receptor_direccion r));
       ("Region", JInt region);
       ("Comuna", json_field (receptor_comuna r))]);
    ("Detalles", JList [JDict [
       ("Nombre", json_field (descripcion_servicio r));
       ("Valor", JInt (int_amount (valor_bruto r)))]])
  ])))))).

(** [resp.json()] *)
Definition resp_json (resp : response) : outcome json :=
  match json_of resp with
  | Parsed j => Ok j
  | NotJson why => Raise (Exn JSONDecodeError why)
  end.

(** [_call_simpleapi] *)
Definition call_simpleapi (data : json) : M session json :=
  config <- lift get_simpleapi_config ;;
  try_except
    (resp <- post (emitir_request config data) ;;
     if status_code resp =? 200
     then lift (resp_json resp)
     else raise (Exn UserError
            ("Error en API: " ++ Py.str_Z (status_code resp) ++ " - " ++ text resp)))
    (fun e =>
       if is_UserError e then raise e
       else raise (Exn UserError
              ("Error inesperado llamando SimpleAPI: " ++ str_exn e))).

(** [_send_mail_via_simpleapi] *)
Definition send_mail_via_simpleapi
    (folio : string) (anio : Z) (email : string) (wait_seconds : Z)
  : M session bool :=
  (if wait_seconds =? 0 then ret tt else sleep wait_seconds) ;;
  config <- lift get_simpleapi_config ;;
  r <- gets rec ;;
  rut <- lift (clean_rut (rut_usuario r)) ;;
  resp <- post (mail_request config folio anio rut (password_sii r) email) ;;
  if (status_code resp =? 200) || (status_code resp =? 202)
  then
    message_post ("Correo solicitado a SimpleAPI (folio " ++ folio ++ "): " ++ email)
                 notification ;;
    ret true
  else
    message_post ("No se pudo solicitar env" ++ i_acute ++ "o por correo (POST). Status "
                  ++ Py.str_Z (status_code resp) ++ ". Body: "
                  ++ Py.take 300 (text resp))
                 comment ;;
    ret false.

(** The [try] block around the mail request of
    [_process_successful_response]. *)
Definition solicitar_correo (folio : string) (anio : Z) (email : string)
  : M session unit :=
  try_except
    (send_mail_via_simpleapi folio anio email 1 ;; ret tt)
    (fun e =>
       message_post ("Error solicitando env" ++ i_acute ++ "o por correo: "
                     ++ str_exn e) comment).

(** [response.get] needs a dict; anything else has no [get]. *)
Definition as_dict (v : json) : outcome (list (string * json)) :=
  match v with
  | JDict d => Ok d
  | _ => Raise (no_attribute (Json.type_name v) "get")
  end.

(** The folio of a response: the first truthy value among the candidate keys. *)
Definition folio_of (d : list (string * json)) : json :=
  Json.or_else (Json.or_else (Json.or_else (Json.or_else
    (Json.get d "folio") (Json.get d "numeroDocumento"))
    (Json.get d "numero_boleta")) (Json.get d "numeroBoleta"))
    (Json.get d "numero").

Definition anio_keys : list string :=
  ["anio"; "anioFolio"; "year"; "anio_emision"; "anioFolioEmitido"].

(** The loop over the year keys: the first truthy value whose first four
    characters read as an integer. *)
Fixpoint anio_of (keys : list string) (d : list (string * json)) : option Z :=
  match keys with
  | [] => None
  | k :: keys' =>
      if Json.truthy (Json.get d k)
      then match Py.int_str (Py.take 4 (Json.str (Json.get d k))) with
           | Some n => Some n
           | None => anio_of keys' d
           end
      else anio_of keys' d
  end.

(** [bool(anio)] *)
Definition anio_set (anio : option Z) : bool :=
  match anio with Some n => negb (n =? 0) | None => false end.

(** [_process_successful_response] *)
Definition process_successful_response (resp : json) : M session unit :=
  on_rec (with_response_data (Some (Json.dumps resp))) ;;
  d <- lift (as_dict resp) ;;
  let folio := folio_of d in
  if Json.truthy folio then
    on_rec (with_numero_boleta (Some (Json.str folio))) ;;
    on_rec (with_state emitted) ;;
    on_rec (with_error_message None) ;;
    r <- gets rec ;;
    message_post ("Boleta emitida exitosamente. N" ++ u_acute ++ "mero: "
                  ++ str_field (numero_boleta r)) notification ;;
    let anio := anio_of anio_keys d in
    let anio :=
      match fecha_emision r with
      | Some f => if anio_set anio then anio else Some (year f)
      | None => anio
      end in
    match anio with
    | Some n =>
        if negb (n =? 0) && filled (email_destinatario r) then
          solicitar_correo (str_field (numero_boleta r)) n
                           (str_field (email_destinatario r))
        else ret tt
    | None => ret tt
    end
  else
    on_rec (with_state error) ;;
    on_rec (with_error_message
              (Some ("Respuesta exitosa pero sin n" ++ u_acute ++ "mero de boleta"))) ;;
    r <- gets rec ;;
    message_post ("Respuesta exitosa sin folio. Response: "
                  ++ str_field (response_data r)) comment.

(** [_process_error_response] *)
Definition process_error_response (resp : json) : M session unit :=
  on_rec (with_state error) ;;
  d <- lift (as_dict resp) ;;
  let error_msg :=
    Json.or_else (Json.or_else (Json.or_else (Json.or_else (Json.or_else
      (Json.get d "error") (Json.get d "mensaje")) (Json.get d "message"))
      (Json.get d "descripcion")) (Json.get d "detalle"))
      (JStr "Error desconocido") in
  on_rec (with_error_message (Some (Json.str error_msg))) ;;
  on_rec (with_response_data (Some (Json.dumps resp))) ;;
  message_post ("Error en emisi" ++ o_acute ++ "n: " ++ Json.str error_msg) comment.

(** The test of [action_emitir_boleta] on the response. *)
Definition is_success (resp : json) : outcome bool :=
  obind (as_dict resp) (fun d =>
  Ok (Json.truthy
        (Json.or_else (Json.or_else (Json.or_else
           (Json.get d "success") (Json.get d "numeroDocumento"))
           (Json.get d "numero")) (Json.get d "folio")))).

(** The [if]/[else] of [action_emitir_boleta] on the response. *)
Definition procesar_respuesta (resp : json) : M session unit :=
  ok <- lift (is_success resp) ;;
  if ok then process_successful_response resp
  else process_error_response resp.

(** [email and '@' in email] *)
Definition valid_email (f : option string) : bool :=
  match f with
  | Some s => Py.nonempty s && Py.contains "@" s
  | None => false
  end.

(** The first statements of the [try] block of [action_emitir_boleta]. *)
Definition iniciar_emision : M session unit :=
  on_rec (with_state processing) ;;
  on_rec (fun r => with_intentos (intentos r + 1) r) ;;
  now <- datetime_now ;;
  on_rec (with_fecha_procesamiento (Some now)) ;;
  message_post ("Iniciando emisi" ++ o_acute ++ "n de boleta de honorarios...")
               notification.

(** The rest of the [try] block. *)
Definition emitir : M session unit :=
  r <- gets rec ;;
  raise_if (negb (filled (descripcion_servicio r)))
    (Exn UserError ("Debe agregar una descripci" ++ o_acute ++ "n del servicio")) ;;
  raise_if (Qle_bool (valor_bruto r) 0)
    (Exn UserError "El valor bruto debe ser mayor a cero") ;;
  raise_if (negb (valid_email (email_destinatario r)))
    (Exn UserError ("Debe indicar un correo destinatario v" ++ a_acute
                    ++ "lido (ej: correo@dominio.cl)")) ;;
  data <- lift (prepare_api_data r) ;;
  resp <- call_simpleapi data ;;
  procesar_respuesta resp.

(** The [except Exception as e] block. *)
Definition emitir_except (e : exn) : M session unit :=
  on_rec (with_state error) ;;
  on_rec (with_error_message (Some (str_exn e))) ;;
  message_post ("Error emitiendo boleta: " ++ str_exn e) comment.

(** The body of the loop of [action_emitir_boleta], for one record. *)
Definition emitir_boleta : M session unit :=
  try_except (iniciar_emision ;; emitir) emitir_except.

(** [for record in self: body]: the records are visited in order and share
    the world.  An exception leaves the loop: the record being visited keeps
    what was written to it, the records not yet visited stay as they are. *)
Fixpoint for_each (body : M session unit) (records : list boleta) (w : world)
  : outcome unit * (list boleta * world) :=
  match records with
  | [] => (Ok tt, ([], w))
  | r :: rest =>
      match body (Session r w) with
      | (Ok _, s) =>
          let '(o, (rest', w')) := for_each body rest (wld s) in
          (o, (rec s :: rest', w'))
      | (Raise e, s) => (Raise e, (rec s :: rest, wld s))
      end
  end.

(** [action_emitir_boleta] *)
Definition action_emitir_boleta (self : list boleta) (w : world)
  : outcome unit * (list boleta * world) :=
  for_each emitir_boleta self w.

Definition can_be_voided (st : doc_state) : bool :=
  doc_state_eqb st emitted || doc_state_eqb st downloaded.

(** The keywords looked for in a plain-text answer, [txt] in lower case. *)
Definition says_voided (txt : string) : bool :=
  Py.contains "anulada" txt || Py.contains "correctamente" txt.

(** The verdict of the legacy operation on an HTTP 200 answer. *)
Definition legacy_ok (resp : response) : bool :=
  match json_of resp with
  | Parsed (JDict j) => negb (Json.truthy (Json.get j "error"))
  | Parsed _ => false
  | NotJson _ => says_voided (Py.lower (text resp))
  end.

(** The body of the loop of [action_anular_boleta], for one record. *)
Definition anular_boleta : M session unit :=
  r <- gets rec ;;
  raise_if (negb (can_be_voided (state r)))
    (Exn UserError "Solo se pueden anular boletas emitidas") ;;
  try_except
    (config <- lift get_simpleapi_config ;;
     rut <- lift (clean_rut (rut_usuario r)) ;;
     resp <- post (anular_request config (numero_boleta r) rut (password_sii r)) ;;
     let body_preview := Py.take 300 (text resp) in
     if (status_code resp =? 200) && legacy_ok resp
     then
       on_rec (with_state cancelled) ;;
       message_post ("Boleta " ++ str_field (numero_boleta r)
                     ++ " anulada exitosamente (legacy). Resp: " ++ body_preview)
                    notification
     else raise (Exn UserError ("Error anulando boleta: " ++ body_preview)))
    (fun e => raise (Exn UserError ("Error anulando boleta: " ++ str_exn e))).

(** [action_anular_boleta] *)
Definition action_anular_boleta (self : list boleta) (w : world)
  : outcome unit * (list boleta * world) :=
  for_each anular_boleta self w.

Definition valid_motivo (f : option string) : bool :=
  match f with
  | Some m => String.eqb m "1" || String.eqb m "2" || String.eqb m "3"
  | None => false
  end.

(** [str(data.get('success', 'true')).lower() in ('true', '1', 'yes')] *)
Definition success_flag (data : list (string * json)) : bool :=
  let v := Py.lower (Json.str (Json.get_default data "success" (JStr "true"))) in
  String.eqb v "true" || String.eqb v "1" || String.eqb v "yes".

(** The body of the loop of [action_anular_boleta_path], for one record. *)
Definition anular_boleta_path : M session unit :=
  r <- gets rec ;;
  raise_if (negb (can_be_voided (state r)))
    (Exn UserError "Solo se pueden anular boletas emitidas o descargadas") ;;
  raise_if (negb (filled (numero_boleta r)))
    (Exn UserError "No existe folio para anular") ;;
  raise_if (negb (valid_motivo (motivo_anulacion r)))
    (Exn UserError ("Debe seleccionar un motivo v" ++ a_acute ++ "lido (1, 2 o 3)")) ;;
  try_except
    (config <- lift get_simpleapi_config ;;
     let folio := Py.strip (str_field (numero_boleta r)) in
     let motivo := str_field (motivo_anulacion r) in
     rut <- lift (clean_rut (rut_usuario r)) ;;
     resp <- post (anular_path_request config folio motivo rut (password_sii r)) ;;
     let body_preview := Py.take 300 (text resp) in
     if (status_code resp =? 200) || (status_code resp =? 202) then
       match json_of resp with
       | Parsed (JDict data) =>
           let has_error := Json.truthy (Json.get data "error") in
           if success_flag data && negb has_error then
             on_rec (with_state cancelled) ;;
             message_post ("Boleta " ++ folio ++ " anulada exitosamente (motivo "
                           ++ motivo ++ "). Resp: " ++ Json.str (JDict data))
                          notification
           else
             raise (Exn UserError
                      ("Error anulando boleta: "
                       ++ Json.str (Json.or_else (Json.get data "error") (JDict data))))
       | _ =>
           let txt := Py.strip (text resp) in
           if Py.nonempty txt && says_voided (Py.lower txt) then
             on_rec (with_state cancelled) ;;
             message_post ("Boleta " ++ folio ++ " anulada exitosamente (motivo "
                           ++ motivo ++ "). Resp: " ++ txt)
                          notification
           else
             on_rec (with_state cancelled) ;;
             message_post ("Boleta " ++ folio ++ " anulada (HTTP "
                           ++ Py.str_Z (status_code resp) ++ ") sin JSON; cuerpo: "
                           ++ Py.take 300 txt)
                          notification
       end
     else
       raise (Exn UserError
                ("Error anulando boleta: " ++ Py.str_Z (status_code resp)
                 ++ " - " ++ body_preview)))
    (fun e =>
       if is_UserError e then raise e
       else raise (Exn UserError
                     ("Error inesperado anulando boleta: " ++ str_exn e))).

(** [action_anular_boleta_path] *)
Definition action_anular_boleta_path (self : list boleta) (w : world)
  : outcome unit * (list boleta * world) :=
  for_each anular_boleta_path self w.

End Operations.

(** ** The RUT validator *)

Definition codes (s : string) : list N := map Py.code (list_ascii_of_string s).

(** [int(d)] for one character [d] of the number *)
Definition digit_value (d : N) : outcome Z :=
  if Py.is_decimal d then Ok (Z.of_N d - 48)
  else Raise (Py.int_error (Py.chr (ascii_of_N d))).

(** The loop [for d in reversed(numero)], from the state [(suma, mult)]. *)
Fixpoint suma_loop (ds : list N) (suma mult : Z) : outcome Z :=
  match ds with
  | [] => Ok suma
  | d :: ds' =>
      obind (digit_value d) (fun v =>
      suma_loop ds' (suma + v * mult) (if mult <? 7 then mult + 1 else 2))
  end.

(** [_validate_rut] *)
Definition validate_rut (rut : string) : outcome bool :=
  if negb (Py.nonempty rut) then Ok false else
  let rut := Py.upper (strip_separators rut) in
  if (List.length rut <? 8)%nat then Ok false else
  let numero := removelast rut in
  let dv := [last rut 0%N] in
  if negb (Py.isdigit numero) then Ok false else
  obind (suma_loop (rev numero) 0 2) (fun suma =>
  let resto := suma mod 11 in
  let dv_calc :=
    if resto =? 0 then codes "0"
    else if resto =? 1 then codes "K"
    else codes (Py.str_Z (11 - resto)) in
  Ok (if list_eq_dec N.eq_dec dv dv_calc then true else false)).


(** ** Masking of the API key *)

(** ['*' * n] *)
Fixpoint stars (n : nat) : string :=
  match n with O => EmptyString | S n' => String "*" (stars n') end.

(** [s[n:]] *)
Fixpoint drop (n : nat) (s : string) : string :=
  match n, s with
  | S n', String _ s' => drop n' s'
  | _, _ => s
  end.

(** [s[-n:]] for [n >= 0]: the last [n] characters, the whole string when
    it is shorter, and also when [n] is 0 (as [s[-0:]] is [s[0:]]). *)
Definition last_chars (n : nat) (s : string) : string :=
  match n with
  | O => s
  | _ => drop (String.length s - n) s
  end.

(** [_mask_key(key, show_start, show_end)] on a string, the two counts
    being natural numbers. *)
Definition mask_key (key : string) (show_start show_end : nat) : string :=
  if negb (Py.nonempty key) then EmptyString else
  if (String.length key <=? show_start + show_end)%nat
  then stars (String.length key)
  else Py.take show_start key ++ stars 6 ++ last_chars show_end key.

(** [_mask_key(key)], as every call of the module writes it *)
Definition mask_api_key (key : string) : string := mask_key key 6 4.

(** ** The constraints *)

(** The outcome of a constraint method: it returns, raises
    [ValidationError], or lets another exception through. *)
Inductive checked :=
| Passed
| ValidationError (msg : string)
| Escaped (e : exn).

(** [_check_valor_bruto] *)
Fixpoint check_valor_bruto (self : list boleta) : checked :=
  match self with
  | [] => Passed
  | r :: rest =>
      if Qle_bool (valor_bruto r) 0
      then ValidationError "El valor bruto debe ser mayor a cero"
      else check_valor_bruto rest
  end.

(** The loop shared by the two RUT constraints:
    [if rut and not self._validate_rut(rut): raise ValidationError(msg)]. *)
Fixpoint check_rut (field : boleta -> option string) (msg : string)
    (self : list boleta) : checked :=
  match self with
  | [] => Passed
  | r :: rest =>
      if filled (field r) then
        match validate_rut (str_field (field r)) with
        | Ok true => check_rut field msg rest
        | Ok false => ValidationError msg
        | Raise e => Escaped e
        end
      else check_rut field msg rest
  end.

(** [_check_rut_usuario] *)
Definition check_rut_usuario (self : list boleta) : checked :=
  check_rut rut_usuario ("El RUT del usuario no es v" ++ a_acute ++ "lido") self.

(** [_check_receptor_rut] *)
Definition check_receptor_rut (self : list boleta) : checked :=
  check_rut receptor_rut ("El RUT del receptor no es v" ++ a_acute ++ "lido") self.

(** ** Filling the recipient from a partner *)

Module ResPartner.

(** The fields of [res.partner] the module reads; [state_id] is the name
    of the partner's state, [None] when the partner has none. *)
Record t := Make {
  vat : option string;
  name : option string;
  street : option string;
  state_id : option string;
  city : option string;
  email : option string
}.

End ResPartner.

(** The form being edited: the document and its [partner_id]. *)
Record ficha := Ficha { doc : boleta; partner_id : option ResPartner.t }.

Definition with_receptor_rut (v : option string) (r : boleta) : boleta :=
  let 'Boleta a b c d e f g h _ j k l m n o p q r' s t u w := r in
  Boleta a b c d e f g h v j k l m n o p q r' s t u w.

Definition with_receptor_nombre (v : option string) (r : boleta) : boleta :=
  let 'Boleta a b c d e f g h i _ k l m n o p q r' s t u w := r in
  Boleta a b c d e f g h i v k l m n o p q r' s t u w.

Definition with_receptor_direccion (v : option string) (r : boleta) : boleta :=
  let 'Boleta a b c d e f g h i j _ l m n o p q r' s t u w := r in
  Boleta a b c d e f g h i j v l m n o p q r' s t u w.

Definition with_receptor_region (v : option string) (r : boleta) : boleta :=
  let 'Boleta a b c d e f g h i j k _ m n o p q r' s t u w := r in
  Boleta a b c d e f g h i j k v m n o p q r' s t u w.

Definition with_receptor_comuna (v : option string) (r : boleta) : boleta :=
  let 'Boleta a b c d e f g h i j k l _ n o p q r' s t u w := r in
  Boleta a b c d e f g h i j k l v n o p q r' s t u w.

Definition with_email_destinatario (v : option string) (r : boleta) : boleta :=
  let 'Boleta a b c d e f g h i j k l m n o p _ r' s t u w := r in
  Boleta a b c d e f g h i j k l m n o p v r' s t u w.

(** [field or ''] *)
Definition or_empty (f : option string) : string :=
  match f with Some s => s | None => EmptyString end.

(** [region_mapping.get(name, '13')] *)
Definition region_mapping (state_name : string) : string :=
  if String.eqb state_name "Santiago" then "13"
  else if String.eqb state_name ("Valpara" ++ i_acute ++ "so") then "5"
  else if String.eqb state_name ("Concepci" ++ o_acute ++ "n") then "8"
  else "13".

(** [_onchange_partner_id] *)
Definition onchange_partner_id (f : ficha) : ficha :=
  match partner_id f with
  | None => f
  | Some partner =>
      let d := doc f in
      let d := with_receptor_rut (Some (or_empty (ResPartner.vat partner))) d in
      let d := with_receptor_nombre (Some (or_empty (ResPartner.name partner))) d in
      let d := with_receptor_direccion (Some (or_empty (ResPartner.street partner))) d in
      let d :=
        match ResPartner.state_id partner with
        | Some state_name => with_receptor_region (Some (region_mapping state_name)) d
        | None => d
        end in
      let d :=
        if filled (ResPartner.city partner)
        then with_receptor_comuna (ResPartner.city partner) d
        else d in
      let d :=
        if negb (filled (email_destinatario d)) && filled (ResPartner.email partner)
        then with_email_destinatario (ResPartner.email partner) d
        else d in
      Ficha d (partner_id f)
  end.

(** [env['res.partner'].search([('vat', '=', rut)], limit=1)], the
    partners being listed in the order of the search. *)
Definition search_by_vat (partners : list ResPartner.t) (rut : string)
  : option ResPartner.t :=
  find (fun p => match ResPartner.vat p with
                 | Some v => String.eqb v rut
                 | None => false
                 end) partners.

(** [_onchange_receptor_data] *)
Definition onchange_receptor_data (partners : list ResPartner.t) (f : ficha) : ficha :=
  if filled (receptor_rut (doc f))
     && match partner_id f with None => true | Some _ => false end
  then
    match search_by_vat partners (str_field (receptor_rut (doc f))) with
    | Some partner => onchange_partner_id (Ficha (doc f) (Some partner))
    | None => f
    end
  else f.
(** * Vocabulary of the statements *)

(** Two records that differ at most in their chatter. *)
Definition same_fields (r r' : boleta) : Prop :=
  with_messages [] r = with_messages [] r'.

(** The comment posted when the mail request is answered with a status
    other than 200 and 202. *)
Definition mail_refused (resp : response) : message :=
  Message ("No se pudo solicitar env" ++ i_acute ++ "o por correo (POST). Status "
           ++ Py.str_Z (status_code resp) ++ ". Body: " ++ Py.take 300 (text resp))
          comment.

(** The comment posted when the mail request raises. *)
Definition mail_failed (why : string) : message :=
  Message ("Error solicitando env" ++ i_acute ++ "o por correo: " ++ why) comment.

(** A relation between the sessions before and after a computation that
    holds of every step and composes. *)
Record frame (P : session -> session -> Prop) : Prop := Frame {
  frame_refl : forall s, P s s;
  frame_trans : forall a b c, P a b -> P b c -> P a c
}.

(** Every run of [m] relates the session it starts in and the one it ends
    in, whether it returns or raises. *)
Definition preserves {A} (P : session -> session -> Prop) (m : M session A) : Prop :=
  forall s o s', m s = (o, s') -> P s s'.

(** The attempt counter and the processing time stamp are those of [s]. *)
Definition tracking_kept (s s' : session) : Prop :=
  intentos (rec s') = intentos (rec s) /\
  fecha_procesamiento (rec s') = fecha_procesamiento (rec s).

(** The record after the first statements of the issuance. *)
Definition iniciado (r : boleta) (w : world) : boleta :=
  with_messages
    (messages r ++
     [Message ("Iniciando emisi" ++ o_acute ++ "n de boleta de honorarios...")
              notification])
    (with_fecha_procesamiento (Some (clock w))
       (with_intentos (intentos r + 1) (with_state processing r))).

(** The three preconditions checked before the request is built. *)
Definition ready_to_issue (r : boleta) : bool :=
  filled (descripcion_servicio r)
  && negb (Qle_bool (valor_bruto r) 0)
  && valid_email (email_destinatario r).

(** The world once [req] has been sent. *)
Definition sent (req : request) (w : world) : world :=
  World (clock w) (req :: outbox w).

(** The issuance request of [r] is built as [req] and the service answers
    it with HTTP 200 and a body that decodes to [resp]. *)
Definition issuance_answered (params : settings) (server : list request -> reply)
    (r : boleta) (w : world) (req : request) (resp : json) : Prop :=
  exists cfg data txt,
    get_simpleapi_config params = Ok cfg /\
    prepare_api_data r = Ok data /\
    req = emitir_request cfg data /\
    server (req :: outbox w) = Replied (Response 200 txt (Parsed resp)).

Definition folio_keys : list string :=
  ["folio"; "numeroDocumento"; "numero_boleta"; "numeroBoleta"; "numero"].

Definition success_keys : list string :=
  ["success"; "numeroDocumento"; "numero"; "folio"].

(** The first truthy value among the values of [keys], in that order. *)
Definition first_nonempty (d : list (string * json)) (keys : list string) : option json :=
  find Json.truthy (map (Json.get d) keys).

(** The response carries a truthy value under one of the success keys. *)
Definition classified_success (d : list (string * json)) : bool :=
  existsb (fun k => Json.truthy (Json.get d k)) success_keys.

Definition has_key (k : string) (d : list (string * json)) : bool :=
  match Json.lookup k d with Some _ => true | None => false end.

(** The classification in the words of the specification: [success] truthy,
    or one of [numeroDocumento], [numero], [folio] present. *)
Definition stated_success (d : list (string * json)) : bool :=
  Json.truthy (Json.get d "success")
  || has_key "numeroDocumento" d || has_key "numero" d || has_key "folio" d.

(** The error message stored when a successful response carries no folio. *)
Definition no_folio_message : string :=
  "Respuesta exitosa pero sin n" ++ u_acute ++ "mero de boleta".

(** The notification of a successful issuance. *)
Definition emitida (numero : string) : message :=
  Message ("Boleta emitida exitosamente. N" ++ u_acute ++ "mero: " ++ numero)
          notification.

(** The comment posted by the [except] block of the issuance. *)
Definition error_emitiendo (e : exn) : message :=
  Message ("Error emitiendo boleta: " ++ str_exn e) comment.

(** ** Sample data *)

Definition sample_params : settings := Settings None None None.

Definition sample_world : world := World 1700000000 [].

Definition sample_boleta : boleta :=
  Boleta 7 None (Some (Date 2024 5 17)) draft
         (Some "12.345.678-5") (Some "secreto") (Some "0") (Some "1")
         (Some "11.111.111-1") (Some "Cliente Uno") (Some "Calle 1") (Some "13")
         (Some "Santiago") (Some "Asesoria mayo") (150000 # 1)
         None (Some "cliente@dominio.cl") None None 0 None [].

(** A service that answers the n-th request with the n-th reply of a
    script, and with [dflt] once the script is exhausted. *)
Definition scripted (script : list reply) (dflt : reply) : list request -> reply :=
  fun sent => nth (List.length sent - 1) script dflt.

(** An HTTP answer whose body decodes to [j]. *)
Definition json_reply (status : Z) (j : json) : reply :=
  Replied (Response status (Json.dumps j) (Parsed j)).

(** An HTTP answer whose body is not JSON. *)
Definition text_reply (status : Z) (txt : string) : reply :=
  Replied (Response status txt (NotJson "Expecting value: line 1 column 1 (char 0)")).

(** The response of the specification's issuance example. *)
Definition folio_response : list (string * json) :=
  [("folio", JStr "123"); ("anio", JStr "2024")].

(** A response whose [folio] is present but empty, the folio being under a
    key that the success test does not look at. *)
Definition empty_folio_response : list (string * json) :=
  [("folio", JStr EmptyString); ("numeroBoleta", JStr "77")].

(** A response that claims success and names no folio. *)
Definition bare_success_response : list (string * json) :=
  [("success", JBool true)].

(** The service answers the first request with [j], the next ones fail. *)
Definition answering (j : json) : list request -> reply :=
  scripted [json_reply 200 j] (Failed "Connection refused").

(** The requests sent by [s] are still there in [s'], in the same order,
    below those sent since. *)
Definition outbox_grows (s s' : session) : Prop :=
  exists l, outbox (wld s') = (l ++ outbox (wld s))%list.

(** The record after the [except] block of the issuance has caught [e]. *)
Definition fallida (e : exn) (r : boleta) : boleta :=
  with_messages (messages r ++ [error_emitiendo e])
    (with_error_message (Some (str_exn e)) (with_state error r)).

(** A document like [sample_boleta] that lacks the description. *)
Definition sample_sin_descripcion : boleta :=
  Boleta 8 None (Some (Date 2024 5 17)) draft
         (Some "12.345.678-5") (Some "secreto") (Some "0") (Some "1")
         (Some "11.111.111-1") (Some "Cliente Dos") (Some "Calle 2") (Some "13")
         (Some "Santiago") None (150000 # 1)
         None (Some "cliente@dominio.cl") None None 0 None [].

(** A document that was issued before. *)
Definition sample_emitida : boleta :=
  Boleta 9 (Some "100") (Some (Date 2024 5 17)) emitted
         (Some "12.345.678-5") (Some "secreto") (Some "0") (Some "1")
         (Some "11.111.111-1") (Some "Cliente Tres") (Some "Calle 3") (Some "13")
         (Some "Santiago") (Some "Asesoria abril") (150000 # 1)
         None (Some "cliente@dominio.cl") None (Some 1690000000) 1 (Some "1") [].

(** The service of the specification's batch example: the first and the
    third request are issuances answered with a folio, the second and the
    fourth are the mail requests that follow them. *)
Definition batch_service : list request -> reply :=
  scripted [json_reply 200 (JDict folio_response);
            json_reply 202 (JDict []);
            json_reply 200 (JDict [("numeroDocumento", JInt 124)]);
            text_reply 500 "mail down"]
           (Failed "Connection refused").

(** ** Vocabulary of the void operations *)

(** The legacy void request of [r] is built as [req] and the service
    answers it with [resp]. *)
Definition legacy_answered (params : settings) (server : list request -> reply)
    (r : boleta) (w : world) (req : request) (resp : response) : Prop :=
  exists cfg rut,
    get_simpleapi_config params = Ok cfg /\
    clean_rut (rut_usuario r) = Ok rut /\
    req = anular_request cfg (numero_boleta r) rut (password_sii r) /\
    server (req :: outbox w) = Replied resp.

(** The preconditions of the path-style void. *)
Definition can_void_by_path (r : boleta) : bool :=
  can_be_voided (state r) && filled (numero_boleta r)
  && valid_motivo (motivo_anulacion r).

(** The path-style void request of [r] is built as [req] and the service
    answers it with [resp]. *)
Definition path_answered (params : settings) (server : list request -> reply)
    (r : boleta) (w : world) (req : request) (resp : response) : Prop :=
  exists cfg rut,
    get_simpleapi_config params = Ok cfg /\
    clean_rut (rut_usuario r) = Ok rut /\
    req = anular_path_request cfg (Py.strip (str_field (numero_boleta r)))
            (str_field (motivo_anulacion r)) rut (password_sii r) /\
    server (req :: outbox w) = Replied resp.

(** The record after a void: state [cancelled] and one more notification. *)
Definition anulada (note : string) (r : boleta) : boleta :=
  with_messages (messages r ++ [Message note notification])
    (with_state cancelled r).

(** The notification of the legacy void. *)
Definition legacy_note (r : boleta) (resp : response) : string :=
  "Boleta " ++ str_field (numero_boleta r)
  ++ " anulada exitosamente (legacy). Resp: " ++ Py.take 300 (text resp).

(** The error of the legacy void: the inner message is wrapped once more
    by the [except] block. *)
Definition legacy_error (resp : response) : exn :=
  Exn UserError
      ("Error anulando boleta: " ++ "Error anulando boleta: "
       ++ Py.take 300 (text resp)).

(** The error of the path-style void on a status other than 200 and 202. *)
Definition path_status_error (resp : response) : exn :=
  Exn UserError
      ("Error anulando boleta: " ++ Py.str_Z (status_code resp) ++ " - "
       ++ Py.take 300 (text resp)).

(** The notification of the path-style void for a body that is neither a
    JSON object nor a text with one of the keywords. *)
Definition fallback_note (r : boleta) (resp : response) : string :=
  "Boleta " ++ Py.strip (str_field (numero_boleta r)) ++ " anulada (HTTP "
  ++ Py.str_Z (status_code resp) ++ ") sin JSON; cuerpo: "
  ++ Py.take 300 (Py.strip (text resp)).

(** The notification of the path-style void for a JSON object. *)
Definition path_json_note (r : boleta) (data : list (string * json)) : string :=
  "Boleta " ++ Py.strip (str_field (numero_boleta r))
  ++ " anulada exitosamente (motivo " ++ str_field (motivo_anulacion r)
  ++ "). Resp: " ++ Json.str (JDict data).

Definition is_object (j : json) : bool :=
  match j with JDict _ => true | _ => false end.

(** A document that can be voided by either operation. *)
Definition sample_anulable : boleta :=
  Boleta 9 (Some "123") (Some (Date 2024 5 17)) emitted
         (Some "12.345.678-5") (Some "secreto") (Some "0") (Some "1")
         (Some "11.111.111-1") (Some "Cliente Tres") (Some "Calle 3") (Some "13")
         (Some "Santiago") (Some "Asesoria abril") (150000 # 1)
         None (Some "cliente@dominio.cl") None (Some 1690000000) 1 (Some "1") [].

(** The service answers every request alike. *)
Definition always (a : reply) : list request -> reply := fun _ => a.

(** A body that decodes to a JSON string and contains both keywords. *)
Definition quoted_text_response : response :=
  Response 200
    (Py.chr Py.dquote ++ "Boleta anulada correctamente" ++ Py.chr Py.dquote)
    (Parsed (JStr "Boleta anulada correctamente")).

(** An HTTP 202 answer with a body that indicates success. *)
Definition accepted_response : response :=
  Response 202 (Json.dumps (JDict [("success", JBool true)]))
           (Parsed (JDict [("success", JBool true)])).

(** An HTTP 500 answer in plain text. *)
Definition failed_response : response :=
  Response 500 "Internal error" (NotJson "Expecting value: line 1 column 1 (char 0)").

(** The configuration read from [sample_params]. *)
Definition sample_config : config :=
  Config "4648-N330-6392-2590-9354" "https://servicios.simpleapi.cl/api" 30.

Fixpoint repeat_char (c : ascii) (n : nat) : string :=
  match n with O => EmptyString | S n' => String c (repeat_char c n') end.

(** A plain-text body of 301 characters without any keyword. *)
Definition long_body : string := repeat_char "x" 301.

(** ** The RUT validator in the words of the specification *)

Module RutSpec.

(** The multiplier of the i-th digit from the right: 2, 3, ..., 7, 2, ... *)
Definition multiplier (i : nat) : Z := 2 + Z.of_nat (i mod 6).

Definition digit (c : N) : Z := Z.of_N c - 48.

(** The weighted sum of the digits, the least significant first, that one
    being the i-th from the right. *)
Fixpoint checksum_from (i : nat) (lsb_first : list N) : Z :=
  match lsb_first with
  | [] => 0
  | d :: ds => digit d * multiplier i + checksum_from (S i) ds
  end.

(** The check character of a body: "0" for remainder 0, "K" for 1, else the
    digit [11 - remainder]. *)
Definition expected_check (body : list N) : N :=
  let r := checksum_from 0 (rev body) mod 11 in
  if r =? 0 then 48%N else if r =? 1 then 75%N else Z.to_N (48 + (11 - r)).

Definition valid (rut : string) : bool :=
  let s := Py.upper (strip_separators rut) in
  (8 <=? List.length s)%nat
  && forallb Py.is_decimal (removelast s)
  && N.eqb (last s 0%N) (expected_check (removelast s)).

End RutSpec.



(** What [_validate_rut] answers for a number [numero] and a check
    character [dv], both upper-cased and without separators. *)
Definition verdict (numero : list N) (dv : N) : outcome bool :=
  if (List.length (numero ++ [dv]) <? 8)%nat then Ok false else
  if negb (Py.isdigit numero) then Ok false else
  obind (suma_loop (rev numero) 0 2) (fun suma =>
  let resto := suma mod 11 in
  let dv_calc :=
    if resto =? 0 then codes "0"
    else if resto =? 1 then codes "K"
    else codes (Py.str_Z (11 - resto)) in
  Ok (if list_eq_dec N.eq_dec [dv] dv_calc then true else false)).

(** A RUT whose number holds a superscript two. *)
Definition superscript_rut : string := "1234567" ++ String "178" "-5".

(** The characters removed from a RUT before it is checked. *)
Definition is_separator (c : ascii) : bool := Ascii.eqb c "." || Ascii.eqb c "-".

(** * Vocabulary of the further properties *)

Definition error_keys : list string :=
  ["error"; "mensaje"; "message"; "descripcion"; "detalle"].

(** The error of a response: the first truthy value among the values of
    the error keys, or the default text. *)
Definition error_of (d : list (string * json)) : json :=
  match first_nonempty d error_keys with
  | Some v => v
  | None => JStr "Error desconocido"
  end.

(** The error raised for an answer with a status other than 200. *)
Definition api_status_error (resp : response) : exn :=
  Exn UserError
      ("Error en API: " ++ Py.str_Z (status_code resp) ++ " - " ++ text resp).

(** The error raised when the request or the decoding of its answer
    fails. *)
Definition api_unexpected_error (why : string) : exn :=
  Exn UserError ("Error inesperado llamando SimpleAPI: " ++ why).

(** A response that reports an error under the second error key. *)
Definition rejected_response : list (string * json) :=
  [("error", JStr EmptyString); ("mensaje", JStr "RUT no autorizado")].

(** The message of the first precondition of the issuance that [r] fails,
    in the order of the checks. *)
Definition first_failed_check (r : boleta) : option string :=
  if negb (filled (descripcion_servicio r))
  then Some ("Debe agregar una descripci" ++ o_acute ++ "n del servicio")
  else if Qle_bool (valor_bruto r) 0
  then Some "El valor bruto debe ser mayor a cero"
  else if negb (valid_email (email_destinatario r))
  then Some ("Debe indicar un correo destinatario v" ++ a_acute
             ++ "lido (ej: correo@dominio.cl)")
  else None.

(** A document with neither a description, nor an amount, nor an address. *)
Definition sample_vacia : boleta :=
  Boleta 10 None (Some (Date 2024 5 17)) draft
         (Some "12.345.678-5") (Some "secreto") (Some "0") (Some "1")
         (Some "11.111.111-1") (Some "Cliente Cuatro") (Some "Calle 4") (Some "13")
         (Some "Santiago") None (0 # 1)
         None None None None 0 None [].

(** The fields that hold what the user entered. *)
Definition business_data (r : boleta) :=
  (id r, fecha_emision r, rut_usuario r, password_sii r, direccion_emisor r,
   retencion r,
   (receptor_rut r, receptor_nombre r, receptor_direccion r, receptor_region r,
    receptor_comuna r),
   descripcion_servicio r, valor_bruto r, email_destinatario r,
   motivo_anulacion r).

(** The document [r'] holds the business data of [r], and its chatter
    continues the one of [r]. *)
Definition data_kept (r r' : boleta) : Prop :=
  business_data r' = business_data r /\
  exists l, messages r' = (messages r ++ l)%list.

(** Nothing of the past is lost between [s] and [s']: the business data
    are the same, the chatter and the requests sent are continued, and the
    clock has not gone back. *)
Definition history_kept (s s' : session) : Prop :=
  data_kept (rec s) (rec s') /\
  (exists l, outbox (wld s') = (l ++ outbox (wld s))%list) /\
  clock (wld s) <= clock (wld s').

(** The issuance has ended well: the document is [emitted], holds a folio
    and the response, and no error message. *)
Definition ended_emitted (r : boleta) : Prop :=
  state r = emitted /\ filled (numero_boleta r) = true /\
  error_message r = None /\ filled (response_data r) = true.

(** The issuance has ended badly: the document is in [error] and holds a
    message. *)
Definition ended_error (r : boleta) : Prop :=
  state r = error /\ exists msg, error_message r = Some msg.

(** How a void of one document ends.  When it returns, the document was
    allowed to be voided, it is now [cancelled] with one more notification
    and nothing else changed, and one request was sent.  When it raises,
    the error is a [UserError], the document is what it was, and at most one
    request was sent. *)
Definition void_outcome (allowed : boleta -> bool) (s : session)
    (res : outcome unit * session) : Prop :=
  match res with
  | (Ok _, s') =>
      allowed (rec s) = true /\
      (exists note, rec s' = anulada note (rec s)) /\
      exists req, wld s' = sent req (wld s)
  | (Raise e, s') =>
      is_UserError e = true /\
      rec s' = rec s /\
      (wld s' = wld s \/ exists req, wld s' = sent req (wld s))
  end.

(** The message with which the path-style void refuses [r] before any
    request, in the order of the checks. *)
Definition path_refusal (r : boleta) : option string :=
  if negb (can_be_voided (state r))
  then Some "Solo se pueden anular boletas emitidas o descargadas"
  else if negb (filled (numero_boleta r))
  then Some "No existe folio para anular"
  else if negb (valid_motivo (motivo_anulacion r))
  then Some ("Debe seleccionar un motivo v" ++ a_acute ++ "lido (1, 2 o 3)")
  else None.



(** An HTTP 200 answer with an empty JSON object. *)
Definition empty_object_response : response :=
  Response 200 "{}" (Parsed (JDict [])).

(** The answer at HTTP 200 or 202 is a JSON object that denies the void. *)
Definition object_says_no (resp : response) : Prop :=
  exists data,
    json_of resp = Parsed (JDict data) /\
    (success_flag data = false \/ Json.truthy (Json.get data "error") = true).

(** An HTTP 200 answer that decodes to [null]. *)
Definition null_response : response := Response 200 "null" (Parsed JNull).



(** Settings whose timeout is not a number. *)
Definition broken_params : settings := Settings None None (Some "30s").

(** A document like [sample_boleta] whose recipient has no RUT. *)
Definition sample_sin_receptor : boleta :=
  Boleta 11 None (Some (Date 2024 5 17)) draft
         (Some "12.345.678-5") (Some "secreto") (Some "0") (Some "1")
         None (Some "Cliente Cinco") (Some "Calle 5") (Some "13")
         (Some "Santiago") (Some "Asesoria junio") (150000 # 1)
         None (Some "cliente@dominio.cl") None None 0 None [].

(** The fields of a document that do not describe the recipient. *)
Definition own_data (r : boleta) :=
  (id r, numero_boleta r, fecha_emision r, state r, rut_usuario r,
   password_sii r, direccion_emisor r, retencion r,
   (descripcion_servicio r, valor_bruto r, response_data r, error_message r,
    fecha_procesamiento r, intentos r, motivo_anulacion r, messages r)).

(** A partner of the address book. *)
Definition sample_partner : ResPartner.t :=
  ResPartner.Make (Some "11.111.111-1") (Some "Cliente Uno") (Some "Calle 1")
                  (Some ("Valpara" ++ i_acute ++ "so")) (Some "Quilpue")
                  (Some "otro@dominio.cl").

(** * Properties *)

(** ** The monad *)

Lemma bind_ok {S A B} (m : M S A) (k : A -> M S B) s a s' :
  m s = (Ok a, s') -> bind m k s = k a s'.
Proof. intros H. unfold bind. now rewrite H. Qed.

Lemma bind_raise {S A B} (m : M S A) (k : A -> M S B) s e s' :
  m s = (Raise e, s') -> bind m k s = (Raise e, s').
Proof. intros H. unfold bind. now rewrite H. Qed.

Lemma try_ok {S A} (m : M S A) h s a s' :
  m s = (Ok a, s') -> try_except m h s = (Ok a, s').
Proof. intros H. unfold try_except. now rewrite H. Qed.

Lemma try_raise {S A} (m : M S A) h s e s' :
  m s = (Raise e, s') -> try_except m h s = h e s'.
Proof. intros H. unfold try_except. now rewrite H. Qed.

(** ** Records: what a write leaves alone *)

Lemma same_fields_refl r : same_fields r r.
Proof. reflexivity. Qed.

Lemma same_fields_post r b t :
  same_fields (with_messages (messages r ++ [Message b t]) r) r.
Proof. destruct r; reflexivity. Qed.

Lemma same_fields_proj {A} (f : boleta -> A) r r' :
  (forall m x, f (with_messages m x) = f x) ->
  same_fields r r' -> f r = f r'.
Proof.
  intros Hf H. rewrite <- (Hf [] r), <- (Hf [] r').
  unfold same_fields in H. now rewrite H.
Qed.

Lemma same_fields_state r r' : same_fields r r' -> state r = state r'.
Proof. apply same_fields_proj. now intros m []. Qed.

Lemma same_fields_numero r r' :
  same_fields r r' -> numero_boleta r = numero_boleta r'.
Proof. apply same_fields_proj. now intros m []. Qed.

Lemma same_fields_error r r' :
  same_fields r r' -> error_message r = error_message r'.
Proof. apply same_fields_proj. now intros m []. Qed.

Lemma with_messages_twice m m' r :
  with_messages m (with_messages m' r) = with_messages m r.
Proof. now destruct r. Qed.

Lemma with_messages_same r : with_messages (messages r) r = r.
Proof. now destruct r. Qed.

Lemma same_fields_all r r' :
  same_fields r r' -> with_messages (messages r') r = r'.
Proof.
  intros H. rewrite <- (with_messages_twice _ [] r).
  unfold same_fields in H. rewrite H, with_messages_twice.
  apply with_messages_same.
Qed.

Lemma messages_with_messages m r : messages (with_messages m r) = m.
Proof. now destruct r. Qed.

Lemma cons_neq {A} (x : A) l : l <> x :: l.
Proof. intros H. apply (f_equal (@List.length _)) in H. cbn in H. lia. Qed.

(** ** Frames: what every step of a computation keeps *)

Section Preserves.

Variable P : session -> session -> Prop.
Hypothesis P_frame : frame P.

Let P_refl : forall s, P s s := frame_refl P P_frame.
Let P_trans : forall a b c, P a b -> P b c -> P a c := frame_trans P P_frame.

Lemma preserves_ret {A} (a : A) : preserves P (ret a).
Proof. intros s o s' H. injection H as <- <-. apply P_refl. Qed.

Lemma preserves_raise {A} e : preserves P (@raise session A e).
Proof. intros s o s' H. injection H as <- <-. apply P_refl. Qed.

Lemma preserves_lift {A} (x : outcome A) : preserves P (lift x).
Proof. intros s o s' H. injection H as <- <-. apply P_refl. Qed.

Lemma preserves_gets {A} (f : session -> A) : preserves P (gets f).
Proof. intros s o s' H. injection H as <- <-. apply P_refl. Qed.

Lemma preserves_raise_if c e : preserves P (raise_if c e).
Proof. destruct c; [apply preserves_raise | apply preserves_ret]. Qed.

Lemma preserves_now : preserves P datetime_now.
Proof. apply preserves_gets. Qed.

Lemma preserves_bind {A B} (m : M session A) (k : A -> M session B) :
  preserves P m -> (forall a, preserves P (k a)) -> preserves P (bind m k).
Proof.
  intros Hm Hk s o s' H. unfold bind in H.
  destruct (m s) as [[a|e] s1] eqn:E.
  - eapply P_trans; [eapply Hm, E | eapply Hk, H].
  - injection H as <- <-. eapply Hm, E.
Qed.

Lemma preserves_try {A} (m : M session A) h :
  preserves P m -> (forall e, preserves P (h e)) -> preserves P (try_except m h).
Proof.
  intros Hm Hh s o s' H. unfold try_except in H.
  destruct (m s) as [[a|e] s1] eqn:E.
  - injection H as <- <-. eapply Hm, E.
  - eapply P_trans; [eapply Hm, E | eapply Hh, H].
Qed.

End Preserves.

Lemma preserves_on_rec P f :
  (forall s, P s (Session (f (rec s)) (wld s))) -> preserves P (on_rec f).
Proof. intros Hf s o s' H. injection H as <- <-. apply Hf. Qed.

Lemma preserves_sleep P n :
  (forall s, P s (Session (rec s) (World (clock (wld s) + n) (outbox (wld s))))) ->
  preserves P (sleep n).
Proof. intros Hf s o s' H. injection H as <- <-. apply Hf. Qed.

Lemma preserves_post P server req :
  (forall s, P s (Session (rec s) (sent req (wld s)))) ->
  preserves P (post server req).
Proof.
  intros Hf s o s' H. unfold post in H.
  destruct (server _); injection H as <- <-; apply Hf.
Qed.

Lemma preserves_message_post P b t :
  (forall s, P s (Session (with_messages (messages (rec s) ++ [Message b t]) (rec s))
                          (wld s))) ->
  preserves P (message_post b t).
Proof. intros Hf. apply preserves_on_rec, Hf. Qed.

(** Walks through a computation, leaving the writes to be justified. *)
Ltac frame_step :=
  first
    [ apply preserves_bind; [assumption | | intros ?]
    | apply preserves_try; [assumption | | intros ?]
    | apply preserves_ret; assumption
    | apply preserves_raise; assumption
    | apply preserves_lift; assumption
    | apply preserves_gets; assumption
    | apply preserves_raise_if; assumption
    | apply preserves_now; assumption
    | apply preserves_sleep; intros ?
    | apply preserves_post; intros ?
    | apply preserves_message_post; intros ?
    | apply preserves_on_rec; intros ?
    | match goal with
      | |- preserves _ (if ?b then _ else _) => destruct b
      | |- preserves _ (match ?x with _ => _ end) => destruct x
      | |- preserves _ (let _ := _ in _) => cbv zeta
      end ].

Ltac frame_walk := repeat frame_step.

(** ** The attempt counter and the time stamp *)

Lemma tracking_frame : frame tracking_kept.
Proof.
  split; [now split|]. unfold tracking_kept. intros a b c [] []. split; congruence.
Qed.

(** The writes to the other fields leave them alone. *)
Ltac tracking_write :=
  match goal with
  | s : session |- tracking_kept _ _ => destruct s as [[] ?]; now split
  end.

Section Tracking.

Variable params : settings.
Variable server : list request -> reply.

Lemma emitir_tracking : preserves tracking_kept (emitir params server).
Proof.
  pose proof tracking_frame as F.
  unfold emitir. frame_walk; tracking_write.
Qed.

Lemma emitir_except_tracking e : preserves tracking_kept (emitir_except e).
Proof.
  pose proof tracking_frame as F.
  unfold emitir_except. frame_walk; tracking_write.
Qed.

End Tracking.

(** Unfolds the monadic plumbing, leaving the decisions of the code. *)
Ltac run :=
  unfold raise_if, datetime_now, message_post, on_rec;
  unfold try_except, bind, lift, sleep, gets, post, modify, ret, raise;
  cbn [rec wld clock outbox fst snd].

(** ** The mail request never harms the document *)

Section MailStep.

Variable params : settings.
Variable server : list request -> reply.

Lemma solicitar_correo_frame folio anio email s :
  exists s',
    solicitar_correo params server folio anio email s = (Ok tt, s') /\
    same_fields (rec s') (rec s) /\
    (forall req resp,
        outbox (wld s') = req :: outbox (wld s) ->
        server (req :: outbox (wld s)) = Replied resp ->
        (status_code resp =? 200) || (status_code resp =? 202) = false ->
        messages (rec s') = (messages (rec s) ++ [mail_refused resp])%list) /\
    (forall req why,
        outbox (wld s') = req :: outbox (wld s) ->
        server (req :: outbox (wld s)) = Failed why ->
        messages (rec s') = (messages (rec s) ++ [mail_failed why])%list).
Proof.
  destruct s as [r w].
  unfold solicitar_correo, send_mail_via_simpleapi. 
  change (1 =? 0) with false. cbv iota.
  run.
  destruct (get_simpleapi_config params) as [cfg|e].
  2:{ eexists; split; [reflexivity|]. cbn [rec wld outbox]. split; [apply same_fields_post|].
      split; intros req x Hout; exact (False_ind _ (cons_neq _ _ Hout)). }
  destruct (clean_rut (rut_usuario r)) as [rut|e].
  2:{ eexists; split; [reflexivity|]. cbn [rec wld outbox]. split; [apply same_fields_post|].
      split; intros req x Hout; exact (False_ind _ (cons_neq _ _ Hout)). }
  set (req0 := mail_request cfg folio anio rut (password_sii r) email).
  destruct (server (req0 :: outbox w)) as [resp|why] eqn:Hsrv.
  - destruct ((status_code resp =? 200) || (status_code resp =? 202)) eqn:Hst.
    + eexists; split; [reflexivity|]. cbn [rec wld outbox]. split; [apply same_fields_post|].
      split; intros req x Hout Hreq; injection Hout as <-;
        rewrite Hsrv in Hreq; [injection Hreq as <-; congruence | discriminate].
    + eexists; split; [reflexivity|]. cbn [rec wld outbox]. split; [apply same_fields_post|].
      split; intros req x Hout Hreq; injection Hout as <-;
        rewrite Hsrv in Hreq; [injection Hreq as <-; now rewrite messages_with_messages | discriminate].
  - eexists; split; [reflexivity|]. cbn [rec wld outbox]. split; [apply same_fields_post|].
    split; intros req x Hout Hreq; injection Hout as <-;
      rewrite Hsrv in Hreq; [discriminate | injection Hreq as <-; now rewrite messages_with_messages].
Qed.
End MailStep.

(** ** The issuance, step by step *)

Lemma iniciar_emision_run r w :
  iniciar_emision (Session r w) = (Ok tt, Session (iniciado r w) w).
Proof. destruct r; reflexivity. Qed.

Lemma ready_iniciado r w : ready_to_issue (iniciado r w) = ready_to_issue r.
Proof. now destruct r. Qed.

Lemma prepare_iniciado r w : prepare_api_data (iniciado r w) = prepare_api_data r.
Proof. now destruct r. Qed.

Lemma is_success_classified d : is_success (JDict d) = Ok (classified_success d).
Proof.
  unfold is_success, classified_success, success_keys, as_dict, obind, Json.or_else.
  cbn [existsb]. f_equal.
  destruct (Json.truthy (Json.get d "success")) eqn:E1; cbn [orb].
  { rewrite E1. now rewrite E1. }
  destruct (Json.truthy (Json.get d "numeroDocumento")) eqn:E2; cbn [orb].
  { now rewrite E2. }
  destruct (Json.truthy (Json.get d "numero")) eqn:E3; cbn [orb].
  { easy. }
  now rewrite orb_false_r.
Qed.

Lemma folio_first_nonempty d :
  first_nonempty d folio_keys =
  if Json.truthy (folio_of d) then Some (folio_of d) else None.
Proof.
  unfold first_nonempty, folio_keys, folio_of, Json.or_else. cbn [map find].
  destruct (Json.truthy (Json.get d "folio")) eqn:E1.
  { now rewrite !E1. }
  destruct (Json.truthy (Json.get d "numeroDocumento")) eqn:E2.
  { now rewrite !E2. }
  destruct (Json.truthy (Json.get d "numero_boleta")) eqn:E3.
  { now rewrite !E3. }
  destruct (Json.truthy (Json.get d "numeroBoleta")) eqn:E4.
  { now rewrite !E4. }
  destruct (Json.truthy (Json.get d "numero")) eqn:E5; reflexivity.
Qed.

Section Issuance.
Variable params : settings.
Variable server : list request -> reply.

Lemma call_simpleapi_ok cfg data txt resp s :
  get_simpleapi_config params = Ok cfg ->
  server (emitir_request cfg data :: outbox (wld s))
    = Replied (Response 200 txt (Parsed resp)) ->
  call_simpleapi params server data s
    = (Ok resp, Session (rec s) (sent (emitir_request cfg data) (wld s))).
Proof.
  intros Hcfg Hsrv. unfold call_simpleapi. run. rewrite Hcfg, Hsrv.
  reflexivity.
Qed.

Lemma emitir_ready s data :
  ready_to_issue (rec s) = true ->
  prepare_api_data (rec s) = Ok data ->
  emitir params server s
  = bind (call_simpleapi params server data) (procesar_respuesta params server) s.
Proof.
  intros Hready Hdata.
  unfold ready_to_issue in Hready.
  apply andb_true_iff in Hready as [Hready Hmail].
  apply andb_true_iff in Hready as [Hdesc Hval].
  apply negb_true_iff in Hval.
  unfold emitir.
  unfold bind at 1. unfold gets at 1.
  unfold bind at 1. rewrite Hdesc. unfold raise_if at 1, ret at 1, negb.
  unfold bind at 1. rewrite Hval. unfold raise_if at 1, ret at 1.
  unfold bind at 1. rewrite Hmail. unfold raise_if at 1, ret at 1, negb.
  unfold bind at 1. rewrite Hdata. unfold lift at 1.
  reflexivity.
Qed.

Lemma emitir_answered s req resp :
  ready_to_issue (rec s) = true ->
  issuance_answered params server (rec s) (wld s) req resp ->
  emitir params server s
    = procesar_respuesta params server resp (Session (rec s) (sent req (wld s))).
Proof.
  intros Hready (cfg & data & txt & Hcfg & Hdata & -> & Hsrv).
  rewrite (emitir_ready s data Hready Hdata). unfold bind.
  now rewrite (call_simpleapi_ok cfg data txt resp s Hcfg Hsrv).
Qed.

Lemma emitir_boleta_answered r w req resp :
  ready_to_issue r = true ->
  issuance_answered params server r w req resp ->
  emitir_boleta params server (Session r w)
    = try_except (procesar_respuesta params server resp) emitir_except
        (Session (iniciado r w) (sent req w)).
Proof.
  intros Hready Hans.
  unfold emitir_boleta, try_except, bind. rewrite iniciar_emision_run.
  rewrite (emitir_answered (Session (iniciado r w) w) req resp).
  - reflexivity.
  - cbn [rec]. now rewrite ready_iniciado.
  - cbn [rec wld]. destruct Hans as (cfg & data & txt & ? & ? & ? & ?).
    exists cfg, data, txt. now rewrite prepare_iniciado.
Qed.

Lemma process_success_emitted d s :
  Json.truthy (folio_of d) = true ->
  exists s',
    process_successful_response params server (JDict d) s = (Ok tt, s') /\
    state (rec s') = emitted /\
    numero_boleta (rec s') = Some (Json.str (folio_of d)) /\
    error_message (rec s') = None /\
    response_data (rec s') = Some (Json.dumps (JDict d)) /\
    tracking_kept s s' /\
    (forall req resp,
        outbox (wld s') = req :: outbox (wld s) ->
        server (req :: outbox (wld s)) = Replied resp ->
        (status_code resp =? 200) || (status_code resp =? 202) = false ->
        messages (rec s')
        = (messages (rec s) ++ [emitida (Json.str (folio_of d)); mail_refused resp])%list) /\
    (forall req why,
        outbox (wld s') = req :: outbox (wld s) ->
        server (req :: outbox (wld s)) = Failed why ->
        messages (rec s')
        = (messages (rec s) ++ [emitida (Json.str (folio_of d)); mail_failed why])%list).
Proof.
  intros Hfolio. destruct s as [r w].
  unfold process_successful_response. run. unfold as_dict. cbv zeta. rewrite Hfolio.
  cbn [rec wld].
  set (r1 := with_messages _ _).
  assert (Hr1 : state r1 = emitted /\ numero_boleta r1 = Some (Json.str (folio_of d))
                /\ error_message r1 = None
                /\ response_data r1 = Some (Json.dumps (JDict d))
                /\ tracking_kept (Session r w) (Session r1 w)
                /\ messages r1 = (messages r ++ [emitida (Json.str (folio_of d))])%list).
  { subst r1. destruct r. repeat split. }
  clearbody r1.
  destruct Hr1 as (H1 & H2 & H3 & H4 & H5 & H6).
  set (anio := match fecha_emision _ with Some _ => _ | None => _ end).
  clearbody anio.
  assert (Hno : forall out : outcome unit,
             exists s', (out, Session r1 w) = (out, s') /\
               state (rec s') = emitted /\
               numero_boleta (rec s') = Some (Json.str (folio_of d)) /\
               error_message (rec s') = None /\
               response_data (rec s') = Some (Json.dumps (JDict d)) /\
               tracking_kept (Session r w) s' /\
               (forall req (resp : response),
                   outbox (wld s') = req :: outbox w ->
                   server (req :: outbox w) = Replied resp ->
                   (status_code resp =? 200) || (status_code resp =? 202) = false ->
                   messages (rec s')
                   = (messages r ++ [emitida (Json.str (folio_of d)); mail_refused resp])%list) /\
               (forall req (why : string),
                   outbox (wld s') = req :: outbox w ->
                   server (req :: outbox w) = Failed why ->
                   messages (rec s')
                   = (messages r ++ [emitida (Json.str (folio_of d)); mail_failed why])%list)).
  { intros out. eexists. split; [reflexivity|]. cbn [rec wld].
    repeat split; try assumption; try apply H5;
      intros req x Hout; exact (False_ind _ (cons_neq _ _ Hout)). }
  destruct anio as [n|]; [|apply Hno].
  match goal with |- context [if ?c then _ else _] => destruct c end; [|apply Hno].
  clear Hno.
  match goal with |- context [solicitar_correo _ _ ?f ?a ?e] =>
    destruct (solicitar_correo_frame params server f a e (Session r1 w))
      as (s' & Hrun & Hsame & Hrefused & Hfailed)
  end.
  cbn [rec wld] in Hsame, Hrefused, Hfailed.
  exists s'. split; [exact Hrun|].
  rewrite (same_fields_state _ _ Hsame), (same_fields_numero _ _ Hsame),
    (same_fields_error _ _ Hsame).
  unfold tracking_kept in H5 |- *. cbn [rec] in H5 |- *. destruct H5 as [H5 H5'].
  repeat split; try assumption.
  - rewrite <- H4. apply same_fields_proj; [now intros m []|exact Hsame].
  - rewrite <- H5. apply same_fields_proj; [now intros m []|exact Hsame].
  - rewrite <- H5'. apply same_fields_proj; [now intros m []|exact Hsame].
  - intros req resp Hout Hsrv Hst.
    rewrite (Hrefused req resp Hout Hsrv Hst), H6, <- app_assoc. reflexivity.
  - intros req why Hout Hsrv.
    rewrite (Hfailed req why Hout Hsrv), H6, <- app_assoc. reflexivity.
Qed.

Lemma process_success_without_folio d s :
  Json.truthy (folio_of d) = false ->
  exists s',
    process_successful_response params server (JDict d) s = (Ok tt, s') /\
    state (rec s') = error /\
    error_message (rec s') = Some no_folio_message /\
    response_data (rec s') = Some (Json.dumps (JDict d)) /\
    messages (rec s')
    = (messages (rec s)
       ++ [Message ("Respuesta exitosa sin folio. Response: " ++ Json.dumps (JDict d))
                   comment])%list /\
    wld s' = wld s.
Proof.
  intros Hfolio. destruct s as [r w].
  unfold process_successful_response. run. unfold as_dict. cbv zeta. rewrite Hfolio.
  eexists. split; [reflexivity|]. cbn [rec wld]. now destruct r.
Qed.

Lemma emitir_boleta_single r w s :
  emitir_boleta params server (Session r w) = (Ok tt, s) ->
  action_emitir_boleta params server [r] w = (Ok tt, ([rec s], wld s)).
Proof.
  intros H. unfold action_emitir_boleta. cbn [for_each]. now rewrite H.
Qed.

End Issuance.

(** * The claims *)

Section IssuanceClaims.

Variable params : settings.
Variable server : list request -> reply.

(** C1 (as amended): when the service answers the issuance request with a
    JSON object that carries a truthy value under [success],
    [numeroDocumento], [numero] or [folio], and [folio] is the first truthy
    value among [folio], [numeroDocumento], [numero_boleta], [numeroBoleta],
    [numero] in that order, the document ends in state [emitted], its
    [numero_boleta] is [str(folio)] and its error message is cleared. *)
Theorem issuance_success_sets_folio r w req d folio :
  ready_to_issue r = true ->
  issuance_answered params server r w req (JDict d) ->
  classified_success d = true ->
  first_nonempty d folio_keys = Some folio ->
  exists s',
    emitir_boleta params server (Session r w) = (Ok tt, s') /\
    action_emitir_boleta params server [r] w = (Ok tt, ([rec s'], wld s')) /\
    state (rec s') = emitted /\
    numero_boleta (rec s') = Some (Json.str folio) /\
    error_message (rec s') = None.
Proof.
  intros Hready Hans Hclass Hfolio.
  rewrite folio_first_nonempty in Hfolio.
  destruct (Json.truthy (folio_of d)) eqn:Htruthy; [|discriminate].
  injection Hfolio as <-.
  destruct (process_success_emitted params server d (Session (iniciado r w) (sent req w)) Htruthy)
    as (s' & Hrun & Hst & Hnum & Herr & _).
  assert (Hone : emitir_boleta params server (Session r w) = (Ok tt, s')).
  { rewrite (emitir_boleta_answered params server r w req (JDict d) Hready Hans).
    unfold try_except, procesar_respuesta, bind, lift.
    rewrite is_success_classified, Hclass, Hrun. reflexivity. }
  exists s'. repeat split; try assumption.
  now apply emitir_boleta_single.
Qed.

(** C4: when the service answers the issuance request with a JSON object
    that the code classifies as successful but that has no truthy value
    under any of the folio keys, the document ends in state [error] with the
    message of a successful response without folio, the serialized response
    is kept in [response_data], and the operation returns without raising:
    the last entry of the chatter is the comment of this case, not the one of
    the [except] block. *)
Theorem success_without_folio_is_error r w req d :
  ready_to_issue r = true ->
  issuance_answered params server r w req (JDict d) ->
  is_success (JDict d) = Ok true ->
  (forall k, In k folio_keys -> Json.truthy (Json.get d k) = false) ->
  exists s',
    emitir_boleta params server (Session r w) = (Ok tt, s') /\
    action_emitir_boleta params server [r] w = (Ok tt, ([rec s'], wld s')) /\
    state (rec s') = error /\
    error_message (rec s') = Some no_folio_message /\
    response_data (rec s') = Some (Json.dumps (JDict d)) /\
    messages (rec s')
    = (messages (iniciado r w)
       ++ [Message ("Respuesta exitosa sin folio. Response: " ++ Json.dumps (JDict d))
                   comment])%list.
Proof.
  intros Hready Hans Hclass Hnone.
  assert (Htruthy : Json.truthy (folio_of d) = false).
  { pose proof (folio_first_nonempty d) as H.
    destruct (Json.truthy (folio_of d)) eqn:E; [|reflexivity].
    unfold first_nonempty in H. apply find_some in H as [Hin Ht].
    apply in_map_iff in Hin as (k & Hget & Hk).
    rewrite <- Hget, (Hnone k Hk) in Ht. discriminate. }
  destruct (process_success_without_folio params server d (Session (iniciado r w) (sent req w)) Htruthy)
    as (s' & Hrun & Hst & Herr & Hdata & Hmsg & _).
  assert (Hone : emitir_boleta params server (Session r w) = (Ok tt, s')).
  { rewrite (emitir_boleta_answered params server r w req (JDict d) Hready Hans).
    unfold try_except, procesar_respuesta, bind, lift.
    rewrite Hclass, Hrun. reflexivity. }
  exists s'. repeat split; try assumption.
  now apply emitir_boleta_single.
Qed.

(** C8: once [_process_successful_response] has found a folio, the document
    ends in state [emitted] with that folio and no error message whatever
    becomes of the mail request; when the request is answered with a status
    outside 200..299, or raises, the only trace is one more comment in the
    chatter after the notification of the issuance. *)
Theorem mail_failure_keeps_emitted d s :
  Json.truthy (folio_of d) = true ->
  exists s',
    process_successful_response params server (JDict d) s = (Ok tt, s') /\
    state (rec s') = emitted /\
    numero_boleta (rec s') = Some (Json.str (folio_of d)) /\
    error_message (rec s') = None /\
    (forall req resp,
        outbox (wld s') = req :: outbox (wld s) ->
        server (req :: outbox (wld s)) = Replied resp ->
        (status_code resp <? 200) || (299 <? status_code resp) = true ->
        messages (rec s')
        = (messages (rec s) ++ [emitida (Json.str (folio_of d)); mail_refused resp])%list) /\
    (forall req why,
        outbox (wld s') = req :: outbox (wld s) ->
        server (req :: outbox (wld s)) = Failed why ->
        messages (rec s')
        = (messages (rec s) ++ [emitida (Json.str (folio_of d)); mail_failed why])%list).
Proof.
  intros Hfolio.
  destruct (process_success_emitted params server d s Hfolio)
    as (s' & Hrun & Hst & Hnum & Herr & _ & _ & Hrefused & Hfailed).
  exists s'. repeat split; try assumption.
  intros req resp Hout Hsrv Hcode. apply (Hrefused req resp Hout Hsrv).
  apply orb_true_iff in Hcode. apply orb_false_iff.
  split; apply Z.eqb_neq; destruct Hcode as [H|H]; apply Z.ltb_lt in H; lia.
Qed.

End IssuanceClaims.

(** The issuance example of the specification: the answer
    [{"folio": "123", "anio": "2024"}]. *)
Lemma issuance_success_sets_folio_witness :
  exists s',
    emitir_boleta sample_params (answering (JDict folio_response))
                  (Session sample_boleta sample_world) = (Ok tt, s') /\
    action_emitir_boleta sample_params (answering (JDict folio_response))
                         [sample_boleta] sample_world
    = (Ok tt, ([rec s'], wld s')) /\
    state (rec s') = emitted /\
    numero_boleta (rec s') = Some "123" /\
    error_message (rec s') = None.
Proof.
  eapply (issuance_success_sets_folio sample_params (answering (JDict folio_response))
           sample_boleta sample_world _ folio_response (JStr "123")).
  - reflexivity.
  - eexists _, _, _. repeat split; reflexivity.
  - reflexivity.
  - reflexivity.
Defined.

(** C1 (as stated) fails: in a response with an empty [folio] and
    [numeroBoleta] = "77" the key [folio] is present and the first
    non-empty candidate is "77", yet the
    success test, which looks at the truth of the values, sends the response
    to the error branch: the document ends in [error] without folio. *)
Lemma present_but_empty_field_not_success :
  stated_success empty_folio_response = true /\
  first_nonempty empty_folio_response folio_keys = Some (JStr "77") /\
  ready_to_issue sample_boleta = true /\
  (exists req,
      issuance_answered sample_params (answering (JDict empty_folio_response))
                        sample_boleta sample_world req (JDict empty_folio_response)) /\
  exists s',
    emitir_boleta sample_params (answering (JDict empty_folio_response))
                  (Session sample_boleta sample_world) = (Ok tt, s') /\
    state (rec s') = error /\
    state (rec s') <> emitted /\
    numero_boleta (rec s') = None /\
    error_message (rec s') = Some "Error desconocido".
Proof.
  repeat split; try reflexivity.
  - eexists _, _, _, _. repeat split; reflexivity.
  - eexists. split; [vm_compute; reflexivity|].
    repeat split; try reflexivity. discriminate.
Qed.

(** The ambiguous success of the specification: the answer
    [{"success": true}]. *)
Lemma success_without_folio_is_error_witness :
  exists s',
    emitir_boleta sample_params (answering (JDict bare_success_response))
                  (Session sample_boleta sample_world) = (Ok tt, s') /\
    action_emitir_boleta sample_params (answering (JDict bare_success_response))
                         [sample_boleta] sample_world
    = (Ok tt, ([rec s'], wld s')) /\
    state (rec s') = error /\
    error_message (rec s') = Some no_folio_message /\
    response_data (rec s') = Some (Json.dumps (JDict bare_success_response)) /\
    messages (rec s')
    = (messages (iniciado sample_boleta sample_world)
       ++ [Message ("Respuesta exitosa sin folio. Response: "
                    ++ Json.dumps (JDict bare_success_response)) comment])%list.
Proof.
  eapply (success_without_folio_is_error sample_params
           (answering (JDict bare_success_response)) sample_boleta sample_world _
           bare_success_response).
  - reflexivity.
  - eexists _, _, _. repeat split; reflexivity.
  - reflexivity.
  - intros k Hk. cbn in Hk.
    repeat (destruct Hk as [<-|Hk]; [reflexivity|]). destruct Hk.
Defined.

(** A mail request that times out after the issuance. *)
Lemma mail_failure_keeps_emitted_witness :
  exists s',
    process_successful_response sample_params (fun _ => Failed "Read timed out")
      (JDict folio_response) (Session sample_boleta sample_world) = (Ok tt, s') /\
    state (rec s') = emitted /\
    numero_boleta (rec s') = Some "123" /\
    error_message (rec s') = None /\
    messages (rec s') = [emitida "123"; mail_failed "Read timed out"].
Proof.
  destruct (mail_failure_keeps_emitted sample_params (fun _ => Failed "Read timed out")
              folio_response (Session sample_boleta sample_world) eq_refl)
    as (s' & Hrun & Hst & Hnum & Herr & _ & Hfailed).
  exists s'. repeat split; try assumption.
  assert (Hout : exists req, outbox (wld s') = req :: outbox (wld (Session sample_boleta sample_world))).
  { vm_compute in Hrun. injection Hrun as <-. eexists. reflexivity. }
  destruct Hout as [req Hout].
  exact (Hfailed req "Read timed out" Hout eq_refl).
Defined.

(** ** The loop of the issuance *)

Lemma outbox_grows_frame : frame outbox_grows.
Proof.
  split.
  - intros s. now exists [].
  - intros a b c [l Hl] [l' Hl']. exists (l' ++ l)%list.
    now rewrite Hl', Hl, app_assoc.
Qed.

Ltac outbox_write :=
  match goal with
  | s : session |- outbox_grows _ _ =>
      first [ now exists [] | now eexists [_] ]
  end.

Lemma emitir_except_run e s :
  emitir_except e s = (Ok tt, Session (fallida e (rec s)) (wld s)).
Proof. destruct s as [r w]. now destruct r. Qed.

Lemma iniciado_state st r w : iniciado (with_state st r) w = iniciado r w.
Proof. now destruct r. Qed.

Section IssuanceLoop.

Variable params : settings.
Variable server : list request -> reply.

Lemma emitir_boleta_returns s :
  exists s', emitir_boleta params server s = (Ok tt, s').
Proof.
  unfold emitir_boleta, try_except.
  destruct ((iniciar_emision ;; emitir params server)%py s) as [[[]|e] s1].
  - now exists s1.
  - rewrite emitir_except_run. eexists. reflexivity.
Qed.

Lemma action_emitir_boleta_returns self w :
  exists out w',
    action_emitir_boleta params server self w = (Ok tt, (out, w')) /\
    List.length out = List.length self.
Proof.
  unfold action_emitir_boleta. revert w.
  induction self as [|r rest IH]; intros w; cbn [for_each].
  - now exists [], w.
  - destruct (emitir_boleta_returns (Session r w)) as [s Hs]. rewrite Hs.
    destruct (IH (wld s)) as (out & w' & Hrest & Hlen). rewrite Hrest.
    exists (rec s :: out), w'. cbn [List.length]. now rewrite Hlen.
Qed.

Lemma emitir_not_ready s :
  ready_to_issue (rec s) = false ->
  exists e, emitir params server s = (Raise e, s).
Proof.
  intros H. unfold ready_to_issue in H. unfold emitir. run.
  destruct (filled (descripcion_servicio (rec s))); cbn [negb];
    [|eexists; reflexivity].
  destruct (Qle_bool (valor_bruto (rec s)) 0); cbn [negb andb] in H |- *;
    [eexists; reflexivity|].
  rewrite H. eexists; reflexivity.
Qed.

Lemma call_simpleapi_sends cfg data s o s' :
  get_simpleapi_config params = Ok cfg ->
  call_simpleapi params server data s = (o, s') ->
  s' = Session (rec s) (sent (emitir_request cfg data) (wld s)).
Proof.
  intros Hcfg. unfold call_simpleapi. run. rewrite Hcfg.
  destruct (server _) as [resp|why];
    [destruct (status_code resp =? 200);
     [destruct (resp_json resp) as [j|e]; [|destruct (is_UserError e)]|]|];
    cbn [is_UserError exn_class_of]; intros H; now injection H as <- <-.
Qed.

Lemma procesar_respuesta_outbox resp :
  preserves outbox_grows (procesar_respuesta params server resp).
Proof.
  pose proof outbox_grows_frame as F.
  unfold procesar_respuesta. frame_walk; outbox_write.
Qed.

(** C2: the issuance of a batch never raises and visits every document;
    whatever exception the [try] block of a document raises is caught: the
    document is put in state [error], [str(e)] is stored as its error
    message, a comment with it is posted, and the loop goes on with the
    next documents. *)
Theorem issuance_batch_catches_errors :
  (forall r w e s1,
      (iniciar_emision ;; emitir params server)%py (Session r w) = (Raise e, s1) ->
      exists s2,
        emitir_boleta params server (Session r w) = (Ok tt, s2) /\
        wld s2 = wld s1 /\
        state (rec s2) = error /\
        error_message (rec s2) = Some (str_exn e) /\
        messages (rec s2) = (messages (rec s1) ++ [error_emitiendo e])%list) /\
  (forall self w, exists out w',
      action_emitir_boleta params server self w = (Ok tt, (out, w')) /\
      List.length out = List.length self) /\
  (forall r rest w, exists s out w',
      emitir_boleta params server (Session r w) = (Ok tt, s) /\
      action_emitir_boleta params server rest (wld s) = (Ok tt, (out, w')) /\
      action_emitir_boleta params server (r :: rest) w
      = (Ok tt, (rec s :: out, w'))).
Proof.
  split; [|split].
  - intros r w e s1 H. exists (Session (fallida e (rec s1)) (wld s1)).
    unfold emitir_boleta, try_except. rewrite H, emitir_except_run.
    split; [reflexivity|]. cbn [rec wld]. destruct (rec s1). repeat split.
  - apply action_emitir_boleta_returns.
  - intros r rest w.
    destruct (emitir_boleta_returns (Session r w)) as [s Hs].
    destruct (action_emitir_boleta_returns rest (wld s)) as (out & w' & Hrest & _).
    exists s, out, w'. split; [exact Hs|]. split; [exact Hrest|].
    unfold action_emitir_boleta in *. cbn [for_each]. now rewrite Hs, Hrest.
Qed.

(** C7: the issuance does not look at the state of the document: it runs
    alike from every state.  Each run first puts the document in state
    [processing], adds one to [intentos] and stamps the processing time;
    the counter and the stamp stay so to the end, also when a precondition
    fails (the document then ends in [error]); and when the preconditions
    hold and the request can be built it is sent, whatever the state was. *)
Theorem issuance_always_attempted r w :
  (forall st,
      emitir_boleta params server (Session (with_state st r) w)
      = emitir_boleta params server (Session r w)) /\
  iniciar_emision (Session r w) = (Ok tt, Session (iniciado r w) w) /\
  state (iniciado r w) = processing /\
  intentos (iniciado r w) = intentos r + 1 /\
  fecha_procesamiento (iniciado r w) = Some (clock w) /\
  emitir_boleta params server (Session r w)
  = try_except (emitir params server) emitir_except (Session (iniciado r w) w) /\
  (exists s',
      emitir_boleta params server (Session r w) = (Ok tt, s') /\
      intentos (rec s') = intentos r + 1 /\
      fecha_procesamiento (rec s') = Some (clock w) /\
      (ready_to_issue r = false -> state (rec s') = error) /\
      (forall cfg data,
          ready_to_issue r = true ->
          get_simpleapi_config params = Ok cfg ->
          prepare_api_data r = Ok data ->
          exists l, outbox (wld s') = (l ++ emitir_request cfg data :: outbox w)%list)).
Proof.
  assert (Hfactor : forall r0,
             emitir_boleta params server (Session r0 w)
             = try_except (emitir params server) emitir_except
                 (Session (iniciado r0 w) w)).
  { intros r0. unfold emitir_boleta, try_except, bind.
    now rewrite iniciar_emision_run. }
  split; [intros st; now rewrite !Hfactor, iniciado_state|].
  split; [apply iniciar_emision_run|].
  split; [now destruct r|]. split; [now destruct r|]. split; [now destruct r|].
  split; [apply Hfactor|].
  destruct (emitir_boleta_returns (Session r w)) as [s' Hs']. exists s'.
  split; [exact Hs'|].
  rewrite Hfactor in Hs'. unfold try_except in Hs'.
  destruct (emitir params server (Session (iniciado r w) w)) as [o s1] eqn:Hrun.
  pose proof (emitir_tracking params server _ _ _ Hrun) as [Hi Hf].
  cbn [rec] in Hi, Hf.
  assert (Htrack : intentos (rec s') = intentos (rec s1)
                   /\ fecha_procesamiento (rec s') = fecha_procesamiento (rec s1)).
  { destruct o as [[]|e].
    - now injection Hs' as <-.
    - apply (emitir_except_tracking e _ _ _ Hs'). }
  destruct Htrack as [Hi' Hf'].
  split; [rewrite Hi', Hi; now destruct r|].
  split; [rewrite Hf', Hf; now destruct r|].
  split.
  - intros Hnot.
    destruct (emitir_not_ready (Session (iniciado r w) w)) as [e He].
    { cbn [rec]. now rewrite ready_iniciado. }
    rewrite He in Hrun. injection Hrun as <- <-.
    rewrite emitir_except_run in Hs'. injection Hs' as <-.
    cbn [rec]. now destruct r.
  - intros cfg data Hready Hcfg Hdata.
    assert (Hsent : exists o1 s2,
               call_simpleapi params server data (Session (iniciado r w) w) = (o1, s2)
               /\ match o1 with
                  | Ok resp => procesar_respuesta params server resp s2 = (o, s1)
                  | Raise e => (o, s1) = (Raise e, s2)
                  end).
    { rewrite (emitir_ready params server (Session (iniciado r w) w) data) in Hrun.
      - unfold bind in Hrun.
        destruct (call_simpleapi params server data (Session (iniciado r w) w))
          as [[resp|e] s2]; eexists _, _; (split; [reflexivity|]).
        + exact Hrun.
        + now symmetry.
      - cbn [rec]. now rewrite ready_iniciado.
      - cbn [rec]. now rewrite prepare_iniciado. }
    destruct Hsent as (o1 & s2 & Hcall & Hrest).
    apply (call_simpleapi_sends cfg data _ _ _ Hcfg) in Hcall. subst s2.
    assert (Hgrow1 : exists l, outbox (wld s1)
                                = (l ++ emitir_request cfg data :: outbox w)%list).
    { destruct o1 as [resp|e].
      - destruct (procesar_respuesta_outbox resp _ _ _ Hrest) as [l Hl].
        now exists l.
      - injection Hrest as _ ->. now exists []. }
    destruct o as [[]|e].
    + now injection Hs' as <-.
    + rewrite emitir_except_run in Hs'. now injection Hs' as <-.
Qed.

End IssuanceLoop.

(** A document without description: the [UserError] of the precondition
    is recorded on it. *)
Lemma issuance_batch_catches_errors_witness :
  exists s2,
    emitir_boleta sample_params batch_service
                  (Session sample_sin_descripcion sample_world) = (Ok tt, s2) /\
    wld s2 = sample_world /\
    state (rec s2) = error /\
    error_message (rec s2)
    = Some ("Debe agregar una descripci" ++ o_acute ++ "n del servicio") /\
    messages (rec s2)
    = (messages (iniciado sample_sin_descripcion sample_world)
       ++ [error_emitiendo
             (Exn UserError
                  ("Debe agregar una descripci" ++ o_acute ++ "n del servicio"))])%list.
Proof.
  apply (proj1 (issuance_batch_catches_errors sample_params batch_service)
           sample_sin_descripcion sample_world
           (Exn UserError ("Debe agregar una descripci" ++ o_acute ++ "n del servicio"))
           (Session (iniciado sample_sin_descripcion sample_world) sample_world)).
  reflexivity.
Defined.

(** The batch of the specification: three documents, the second of which
    fails a precondition. *)
Example batch_of_three :
  exists out w',
    action_emitir_boleta sample_params batch_service
      [sample_boleta; sample_sin_descripcion; sample_emitida] sample_world
    = (Ok tt, (out, w')) /\
    map state out = [emitted; error; emitted] /\
    map numero_boleta out = [Some "123"; None; Some "124"] /\
    map intentos out = [1; 1; 2] /\
    List.length (outbox w') = 4%nat.
Proof.
  eexists _, _. split; [vm_compute; reflexivity|]. repeat split.
Qed.

(** A document already in [emitted] is issued again: second attempt, new
    time stamp, the request is sent. *)
Lemma issuance_always_attempted_witness :
  exists s' cfg data,
    emitir_boleta sample_params batch_service
                  (Session sample_emitida sample_world) = (Ok tt, s') /\
    state sample_emitida = emitted /\
    intentos (rec s') = 2 /\
    fecha_procesamiento (rec s') = Some 1700000000 /\
    get_simpleapi_config sample_params = Ok cfg /\
    prepare_api_data sample_emitida = Ok data /\
    exists l, outbox (wld s') = (l ++ [emitir_request cfg data])%list.
Proof.
  destruct (issuance_always_attempted sample_params batch_service
              sample_emitida sample_world)
    as (_ & _ & _ & _ & _ & _ & s' & Hrun & Hi & Hf & _ & Hsent).
  exists s'. eexists _, _.
  split; [exact Hrun|]. split; [reflexivity|].
  split; [exact Hi|]. split; [exact Hf|].
  split; [reflexivity|]. split; [reflexivity|].
  exact (Hsent _ _ eq_refl eq_refl eq_refl).
Defined.

(** ** The void operations, step by step *)

Section Void.

Variable params : settings.
Variable server : list request -> reply.

(** What the legacy void does once its request is answered. *)
Lemma anular_boleta_answered r w req resp :
  can_be_voided (state r) = true ->
  legacy_answered params server r w req resp ->
  anular_boleta params server (Session r w)
  = if (status_code resp =? 200) && legacy_ok resp
    then (Ok tt, Session (anulada (legacy_note r resp) r) (sent req w))
    else (Raise (legacy_error resp), Session r (sent req w)).
Proof.
  intros Hstate (cfg & rut & Hcfg & Hrut & -> & Hsrv).
  unfold anular_boleta. run. rewrite Hstate. cbn [negb].
  rewrite Hcfg. cbv beta iota. rewrite Hrut. cbv beta iota.
  cbn [rec wld outbox clock]. rewrite Hsrv.
  destruct ((status_code resp =? 200) && legacy_ok resp); [|reflexivity].
  clear. now destruct r.
Qed.

Lemma action_anular_boleta_single r w o s :
  anular_boleta params server (Session r w) = (o, s) ->
  action_anular_boleta params server [r] w = (o, ([rec s], wld s)).
Proof.
  intros H. unfold action_anular_boleta. cbn [for_each]. rewrite H.
  now destruct o as [[]|e].
Qed.

(** What the path-style void does once its request is answered. *)
Lemma anular_boleta_path_answered r w req resp :
  can_void_by_path r = true ->
  path_answered params server r w req resp ->
  anular_boleta_path params server (Session r w)
  = if (status_code resp =? 200) || (status_code resp =? 202) then
      match json_of resp with
      | Parsed (JDict data) =>
          if success_flag data && negb (Json.truthy (Json.get data "error"))
          then (Ok tt, Session (anulada (path_json_note r data) r) (sent req w))
          else (Raise (Exn UserError
                         ("Error anulando boleta: "
                          ++ Json.str (Json.or_else (Json.get data "error")
                                                    (JDict data)))),
                Session r (sent req w))
      | _ =>
          let txt := Py.strip (text resp) in
          if Py.nonempty txt && says_voided (Py.lower txt)
          then (Ok tt,
                Session (anulada ("Boleta " ++ Py.strip (str_field (numero_boleta r))
                                  ++ " anulada exitosamente (motivo "
                                  ++ str_field (motivo_anulacion r)
                                  ++ "). Resp: " ++ txt) r)
                        (sent req w))
          else (Ok tt, Session (anulada (fallback_note r resp) r) (sent req w))
      end
    else (Raise (path_status_error resp), Session r (sent req w)).
Proof.
  intros Hpre (cfg & rut & Hcfg & Hrut & -> & Hsrv).
  unfold can_void_by_path in Hpre.
  apply andb_true_iff in Hpre as [Hpre Hmotivo].
  apply andb_true_iff in Hpre as [Hstate Hfolio].
  unfold anular_boleta_path. run. rewrite Hstate, Hfolio, Hmotivo. cbn [negb].
  rewrite Hcfg. cbv beta iota zeta. rewrite Hrut. cbv beta iota.
  cbn [rec wld outbox clock]. rewrite Hsrv.
  destruct ((status_code resp =? 200) || (status_code resp =? 202)); [|reflexivity].
  clear.
  destruct (json_of resp) as [[| | | | |data]|why];
    try (destruct (Py.nonempty (Py.strip (text resp))
                   && says_voided (Py.lower (Py.strip (text resp))));
         now destruct r).
  destruct (success_flag data && negb (Json.truthy (Json.get data "error")));
    now destruct r.
Qed.

Lemma action_anular_boleta_path_single r w o s :
  anular_boleta_path params server (Session r w) = (o, s) ->
  action_anular_boleta_path params server [r] w = (o, ([rec s], wld s)).
Proof.
  intros H. unfold action_anular_boleta_path. cbn [for_each]. rewrite H.
  now destruct o as [[]|e].
Qed.

End Void.

Section VoidClaims.

Variable params : settings.
Variable server : list request -> reply.

(** C5: the legacy void of a document in state [emitted] or [downloaded],
    answered with HTTP 200 and a JSON object: without a truthy [error] the
    document becomes [cancelled] (one notification is added, nothing else
    changes); with a truthy [error] a [UserError] reaches the caller and the
    record is exactly what it was. *)
Theorem legacy_void_error_field r w req resp j :
  can_be_voided (state r) = true ->
  legacy_answered params server r w req resp ->
  status_code resp = 200 ->
  json_of resp = Parsed (JDict j) ->
  (Json.truthy (Json.get j "error") = false ->
   exists r',
     action_anular_boleta params server [r] w = (Ok tt, ([r'], sent req w)) /\
     state r' = cancelled /\
     r' = anulada (legacy_note r resp) r) /\
  (Json.truthy (Json.get j "error") = true ->
   exists e,
     action_anular_boleta params server [r] w = (Raise e, ([r], sent req w)) /\
     is_UserError e = true).
Proof.
  intros Hstate Hans Hcode Hjson.
  pose proof (anular_boleta_answered params server r w req resp Hstate Hans) as Hrun.
  unfold legacy_ok in Hrun. rewrite Hcode, Hjson in Hrun. cbn [Z.eqb Pos.eqb andb] in Hrun.
  split; intros Herr; rewrite Herr in Hrun; cbn [negb] in Hrun;
    apply action_anular_boleta_single in Hrun; cbn [rec wld] in Hrun.
  - eexists. split; [exact Hrun|]. split; [now destruct r|reflexivity].
  - eexists. split; [exact Hrun|reflexivity].
Qed.

(** C10: in the legacy void at HTTP 200 the keywords are looked for only
    when the body does not decode: a body that decodes to something other
    than an object fails with a [UserError] and leaves the record as it was,
    whatever its text says; the verdict on a decoded body does not depend on
    the text; and the verdict on a body that does not decode is the presence
    of a keyword in the lower-cased text. *)
Theorem legacy_void_json_not_object_fails r w req resp :
  can_be_voided (state r) = true ->
  legacy_answered params server r w req resp ->
  status_code resp = 200 ->
  (forall j, json_of resp = Parsed j -> is_object j = false ->
     action_anular_boleta params server [r] w
     = (Raise (legacy_error resp), ([r], sent req w))) /\
  (forall j txt', json_of resp = Parsed j ->
     legacy_ok (Response 200 txt' (Parsed j)) = legacy_ok resp) /\
  (forall why, json_of resp = NotJson why ->
     legacy_ok resp = says_voided (Py.lower (text resp)) /\
     action_anular_boleta params server [r] w
     = if says_voided (Py.lower (text resp))
       then (Ok tt, ([anulada (legacy_note r resp) r], sent req w))
       else (Raise (legacy_error resp), ([r], sent req w))).
Proof.
  intros Hstate Hans Hcode.
  pose proof (anular_boleta_answered params server r w req resp Hstate Hans) as Hrun.
  rewrite Hcode in Hrun. cbn [Z.eqb Pos.eqb andb] in Hrun.
  split; [|split].
  - intros j Hjson Hobj. unfold legacy_ok in Hrun. rewrite Hjson in Hrun.
    destruct j; try discriminate Hobj;
      now apply action_anular_boleta_single in Hrun.
  - intros j txt' Hjson. unfold legacy_ok. cbn [json_of]. now rewrite Hjson.
  - intros why Hjson. unfold legacy_ok in *. rewrite Hjson in *.
    split; [reflexivity|].
    destruct (says_voided (Py.lower (text resp)));
      now apply action_anular_boleta_single in Hrun.
Qed.

(** C3 (as amended): the path-style void needs HTTP 200 or 202: any other
    status raises a [UserError] that carries the status code and the first
    300 characters of the body; the legacy void needs HTTP 200: any other
    status, 202 included, raises a [UserError] that carries the first 300
    characters of the body and not the status code.  In both cases the
    record stays as it was.  An HTTP 202 answer whose body is a JSON object
    with a true success flag and no error is accepted by the path-style
    void. *)
Theorem void_status_gate r w req resp :
  (can_void_by_path r = true ->
   path_answered params server r w req resp ->
   status_code resp <> 200 -> status_code resp <> 202 ->
   action_anular_boleta_path params server [r] w
   = (Raise (path_status_error resp), ([r], sent req w))) /\
  (can_be_voided (state r) = true ->
   legacy_answered params server r w req resp ->
   status_code resp <> 200 ->
   action_anular_boleta params server [r] w
   = (Raise (legacy_error resp), ([r], sent req w))) /\
  (can_void_by_path r = true ->
   path_answered params server r w req resp ->
   status_code resp = 202 ->
   forall data,
     json_of resp = Parsed (JDict data) ->
     success_flag data = true ->
     Json.truthy (Json.get data "error") = false ->
     action_anular_boleta_path params server [r] w
     = (Ok tt, ([anulada (path_json_note r data) r], sent req w))).
Proof.
  split; [|split].
  - intros Hpre Hans H200 H202.
    pose proof (anular_boleta_path_answered params server r w req resp Hpre Hans) as Hrun.
    apply Z.eqb_neq in H200, H202. rewrite H200, H202 in Hrun. cbn [orb] in Hrun.
    now apply action_anular_boleta_path_single in Hrun.
  - intros Hstate Hans H200.
    pose proof (anular_boleta_answered params server r w req resp Hstate Hans) as Hrun.
    apply Z.eqb_neq in H200. rewrite H200 in Hrun. cbn [andb] in Hrun.
    now apply action_anular_boleta_single in Hrun.
  - intros Hpre Hans H202 data Hjson Hflag Herr.
    pose proof (anular_boleta_path_answered params server r w req resp Hpre Hans) as Hrun.
    rewrite H202, Hjson, Hflag, Herr in Hrun. cbn [Z.eqb Pos.eqb orb andb negb] in Hrun.
    now apply action_anular_boleta_path_single in Hrun.
Qed.

End VoidClaims.

(** The legacy example of the specification: the answer [{"error": null}]
    at HTTP 200. *)
Lemma legacy_void_error_field_witness :
  (Json.truthy (Json.get [("error", JNull)] "error") = false ->
   exists r',
     action_anular_boleta sample_params
       (always (json_reply 200 (JDict [("error", JNull)])))
       [sample_anulable] sample_world
     = (Ok tt, ([r'],
                sent (anular_request
                        (Config "4648-N330-6392-2590-9354"
                                "https://servicios.simpleapi.cl/api" 30)
                        (Some "123") "123456785" (Some "secreto"))
                     sample_world)) /\
     state r' = cancelled /\
     r' = anulada (legacy_note sample_anulable
                     (Response 200 (Json.dumps (JDict [("error", JNull)]))
                               (Parsed (JDict [("error", JNull)]))))
                  sample_anulable) /\
  (Json.truthy (Json.get [("error", JNull)] "error") = true ->
   exists e,
     action_anular_boleta sample_params
       (always (json_reply 200 (JDict [("error", JNull)])))
       [sample_anulable] sample_world
     = (Raise e, ([sample_anulable],
                  sent (anular_request
                          (Config "4648-N330-6392-2590-9354"
                                  "https://servicios.simpleapi.cl/api" 30)
                          (Some "123") "123456785" (Some "secreto"))
                       sample_world)) /\
     is_UserError e = true).
Proof.
  apply (legacy_void_error_field sample_params
           (always (json_reply 200 (JDict [("error", JNull)])))
           sample_anulable sample_world _ _ [("error", JNull)]).
  - reflexivity.
  - eexists _, _. repeat split; reflexivity.
  - reflexivity.
  - reflexivity.
Defined.

(** The two answers of the specification's legacy example. *)
Example legacy_void_examples :
  (exists r' w',
      action_anular_boleta sample_params
        (always (json_reply 200 (JDict [("error", JNull)])))
        [sample_anulable] sample_world = (Ok tt, ([r'], w')) /\
      state r' = cancelled) /\
  (exists e w',
      action_anular_boleta sample_params
        (always (json_reply 200 (JDict [("error", JStr "x")])))
        [sample_anulable] sample_world = (Raise e, ([sample_anulable], w')) /\
      is_UserError e = true).
Proof.
  split; eexists _, _; (split; [vm_compute; reflexivity|reflexivity]).
Qed.

(** A body that decodes to a JSON string and names both keywords is refused
    by the legacy void. *)
Lemma legacy_void_json_not_object_fails_witness :
  says_voided (Py.lower (text quoted_text_response)) = true /\
  action_anular_boleta sample_params (always (Replied quoted_text_response))
    [sample_anulable] sample_world
  = (Raise (legacy_error quoted_text_response),
     ([sample_anulable],
      sent (anular_request sample_config (Some "123") "123456785" (Some "secreto"))
           sample_world)).
Proof.
  split; [reflexivity|].
  apply (proj1 (legacy_void_json_not_object_fails sample_params
                  (always (Replied quoted_text_response))
                  sample_anulable sample_world _ quoted_text_response
                  eq_refl
                  (ex_intro _ sample_config
                     (ex_intro _ "123456785"
                        (conj eq_refl (conj eq_refl (conj eq_refl eq_refl)))))
                  eq_refl)
           (JStr "Boleta anulada correctamente")); reflexivity.
Defined.

(** HTTP 202 with [{"success": true}] is accepted by the path-style void;
    HTTP 500 is refused by both. *)
Lemma void_status_gate_witness :
  action_anular_boleta_path sample_params (always (Replied accepted_response))
    [sample_anulable] sample_world
  = (Ok tt,
     ([anulada (path_json_note sample_anulable [("success", JBool true)])
               sample_anulable],
      sent (anular_path_request sample_config "123" "1" "123456785" (Some "secreto"))
           sample_world)) /\
  action_anular_boleta_path sample_params (always (Replied failed_response))
    [sample_anulable] sample_world
  = (Raise (Exn UserError "Error anulando boleta: 500 - Internal error"),
     ([sample_anulable],
      sent (anular_path_request sample_config "123" "1" "123456785" (Some "secreto"))
           sample_world)) /\
  action_anular_boleta sample_params (always (Replied failed_response))
    [sample_anulable] sample_world
  = (Raise (Exn UserError
              "Error anulando boleta: Error anulando boleta: Internal error"),
     ([sample_anulable],
      sent (anular_request sample_config (Some "123") "123456785" (Some "secreto"))
           sample_world)).
Proof.
  split; [|split].
  - apply (proj2 (proj2 (void_status_gate sample_params
                           (always (Replied accepted_response))
                           sample_anulable sample_world _ accepted_response)));
      try reflexivity.
    eexists _, _. repeat split; reflexivity.
  - apply (proj1 (void_status_gate sample_params
                    (always (Replied failed_response))
                    sample_anulable sample_world _ failed_response));
      try reflexivity; try discriminate.
    eexists _, _. repeat split; reflexivity.
  - apply (proj1 (proj2 (void_status_gate sample_params
                           (always (Replied failed_response))
                           sample_anulable sample_world _ failed_response)));
      try reflexivity; try discriminate.
    eexists _, _. repeat split; reflexivity.
Defined.

(** C3 (as stated) fails on the legacy void: an HTTP 202 answer with a body
    that indicates success, which the path-style void accepts, makes the
    legacy void raise, and its error message does not carry the status. *)
Lemma legacy_void_rejects_202 :
  (exists r' w',
      action_anular_boleta_path sample_params (always (Replied accepted_response))
        [sample_anulable] sample_world = (Ok tt, ([r'], w')) /\
      state r' = cancelled) /\
  (exists e w',
      action_anular_boleta sample_params (always (Replied accepted_response))
        [sample_anulable] sample_world = (Raise e, ([sample_anulable], w')) /\
      state sample_anulable = emitted /\
      Py.contains "202" (str_exn e) = false).
Proof.
  split; eexists _, _; (split; [vm_compute; reflexivity|]);
    repeat split; reflexivity.
Qed.

(** ** Strings: what stripping and truncation keep *)

Lemma prefix_app k x b :
  String.prefix k x = true -> String.prefix k (x ++ b) = true.
Proof.
  revert k. induction x as [|c x IH]; intros [|a k] H.
  - now destruct b.
  - discriminate H.
  - reflexivity.
  - cbn in H |- *. destruct (ascii_dec a c); [now apply IH|discriminate H].
Qed.

Lemma contains_app_r k x b :
  Py.contains k x = true -> Py.contains k (x ++ b) = true.
Proof.
  induction x as [|c x IH]; cbn [Py.contains append]; intros H.
  - rewrite orb_false_r in H. destruct k; [|discriminate H].
    now destruct b.
  - apply orb_true_iff in H as [H|H]; apply orb_true_iff.
    + left. exact (prefix_app k (String c x) b H).
    + right. now apply IH.
Qed.

Lemma contains_app_l k a x :
  Py.contains k x = true -> Py.contains k (a ++ x) = true.
Proof.
  intros H. induction a as [|c a IH]; [exact H|].
  cbn [append Py.contains]. rewrite IH. apply orb_true_r.
Qed.

Lemma lower_app a b : Py.lower (a ++ b) = Py.lower a ++ Py.lower b.
Proof.
  unfold Py.lower. induction a as [|c a IH]; cbn; [reflexivity|now rewrite IH].
Qed.

Lemma lstrip_suffix s : exists a, s = a ++ Py.lstrip s.
Proof.
  induction s as [|c s [a IH]]; [now exists EmptyString|].
  cbn [Py.lstrip]. destruct (Py.isspace c).
  - exists (String c a). cbn. now rewrite <- IH.
  - now exists EmptyString.
Qed.

Lemma rstrip_prefix s : exists b, s = Py.rstrip s ++ b.
Proof.
  induction s as [|c s [b IH]]; [now exists EmptyString|].
  cbn [Py.rstrip]. destruct (Py.rstrip s) as [|c' t] eqn:E.
  - destruct (Py.isspace c).
    + exists (String c s). reflexivity.
    + exists b. cbn. now rewrite IH at 1.
  - exists b. cbn [append]. now rewrite IH at 1.
Qed.

Lemma strip_inside s : exists a b, s = a ++ Py.strip s ++ b.
Proof.
  destruct (lstrip_suffix s) as [a Ha].
  destruct (rstrip_prefix (Py.lstrip s)) as [b Hb].
  exists a, b. unfold Py.strip. now rewrite <- Hb.
Qed.

Lemma contains_strip k s :
  Py.contains k (Py.lower (Py.strip s)) = true ->
  Py.contains k (Py.lower s) = true.
Proof.
  intros H. destruct (strip_inside s) as (a & b & Hs).
  rewrite Hs at 1. rewrite !lower_app.
  now apply contains_app_l, contains_app_r.
Qed.

Lemma says_voided_strip s :
  says_voided (Py.lower s) = false ->
  says_voided (Py.lower (Py.strip s)) = false.
Proof.
  unfold says_voided. intros H. apply orb_false_iff in H as [H1 H2].
  apply orb_false_iff. split.
  - destruct (Py.contains "anulada" (Py.lower (Py.strip s))) eqn:E; [|reflexivity].
    apply contains_strip in E. congruence.
  - destruct (Py.contains "correctamente" (Py.lower (Py.strip s))) eqn:E; [|reflexivity].
    apply contains_strip in E. congruence.
Qed.

Lemma take_all n s : (String.length s <= n)%nat -> Py.take n s = s.
Proof.
  revert n. induction s as [|c s IH]; intros [|n] H; cbn in *; try easy; try lia.
  rewrite IH; [reflexivity|lia].
Qed.

Section FallbackClaim.

Variable params : settings.
Variable server : list request -> reply.

(** C6 (as amended): the path-style void answered with HTTP 200 or 202 and
    a body that does not decode and holds none of the keywords still puts
    the document in state [cancelled]; the notification posted carries the
    status and the first 300 characters of the body stripped of the white
    space around it, hence the whole stripped body when it is that short. *)
Theorem path_void_fallback_keeps_preview r w req resp why :
  can_void_by_path r = true ->
  path_answered params server r w req resp ->
  status_code resp = 200 \/ status_code resp = 202 ->
  json_of resp = NotJson why ->
  says_voided (Py.lower (text resp)) = false ->
  action_anular_boleta_path params server [r] w
  = (Ok tt, ([anulada (fallback_note r resp) r], sent req w)) /\
  state (anulada (fallback_note r resp) r) = cancelled /\
  messages (anulada (fallback_note r resp) r)
  = (messages r ++ [Message (fallback_note r resp) notification])%list /\
  ((String.length (Py.strip (text resp)) <= 300)%nat ->
   fallback_note r resp
   = "Boleta " ++ Py.strip (str_field (numero_boleta r)) ++ " anulada (HTTP "
     ++ Py.str_Z (status_code resp) ++ ") sin JSON; cuerpo: "
     ++ Py.strip (text resp)).
Proof.
  intros Hpre Hans Hcode Hjson Hkw.
  pose proof (anular_boleta_path_answered params server r w req resp Hpre Hans) as Hrun.
  assert (Hst : (status_code resp =? 200) || (status_code resp =? 202) = true).
  { apply orb_true_iff. destruct Hcode as [H|H]; [left|right]; now apply Z.eqb_eq. }
  rewrite Hst, Hjson in Hrun. cbv zeta in Hrun.
  rewrite (says_voided_strip _ Hkw), andb_false_r in Hrun.
  apply action_anular_boleta_path_single in Hrun. cbn [rec wld] in Hrun.
  split; [exact Hrun|]. split; [now destruct r|]. split; [now destruct r|].
  intros Hlen. unfold fallback_note. now rewrite take_all.
Qed.

End FallbackClaim.

(** A body of two letters between blanks: the stripped body is in the
    notification. *)
Lemma path_void_fallback_keeps_preview_witness :
  action_anular_boleta_path sample_params (always (text_reply 200 "  OK  "))
    [sample_anulable] sample_world
  = (Ok tt,
     ([anulada "Boleta 123 anulada (HTTP 200) sin JSON; cuerpo: OK" sample_anulable],
      sent (anular_path_request sample_config "123" "1" "123456785" (Some "secreto"))
           sample_world)).
Proof.
  apply (path_void_fallback_keeps_preview sample_params
           (always (text_reply 200 "  OK  ")) sample_anulable sample_world _
           (Response 200 "  OK  " (NotJson "Expecting value: line 1 column 1 (char 0)"))
           "Expecting value: line 1 column 1 (char 0)").
  - reflexivity.
  - eexists _, _. repeat split; reflexivity.
  - left. reflexivity.
  - reflexivity.
  - reflexivity.
Defined.

(** C6 (as stated) fails: of a plain-text body of 301 characters only the
    first 300 reach the notification, which therefore does not contain the
    body. *)
Lemma path_void_fallback_truncates_body :
  String.length long_body = 301%nat /\
  says_voided (Py.lower long_body) = false /\
  exists r' w' note,
    action_anular_boleta_path sample_params (always (text_reply 200 long_body))
      [sample_anulable] sample_world = (Ok tt, ([r'], w')) /\
    state r' = cancelled /\
    messages r' = [Message note notification] /\
    note = "Boleta 123 anulada (HTTP 200) sin JSON; cuerpo: " ++ repeat_char "x" 300 /\
    Py.contains long_body note = false.
Proof.
  split; [reflexivity|]. split; [vm_compute; reflexivity|].
  eexists _, _, _. split; [vm_compute; reflexivity|].
  split; [reflexivity|]. split; [reflexivity|].
  split; vm_compute; reflexivity.
Qed.

(** ** The RUT validator *)

Lemma multiplier_next i :
  (if RutSpec.multiplier i <? 7 then RutSpec.multiplier i + 1 else 2)
  = RutSpec.multiplier (S i).
Proof.
  unfold RutSpec.multiplier.
  assert (Hm : (i mod 6 < 6)%nat) by (apply Nat.mod_upper_bound; lia).
  replace (S i) with (i + 1)%nat by lia.
  rewrite <- Nat.Div0.add_mod_idemp_l.
  destruct (Nat.eq_dec (i mod 6) 5) as [E|E].
  - rewrite E. reflexivity.
  - rewrite (Nat.mod_small (i mod 6 + 1) 6) by lia.
    destruct (2 + Z.of_nat (i mod 6) <? 7) eqn:L.
    + lia.
    + apply Z.ltb_ge in L. lia.
Qed.

Lemma suma_loop_decimal ds i suma :
  forallb Py.is_decimal ds = true ->
  suma_loop ds suma (RutSpec.multiplier i)
  = Ok (suma + RutSpec.checksum_from i ds).
Proof.
  revert i suma. induction ds as [|d ds IH]; intros i suma H; cbn [suma_loop].
  - cbn. f_equal. lia.
  - cbn [forallb] in H. apply andb_true_iff in H as [Hd Hds].
    unfold digit_value. rewrite Hd. cbn [obind].
    rewrite multiplier_next, (IH _ _ Hds). cbn [RutSpec.checksum_from].
    unfold RutSpec.digit. f_equal. lia.
Qed.


Lemma str_digit z :
  1 <= z <= 9 -> codes (Py.str_Z z) = [Z.to_N (48 + z)].
Proof.
  intros H.
  assert (E : z = 1 \/ z = 2 \/ z = 3 \/ z = 4 \/ z = 5 \/ z = 6 \/ z = 7
              \/ z = 8 \/ z = 9) by lia.
  repeat (destruct E as [->|E]; [reflexivity|]). now subst.
Qed.

Lemma single_eqb (x y : N) :
  (if list_eq_dec N.eq_dec [x] [y] then true else false) = N.eqb x y.
Proof.
  destruct (list_eq_dec N.eq_dec [x] [y]) as [E|E]; symmetry.
  - apply N.eqb_eq. now injection E.
  - apply N.eqb_neq. intros ->. now apply E.
Qed.

Lemma forallb_rev {A} (f : A -> bool) l : forallb f (rev l) = forallb f l.
Proof.
  induction l as [|x l IH]; [reflexivity|].
  cbn [rev forallb]. rewrite forallb_app, IH. cbn [forallb].
  rewrite andb_true_r. apply andb_comm.
Qed.

(** The check character computed by the code is the one of the
    specification. *)
Lemma verdict_decimal numero dv :
  forallb Py.is_decimal numero = true ->
  (8 <=? List.length (numero ++ [dv]))%nat = true ->
  verdict numero dv = Ok (N.eqb dv (RutSpec.expected_check numero)).
Proof.
  intros Hdec Hlen. unfold verdict.
  apply Nat.leb_le in Hlen.
  destruct (Nat.ltb_spec (List.length (numero ++ [dv])) 8) as [L|_]; [lia|].
  assert (Hdigit : Py.isdigit numero = true).
  { unfold Py.isdigit. destruct numero as [|d ds].
    - cbn in Hlen. lia.
    - clear Hlen. induction (d :: ds) as [|x l IHl]; [reflexivity|].
      cbn [forallb] in *. apply andb_true_iff in Hdec as [Hx Hl].
      rewrite (IHl Hl), andb_true_r. unfold Py.isdigit_cp.
      unfold Py.is_decimal in Hx. now rewrite Hx. }
  rewrite Hdigit. cbn [negb].
  change 2 with (RutSpec.multiplier 0) at 1.
  rewrite suma_loop_decimal by (now rewrite forallb_rev).
  cbn [obind]. rewrite Z.add_0_l. f_equal. unfold RutSpec.expected_check.
  set (r := RutSpec.checksum_from 0 (rev numero) mod 11).
  assert (Hr : 0 <= r < 11) by (apply Z.mod_pos_bound; lia).
  destruct (r =? 0) eqn:E0; [apply single_eqb|].
  destruct (r =? 1) eqn:E1; [apply single_eqb|].
  apply Z.eqb_neq in E0, E1.
  rewrite str_digit by lia. apply single_eqb.
Qed.

Lemma upper_app a b : Py.upper (a ++ b) = (Py.upper a ++ Py.upper b)%list.
Proof.
  unfold Py.upper. induction a as [|c a IH]; [reflexivity|].
  cbn [append list_ascii_of_string flat_map]. now rewrite IH, app_assoc.
Qed.

Lemma strip_separators_app a b :
  strip_separators (a ++ b) = strip_separators a ++ strip_separators b.
Proof.
  unfold strip_separators.
  assert (H : forall c x y, Py.remove_char c (x ++ y)
                            = Py.remove_char c x ++ Py.remove_char c y).
  { intros c x y. induction x as [|d x IH]; [reflexivity|].
    cbn [append Py.remove_char]. rewrite IH. now destruct (Ascii.eqb d c). }
  now rewrite !H.
Qed.

(** [_validate_rut] on a RUT that ends, once cleaned, in one character. *)
Lemma validate_rut_verdict rut numero dv :
  Py.upper (strip_separators rut) = (numero ++ [dv])%list ->
  validate_rut rut = verdict numero dv.
Proof.
  intros H. unfold validate_rut, verdict.
  destruct rut as [|c rut].
  { cbn in H. now destruct numero. }
  cbn [Py.nonempty negb]. rewrite H.
  now rewrite removelast_last, last_last.
Qed.


Lemma decimal_isdigit l :
  l <> [] -> forallb Py.is_decimal l = true -> Py.isdigit l = true.
Proof.
  intros Hne H. unfold Py.isdigit. destruct l as [|d ds]; [easy|].
  clear Hne. induction (d :: ds) as [|x l IHl]; [reflexivity|].
  cbn [forallb] in *. apply andb_true_iff in H as [Hx Hl].
  rewrite (IHl Hl), andb_true_r. unfold Py.isdigit_cp.
  unfold Py.is_decimal in Hx. now rewrite Hx.
Qed.


(** A RUT that the specification accepts is accepted. *)
Lemma validate_rut_complete rut :
  RutSpec.valid rut = true -> validate_rut rut = Ok true.
Proof.
  unfold RutSpec.valid. set (s := Py.upper (strip_separators rut)).
  intros H. apply andb_true_iff in H as [H Hdv].
  apply andb_true_iff in H as [Hlen Hdec].
  assert (Hne : s <> []).
  { intros E. rewrite E in Hlen. discriminate Hlen. }
  destruct (exists_last Hne) as (numero & dv & Hs).
  rewrite (validate_rut_verdict rut numero dv Hs).
  rewrite Hs, removelast_last in Hdec. rewrite Hs in Hlen.
  rewrite Hs, removelast_last, last_last in Hdv.
  now rewrite (verdict_decimal numero dv Hdec Hlen), Hdv.
Qed.

(** Another check character makes a valid RUT invalid. *)
Lemma verdict_flip numero dv dv' :
  verdict numero dv = Ok true -> dv' <> dv -> verdict numero dv' = Ok false.
Proof.
  unfold verdict. rewrite !length_app. cbn [List.length].
  destruct (List.length numero + 1 <? 8)%nat; [discriminate|].
  destruct (Py.isdigit numero); cbn [negb]; [|discriminate].
  destruct (suma_loop (rev numero) 0 2) as [total|e]; [|discriminate].
  cbn [obind].
  set (dv_calc := if total mod 11 =? 0 then _ else _).
  destruct (list_eq_dec N.eq_dec [dv] dv_calc) as [E|E]; [|discriminate].
  intros _ Hne. destruct (list_eq_dec N.eq_dec [dv'] dv_calc) as [E'|E'];
    [|reflexivity].
  rewrite <- E in E'. now injection E'.
Qed.

Lemma strip_separators_chr c :
  is_separator c = false -> strip_separators (Py.chr c) = Py.chr c.
Proof.
  unfold is_separator. intros H. apply orb_false_iff in H as [H1 H2].
  unfold strip_separators, Py.chr. cbn [Py.remove_char]. rewrite H1.
  cbn [Py.remove_char]. now rewrite H2.
Qed.

(** Flipping the check character of a valid RUT: the result is [False]. *)
Lemma validate_rut_flip body c c' x x' :
  is_separator c = false -> is_separator c' = false ->
  Py.upper_char c = [x] -> Py.upper_char c' = [x'] -> x' <> x ->
  validate_rut (body ++ Py.chr c) = Ok true ->
  validate_rut (body ++ Py.chr c') = Ok false.
Proof.
  intros Hc Hc' Hx Hx' Hne Hvalid.
  assert (Hup : forall d y, is_separator d = false -> Py.upper_char d = [y] ->
                  Py.upper (strip_separators (body ++ Py.chr d))
                  = (Py.upper (strip_separators body) ++ [y])%list).
  { intros d y Hd Hy. rewrite strip_separators_app, upper_app, strip_separators_chr by exact Hd.
    unfold Py.upper at 2. cbn [Py.chr list_ascii_of_string flat_map].
    now rewrite Hy, app_nil_r. }
  rewrite (validate_rut_verdict _ _ _ (Hup c x Hc Hx)) in Hvalid.
  rewrite (validate_rut_verdict _ _ _ (Hup c' x' Hc' Hx')).
  exact (verdict_flip _ _ _ Hvalid Hne).
Qed.





(** C9: the claim holds of the code only away from one slip.  [isdigit]
    accepts the superscript digits, which [int] refuses: for a RUT whose
    number holds one, the test on the number passes and the checksum loop
    raises [ValueError] where the claim promises [False]. *)
Theorem validate_rut_superscript_raises :
  Py.isdigit (removelast (Py.upper (strip_separators superscript_rut))) = true /\
  RutSpec.valid superscript_rut = false /\
  validate_rut superscript_rut = Raise (Py.int_error (String "178" EmptyString)) /\
  exn_class_of (Py.int_error (String "178" EmptyString)) = ValueError.
Proof. repeat split; vm_compute; reflexivity. Qed.

(** ** Examples *)

Example rut_examples :
  validate_rut "12.345.678-5" = Ok true /\
  validate_rut "12345678-5" = Ok true /\
  validate_rut "12.345.678-6" = Ok false /\
  validate_rut "6.000.000-k" = Ok true /\
  validate_rut "6.000.000-K" = Ok true /\
  validate_rut "1-9" = Ok false /\
  validate_rut "1234567A-5" = Ok false /\
  validate_rut EmptyString = Ok false.
Proof. repeat split; vm_compute; reflexivity. Qed.

Example rut_flip_example :
  validate_rut ("12.345.678-" ++ Py.chr "5") = Ok true /\
  validate_rut ("12.345.678-" ++ Py.chr "6") = Ok false.
Proof.
  assert (H : validate_rut ("12.345.678-" ++ Py.chr "5") = Ok true)
    by (vm_compute; reflexivity).
  split; [exact H|].
  apply (validate_rut_flip "12.345.678-" "5" "6" 53%N 54%N); try reflexivity.
  discriminate.
Qed.

(** The plain-text answer of the specification's path-style example. *)
Example path_void_keyword_example :
  exists r' w',
    action_anular_boleta_path sample_params
      (always (text_reply 200 "Boleta anulada correctamente"))
      [sample_anulable] sample_world = (Ok tt, ([r'], w')) /\
    state r' = cancelled /\
    messages r'
    = [Message ("Boleta 123 anulada exitosamente (motivo 1). "
                ++ "Resp: Boleta anulada correctamente") notification].
Proof.
  eexists _, _. split; [vm_compute; reflexivity|]. split; reflexivity.
Qed.

(** A draft cannot be voided: the operation raises before any request. *)
Example void_needs_emitted :
  action_anular_boleta sample_params (always (json_reply 200 (JDict [])))
    [sample_boleta] sample_world
  = (Raise (Exn UserError "Solo se pueden anular boletas emitidas"),
     ([sample_boleta], sample_world)).
Proof. vm_compute. reflexivity. Qed.

(** * Further properties *)

(** ** Masking of the API key *)

Lemma stars_length n : String.length (stars n) = n.
Proof. induction n as [|n IH]; cbn; [reflexivity|now rewrite IH]. Qed.

Lemma append_length a b :
  String.length (a ++ b) = (String.length a + String.length b)%nat.
Proof. induction a as [|c a IH]; cbn; [reflexivity|now rewrite IH]. Qed.

Lemma take_length n s : String.length (Py.take n s) = Nat.min n (String.length s).
Proof.
  revert s. induction n as [|n IH]; intros [|c s]; cbn; try reflexivity.
  now rewrite IH.
Qed.

Lemma drop_length n s : String.length (drop n s) = (String.length s - n)%nat.
Proof.
  revert s. induction n as [|n IH]; intros [|c s]; cbn; try reflexivity.
  apply IH.
Qed.

Lemma take_app_exact a b : Py.take (String.length a) (a ++ b) = a.
Proof. induction a as [|c a IH]; cbn; [now destruct b|now rewrite IH]. Qed.

Lemma drop_app_exact a b : drop (String.length a) (a ++ b) = b.
Proof. induction a as [|c a IH]; cbn; [now destruct b|exact IH]. Qed.

(** X1: the mask of a key has the length of the key up to ten characters
    and sixteen characters beyond: it does not tell how long a long key
    is. *)
Theorem mask_api_key_length key :
  String.length (mask_api_key key)
  = if (String.length key <=? 10)%nat then String.length key else 16%nat.
Proof.
  unfold mask_api_key, mask_key. destruct key as [|c key]; [reflexivity|].
  cbn [Py.nonempty negb Nat.add].
  destruct (Nat.leb_spec (String.length (String c key)) 10) as [L|L].
  - apply stars_length.
  - rewrite !append_length, take_length, stars_length. unfold last_chars.
    rewrite drop_length. lia.
Qed.

(** X2: of a key longer than ten characters the mask shows the first six
    and the last four and nothing of what lies between, whatever its
    length. *)
Theorem mask_api_key_hides_middle first middle final :
  String.length first = 6%nat -> String.length final = 4%nat ->
  middle <> EmptyString ->
  mask_api_key (first ++ middle ++ final) = first ++ "******" ++ final.
Proof.
  intros Hfirst Hfinal Hmiddle. unfold mask_api_key, mask_key.
  assert (Hlen : String.length (first ++ middle ++ final)
                 = (10 + String.length middle)%nat).
  { rewrite !append_length. lia. }
  assert (Hmid : (0 < String.length middle)%nat).
  { destruct middle; [easy|cbn; lia]. }
  assert (Hne : Py.nonempty (first ++ middle ++ final) = true).
  { destruct first; [discriminate Hfirst|reflexivity]. }
  rewrite Hne. cbn [negb].
  destruct (Nat.leb_spec (String.length (first ++ middle ++ final)) (6 + 4));
    [lia|].
  rewrite <- Hfirst at 1. rewrite take_app_exact. f_equal.
  change (stars 6) with "******". f_equal.
  unfold last_chars.
  replace (String.length (first ++ middle ++ final) - 4)%nat
    with (String.length (first ++ middle)).
  - replace (first ++ middle ++ final) with ((first ++ middle) ++ final).
    + apply drop_app_exact.
    + clear. induction first as [|c a IH]; cbn; [reflexivity|now rewrite IH].
  - rewrite Hlen, append_length. lia.
Qed.

Lemma mask_api_key_hides_middle_witness :
  mask_api_key ("4648-N" ++ "330-6392-2590-" ++ "9354") = "4648-N" ++ "******" ++ "9354".
Proof.
  apply (mask_api_key_hides_middle "4648-N" "330-6392-2590-" "9354");
    [reflexivity|reflexivity|discriminate].
Defined.

(** ** The configuration *)

(** X3: a configuration that is read never has an empty key or base URL:
    an unset or empty parameter gives way to the default, a stored one is
    taken as it is; the time-out is 30 unless a parameter is stored. *)
Theorem config_never_blank params cfg :
  get_simpleapi_config params = Ok cfg ->
  Py.nonempty (api_key cfg) = true /\
  Py.nonempty (base_url cfg) = true /\
  (forall k, simpleapi_api_key params = Some k -> Py.nonempty k = true ->
             api_key cfg = k) /\
  (forall u, simpleapi_base_url params = Some u -> Py.nonempty u = true ->
             base_url cfg = u) /\
  (filled (simpleapi_timeout params) = false -> cfg_timeout cfg = 30).
Proof.
  unfold get_simpleapi_config, obind.
  set (t := get_param (simpleapi_timeout params) "30").
  destruct (py_int t) as [timeout|e] eqn:Ht; [|discriminate].
  intros H. injection H as <-. cbn [api_key base_url cfg_timeout].
  assert (Hparam : forall p dflt, Py.nonempty dflt = true ->
             Py.nonempty (get_param p dflt) = true).
  { intros [v|] dflt Hd; cbn; [|exact Hd].
    destruct (Py.nonempty v) eqn:E; [exact E|exact Hd]. }
  split; [now apply Hparam|]. split; [now apply Hparam|].
  split; [|split].
  - intros k -> Hk. cbn. now rewrite Hk.
  - intros u -> Hu. cbn. now rewrite Hu.
  - intros Hunset. subst t. unfold get_param, filled in *.
    destruct (simpleapi_timeout params) as [v|].
    + rewrite Hunset in Ht. vm_compute in Ht. now injection Ht as <-.
    + vm_compute in Ht. now injection Ht as <-.
Qed.

Lemma config_never_blank_witness :
  Py.nonempty (api_key sample_config) = true /\
  Py.nonempty (base_url sample_config) = true /\
  cfg_timeout sample_config = 30.
Proof.
  destruct (config_never_blank (Settings (Some EmptyString) None None)
              sample_config eq_refl) as (H1 & H2 & _ & _ & H5).
  split; [exact H1|]. split; [exact H2|exact (H5 eq_refl)].
Defined.

(** ** The issuance payload *)

Lemma contains_chr c s :
  Py.contains (Py.chr c) s
  = match s with
    | EmptyString => false
    | String a s' => Ascii.eqb c a || Py.contains (Py.chr c) s'
    end.
Proof.
  destruct s as [|a s']; [reflexivity|].
  cbn [Py.contains Py.chr String.prefix].
  destruct (ascii_dec c a) as [->|Hne].
  - rewrite Ascii.eqb_refl. now destruct s'.
  - apply Ascii.eqb_neq in Hne. now rewrite Hne.
Qed.

Lemma remove_char_gone c s : Py.contains (Py.chr c) (Py.remove_char c s) = false.
Proof.
  induction s as [|a s IH]; [reflexivity|]. cbn [Py.remove_char].
  destruct (Ascii.eqb a c) eqn:E; [exact IH|].
  rewrite contains_chr, IH, Ascii.eqb_sym, E. reflexivity.
Qed.

Lemma remove_char_keeps_gone c c' s :
  Py.contains (Py.chr c) s = false ->
  Py.contains (Py.chr c) (Py.remove_char c' s) = false.
Proof.
  induction s as [|a s IH]; [easy|]. rewrite contains_chr. intros H.
  apply orb_false_iff in H as [Ha Hs]. cbn [Py.remove_char].
  destruct (Ascii.eqb a c'); [now apply IH|].
  rewrite contains_chr, Ha. now apply IH.
Qed.

Lemma strip_separators_clean s :
  Py.contains "." (strip_separators s) = false /\
  Py.contains "-" (strip_separators s) = false.
Proof.
  unfold strip_separators. split.
  - apply (remove_char_keeps_gone "." "-"), (remove_char_gone ".").
  - apply (remove_char_gone "-").
Qed.

(** X4: in every payload that [_prepare_api_data] builds, the RUT of the
    issuer and the RUT of the recipient hold neither a dot nor a dash, and
    there is exactly one line of detail, with the description and the
    amount cut to an integer. *)
Theorem payload_ruts_are_clean r data :
  prepare_api_data r = Ok data ->
  exists fields rut receptor rrut,
    data = JDict fields /\
    Json.get fields "RutUsuario" = JStr rut /\
    Json.get fields "Receptor" = JDict receptor /\
    Json.get receptor "Rut" = JStr rrut /\
    Py.contains "." rut = false /\ Py.contains "-" rut = false /\
    Py.contains "." rrut = false /\ Py.contains "-" rrut = false /\
    Json.get fields "Detalles"
    = JList [JDict [("Nombre", json_field (descripcion_servicio r));
                    ("Valor", JInt (int_amount (valor_bruto r)))]].
Proof.
  unfold prepare_api_data, obind, clean_rut.
  destruct (rut_usuario r) as [u|]; [|discriminate].
  destruct (int_field (retencion r)); [|discriminate].
  destruct (strftime_dmy (fecha_emision r)); [|discriminate].
  destruct (receptor_rut r) as [v|]; [|discriminate].
  destruct (int_field (receptor_region r)); [|discriminate].
  intros H. injection H as <-.
  eexists _, _, _, _. split; [reflexivity|].
  split; [reflexivity|]. split; [reflexivity|]. split; [reflexivity|].
  destruct (strip_separators_clean u) as [H1 H2].
  destruct (strip_separators_clean v) as [H3 H4].
  repeat split; assumption.
Qed.

Lemma payload_ruts_are_clean_witness :
  exists fields rut receptor rrut,
    prepare_api_data sample_boleta = Ok (JDict fields) /\
    Json.get fields "RutUsuario" = JStr rut /\
    Json.get fields "Receptor" = JDict receptor /\
    Json.get receptor "Rut" = JStr rrut /\
    Py.contains "." rut = false /\ Py.contains "-" rut = false /\
    Py.contains "." rrut = false /\ Py.contains "-" rrut = false /\
    Json.get fields "Detalles"
    = JList [JDict [("Nombre", json_field (descripcion_servicio sample_boleta));
                    ("Valor", JInt (int_amount (valor_bruto sample_boleta)))]].
Proof.
  destruct (payload_ruts_are_clean sample_boleta _ eq_refl)
    as (fields & rut & receptor & rrut & Hdata & H).
  exists fields, rut, receptor, rrut. split; [now rewrite <- Hdata|exact H].
Defined.

(** ** The issuance request and its failures *)

Section ApiFailures.

Variable params : settings.
Variable server : list request -> reply.

(** X5: with a readable configuration [_call_simpleapi] sends exactly one
    request, leaves the document alone, and whatever goes wrong reaches the
    caller as a [UserError]; it returns only what an HTTP 200 answer
    decodes to. *)
Theorem call_simpleapi_contract cfg data s o s' :
  get_simpleapi_config params = Ok cfg ->
  call_simpleapi params server data s = (o, s') ->
  rec s' = rec s /\
  wld s' = sent (emitir_request cfg data) (wld s) /\
  match o with
  | Ok j =>
      exists resp,
        server (emitir_request cfg data :: outbox (wld s)) = Replied resp /\
        status_code resp = 200 /\ json_of resp = Parsed j
  | Raise e => is_UserError e = true
  end.
Proof.
  intros Hcfg Hrun.
  pose proof (call_simpleapi_sends params server cfg data s o s' Hcfg Hrun) as ->.
  split; [reflexivity|]. split; [reflexivity|].
  revert Hrun. unfold call_simpleapi. run. rewrite Hcfg.
  destruct (server _) as [resp|why] eqn:Hsrv.
  - destruct (status_code resp =? 200) eqn:Hst.
    + unfold resp_json. destruct (json_of resp) as [j|why] eqn:Hj;
        cbn [is_UserError exn_class_of]; intros H; injection H as <-.
      * exists resp. apply Z.eqb_eq in Hst. now repeat split.
      * reflexivity.
    + cbn [is_UserError exn_class_of]. intros H. now injection H as <-.
  - cbn [is_UserError exn_class_of]. intros H. now injection H as <-.
Qed.

Lemma fallida_fields e r w :
  state (fallida e (iniciado r w)) = error /\
  error_message (fallida e (iniciado r w)) = Some (str_exn e) /\
  numero_boleta (fallida e (iniciado r w)) = numero_boleta r /\
  response_data (fallida e (iniciado r w)) = response_data r /\
  intentos (fallida e (iniciado r w)) = intentos r + 1.
Proof. now destruct r. Qed.

Lemma call_simpleapi_fails cfg data s e :
  get_simpleapi_config params = Ok cfg ->
  (match server (emitir_request cfg data :: outbox (wld s)) with
   | Replied resp =>
       if status_code resp =? 200
       then match json_of resp with
            | Parsed _ => False
            | NotJson why => e = api_unexpected_error why
            end
       else e = api_status_error resp
   | Failed why => e = api_unexpected_error why
   end) ->
  call_simpleapi params server data s
  = (Raise e, Session (rec s) (sent (emitir_request cfg data) (wld s))).
Proof.
  intros Hcfg. unfold call_simpleapi. run. rewrite Hcfg.
  destruct (server _) as [resp|why].
  - destruct (status_code resp =? 200).
    + unfold resp_json. destruct (json_of resp); [easy|]. now intros ->.
    + now intros ->.
  - now intros ->.
Qed.

(** X6: when the preconditions hold and the request is built, an answer
    with a status other than 200, an answer at 200 that does not decode, and
    a request that fails all end the issuance of the document in state
    [error] with the matching message; one request was sent, and the folio
    and the stored response are those of before. *)
Theorem api_failure_marks_error r w cfg data e :
  ready_to_issue r = true ->
  get_simpleapi_config params = Ok cfg ->
  prepare_api_data r = Ok data ->
  (match server (emitir_request cfg data :: outbox w) with
   | Replied resp =>
       if status_code resp =? 200
       then match json_of resp with
            | Parsed _ => False
            | NotJson why => e = api_unexpected_error why
            end
       else e = api_status_error resp
   | Failed why => e = api_unexpected_error why
   end) ->
  exists s',
    emitir_boleta params server (Session r w) = (Ok tt, s') /\
    wld s' = sent (emitir_request cfg data) w /\
    state (rec s') = error /\
    error_message (rec s') = Some (str_exn e) /\
    numero_boleta (rec s') = numero_boleta r /\
    response_data (rec s') = response_data r /\
    intentos (rec s') = intentos r + 1.
Proof.
  intros Hready Hcfg Hdata Hfail.
  exists (Session (fallida e (iniciado r w)) (sent (emitir_request cfg data) w)).
  split.
  - unfold emitir_boleta, try_except. unfold bind at 1.
    rewrite iniciar_emision_run.
    rewrite (emitir_ready params server (Session (iniciado r w) w) data).
    + unfold bind.
      rewrite (call_simpleapi_fails cfg data (Session (iniciado r w) w) e Hcfg Hfail).
      now rewrite emitir_except_run.
    + cbn [rec]. now rewrite ready_iniciado.
    + cbn [rec]. now rewrite prepare_iniciado.
  - cbn [rec wld]. split; [reflexivity|]. apply fallida_fields.
Qed.

End ApiFailures.

Lemma call_simpleapi_contract_witness :
  rec (Session sample_boleta (sent (emitir_request sample_config JNull) sample_world))
  = sample_boleta /\
  wld (Session sample_boleta (sent (emitir_request sample_config JNull) sample_world))
  = sent (emitir_request sample_config JNull) sample_world /\
  is_UserError (api_status_error failed_response) = true.
Proof.
  apply (call_simpleapi_contract sample_params (always (Replied failed_response))
           sample_config JNull (Session sample_boleta sample_world)
           (Raise (api_status_error failed_response))); reflexivity.
Defined.

Lemma api_failure_marks_error_witness :
  exists s' data,
    prepare_api_data sample_boleta = Ok data /\
    emitir_boleta sample_params (always (Replied failed_response))
                  (Session sample_boleta sample_world) = (Ok tt, s') /\
    wld s' = sent (emitir_request sample_config data) sample_world /\
    state (rec s') = error /\
    error_message (rec s') = Some "Error en API: 500 - Internal error" /\
    numero_boleta (rec s') = None /\
    response_data (rec s') = None /\
    intentos (rec s') = 1.
Proof.
  destruct (api_failure_marks_error sample_params (always (Replied failed_response))
              sample_boleta sample_world sample_config _
              (api_status_error failed_response) eq_refl eq_refl eq_refl eq_refl)
    as (s' & H).
  exists s'. eexists. split; [reflexivity|exact H].
Defined.

(** ** The mail request *)

Section MailRequest.

Variable params : settings.
Variable server : list request -> reply.

(** X7: when the configuration and the user's RUT are readable and the
    service answers the mail request, [_send_mail_via_simpleapi] returns
    [True] exactly for the statuses 200 and 202; it has waited
    [wait_seconds], sent that one request, left one entry in the chatter and
    changed no other field of the document. *)
Theorem send_mail_result cfg rut folio anio email wait resp s :
  0 <= wait ->
  get_simpleapi_config params = Ok cfg ->
  clean_rut (rut_usuario (rec s)) = Ok rut ->
  server (mail_request cfg folio anio rut (password_sii (rec s)) email
            :: outbox (wld s)) = Replied resp ->
  exists s',
    send_mail_via_simpleapi params server folio anio email wait s
    = (Ok ((status_code resp =? 200) || (status_code resp =? 202)), s') /\
    clock (wld s') = clock (wld s) + wait /\
    outbox (wld s')
    = mail_request cfg folio anio rut (password_sii (rec s)) email
        :: outbox (wld s) /\
    same_fields (rec s') (rec s) /\
    List.length (messages (rec s')) = S (List.length (messages (rec s))).
Proof.
  intros Hwait Hcfg Hrut Hsrv. destruct s as [r w]. cbn [rec wld] in *.
  unfold send_mail_via_simpleapi.
  assert (Hsleep :
    (if wait =? 0 then ret tt else sleep wait) (Session r w)
    = (Ok tt, Session r (World (clock w + wait) (outbox w)))).
  { destruct (wait =? 0) eqn:E.
    - apply Z.eqb_eq in E. subst wait. unfold ret. rewrite Z.add_0_r.
      now destruct w.
    - unfold sleep, modify. cbn [rec wld]. now destruct w. }
  unfold bind at 1. rewrite Hsleep.
  run. rewrite Hcfg, Hrut. cbn [outbox clock]. rewrite Hsrv.
  destruct ((status_code resp =? 200) || (status_code resp =? 202));
    (eexists; split; [reflexivity|]); cbn [rec wld clock outbox];
    (split; [reflexivity|]); (split; [reflexivity|]);
    (split; [apply same_fields_post|]);
    rewrite messages_with_messages, length_app; cbn [List.length]; lia.
Qed.

End MailRequest.

Lemma send_mail_result_witness :
  exists s',
    send_mail_via_simpleapi sample_params (always (Replied accepted_response))
      "123" 2024 "cliente@dominio.cl" 1 (Session sample_emitida sample_world)
    = (Ok true, s') /\
    clock (wld s') = clock sample_world + 1 /\
    outbox (wld s')
    = [mail_request sample_config "123" 2024 "123456785" (Some "secreto")
         "cliente@dominio.cl"] /\
    same_fields (rec s') sample_emitida /\
    List.length (messages (rec s')) = 1%nat.
Proof.
  apply (send_mail_result sample_params (always (Replied accepted_response))
           sample_config "123456785" "123" 2024 "cliente@dominio.cl" 1
           accepted_response (Session sample_emitida sample_world));
    [lia|reflexivity|reflexivity|reflexivity].
Defined.

(** ** Answers that report an error *)

Lemma error_first_nonempty d :
  Json.or_else (Json.or_else (Json.or_else (Json.or_else (Json.or_else
    (Json.get d "error") (Json.get d "mensaje")) (Json.get d "message"))
    (Json.get d "descripcion")) (Json.get d "detalle"))
    (JStr "Error desconocido")
  = error_of d.
Proof.
  unfold error_of, first_nonempty, error_keys, Json.or_else. cbn [map find].
  destruct (Json.truthy (Json.get d "error")) eqn:E1.
  { now rewrite !E1. }
  destruct (Json.truthy (Json.get d "mensaje")) eqn:E2.
  { now rewrite !E2. }
  destruct (Json.truthy (Json.get d "message")) eqn:E3.
  { now rewrite !E3. }
  destruct (Json.truthy (Json.get d "descripcion")) eqn:E4.
  { now rewrite !E4. }
  destruct (Json.truthy (Json.get d "detalle")) eqn:E5; reflexivity.
Qed.

Section ErrorAnswers.

Variable params : settings.
Variable server : list request -> reply.

Lemma process_error_run d s :
  exists s',
    process_error_response (JDict d) s = (Ok tt, s') /\
    state (rec s') = error /\
    error_message (rec s') = Some (Json.str (error_of d)) /\
    response_data (rec s') = Some (Json.dumps (JDict d)) /\
    numero_boleta (rec s') = numero_boleta (rec s) /\
    messages (rec s')
    = (messages (rec s)
       ++ [Message ("Error en emisi" ++ o_acute ++ "n: " ++ Json.str (error_of d))
                   comment])%list /\
    wld s' = wld s.
Proof.
  destruct s as [r w]. unfold process_error_response. run. unfold as_dict.
  cbv zeta. rewrite error_first_nonempty.
  eexists. split; [reflexivity|]. cbn [rec wld]. now destruct r.
Qed.

(** X8: when the service answers the issuance request with HTTP 200 and a
    JSON object that has no truthy value under the success keys, the
    document ends in state [error]; its error message is the text of the
    first truthy value among [error], [mensaje], [message], [descripcion]
    and [detalle], or [Error desconocido] when there is none; the serialized
    response is stored, the folio is the one of before and no further
    request is sent. *)
Theorem error_response_marks_error r w req d :
  ready_to_issue r = true ->
  issuance_answered params server r w req (JDict d) ->
  classified_success d = false ->
  exists s',
    emitir_boleta params server (Session r w) = (Ok tt, s') /\
    state (rec s') = error /\
    error_message (rec s') = Some (Json.str (error_of d)) /\
    response_data (rec s') = Some (Json.dumps (JDict d)) /\
    numero_boleta (rec s') = numero_boleta r /\
    messages (rec s')
    = (messages (iniciado r w)
       ++ [Message ("Error en emisi" ++ o_acute ++ "n: " ++ Json.str (error_of d))
                   comment])%list /\
    wld s' = sent req w.
Proof.
  intros Hready Hans Hclass.
  destruct (process_error_run d (Session (iniciado r w) (sent req w)))
    as (s' & Hrun & Hst & Herr & Hdata & Hnum & Hmsg & Hw).
  exists s'. split.
  - rewrite (emitir_boleta_answered params server r w req (JDict d) Hready Hans).
    unfold try_except, procesar_respuesta, bind, lift.
    rewrite is_success_classified, Hclass, Hrun. reflexivity.
  - repeat split; try assumption.
    rewrite Hnum. cbn [rec]. clear. now destruct r.
Qed.

(** X9: when the service answers the issuance request with HTTP 200 and a
    body that decodes to something other than a JSON object, reading the
    response raises an [AttributeError] that the [except] block catches: the
    document ends in state [error] with the text of that error, and neither
    the folio nor the stored response changes. *)
Theorem non_object_response_marks_error r w req j :
  ready_to_issue r = true ->
  issuance_answered params server r w req j ->
  is_object j = false ->
  emitir_boleta params server (Session r w)
  = (Ok tt,
     Session (fallida (no_attribute (Json.type_name j) "get") (iniciado r w))
             (sent req w)).
Proof.
  intros Hready Hans Hobj.
  rewrite (emitir_boleta_answered params server r w req j Hready Hans).
  unfold try_except, procesar_respuesta, bind, lift.
  assert (His : is_success j = Raise (no_attribute (Json.type_name j) "get")).
  { destruct j; try reflexivity. discriminate. }
  rewrite His. now rewrite emitir_except_run.
Qed.

End ErrorAnswers.

Lemma error_response_marks_error_witness :
  exists s',
    emitir_boleta sample_params (answering (JDict rejected_response))
                  (Session sample_boleta sample_world) = (Ok tt, s') /\
    state (rec s') = error /\
    error_message (rec s') = Some "RUT no autorizado" /\
    response_data (rec s') = Some (Json.dumps (JDict rejected_response)) /\
    numero_boleta (rec s') = None /\
    messages (rec s')
    = (messages (iniciado sample_boleta sample_world)
       ++ [Message ("Error en emisi" ++ o_acute ++ "n: RUT no autorizado")
                   comment])%list /\
    List.length (outbox (wld s')) = 1%nat.
Proof.
  destruct (error_response_marks_error sample_params
              (answering (JDict rejected_response)) sample_boleta sample_world _
              rejected_response eq_refl
              (ex_intro _ _ (ex_intro _ _ (ex_intro _ _
                 (conj eq_refl (conj eq_refl (conj eq_refl eq_refl))))))
              eq_refl)
    as (s' & H1 & H2 & H3 & H4 & H5 & H6 & H7).
  exists s'. repeat (split; [assumption|]). now rewrite H7.
Defined.

Lemma non_object_response_marks_error_witness :
  exists s',
    emitir_boleta sample_params (answering (JList []))
                  (Session sample_boleta sample_world) = (Ok tt, s') /\
    state (rec s') = error /\
    error_message (rec s') = Some "'list' object has no attribute 'get'" /\
    numero_boleta (rec s') = None /\
    response_data (rec s') = None.
Proof.
  eexists. split.
  - eapply (non_object_response_marks_error sample_params (answering (JList []))
              sample_boleta sample_world _ (JList [])).
    + reflexivity.
    + eexists _, _, _. repeat split; reflexivity.
    + reflexivity.
  - repeat split; reflexivity.
Defined.

(** ** Preconditions of the issuance *)

Section IssuancePreconditions.

Variable params : settings.
Variable server : list request -> reply.

Lemma first_failed_check_iniciado r w :
  first_failed_check (iniciado r w) = first_failed_check r.
Proof. now destruct r. Qed.

Lemma emitir_failed_check s msg :
  first_failed_check (rec s) = Some msg ->
  emitir params server s = (Raise (Exn UserError msg), s).
Proof.
  unfold first_failed_check, emitir. run.
  destruct (negb (filled (descripcion_servicio (rec s)))).
  { intros H. now injection H as <-. }
  destruct (Qle_bool (valor_bruto (rec s)) 0).
  { intros H. now injection H as <-. }
  destruct (negb (valid_email (email_destinatario (rec s)))).
  { intros H. now injection H as <-. }
  discriminate.
Qed.

(** X10: when a precondition of the issuance fails, nothing is sent: the
    world is the one of before, and the document ends in state [error] with
    the message of the first failing check, in the order description,
    amount, address; the checks are exactly the three of [ready_to_issue]. *)
Theorem failed_check_sends_nothing r w msg :
  first_failed_check r = Some msg ->
  ready_to_issue r = false /\
  emitir_boleta params server (Session r w)
  = (Ok tt, Session (fallida (Exn UserError msg) (iniciado r w)) w) /\
  error_message (fallida (Exn UserError msg) (iniciado r w)) = Some msg /\
  state (fallida (Exn UserError msg) (iniciado r w)) = error.
Proof.
  intros Hcheck. split; [|split].
  - revert Hcheck. unfold first_failed_check, ready_to_issue.
    destruct (filled (descripcion_servicio r)); [|reflexivity].
    destruct (Qle_bool (valor_bruto r) 0); [reflexivity|].
    destruct (valid_email (email_destinatario r)); [discriminate|reflexivity].
  - unfold emitir_boleta, try_except. unfold bind at 1.
    rewrite iniciar_emision_run.
    rewrite (emitir_failed_check (Session (iniciado r w) w) msg).
    + now rewrite emitir_except_run.
    + cbn [rec]. now rewrite first_failed_check_iniciado.
  - destruct (fallida_fields (Exn UserError msg) r w) as (Hst & Herr & _).
    now split.
Qed.

End IssuancePreconditions.

Lemma failed_check_sends_nothing_witness :
  ready_to_issue sample_vacia = false /\
  emitir_boleta sample_params (answering (JDict folio_response))
                (Session sample_vacia sample_world)
  = (Ok tt,
     Session (fallida (Exn UserError ("Debe agregar una descripci" ++ o_acute
                                      ++ "n del servicio"))
                      (iniciado sample_vacia sample_world))
             sample_world) /\
  error_message
    (fallida (Exn UserError ("Debe agregar una descripci" ++ o_acute
                             ++ "n del servicio"))
             (iniciado sample_vacia sample_world))
  = Some ("Debe agregar una descripci" ++ o_acute ++ "n del servicio") /\
  state
    (fallida (Exn UserError ("Debe agregar una descripci" ++ o_acute
                             ++ "n del servicio"))
             (iniciado sample_vacia sample_world))
  = error.
Proof.
  apply (failed_check_sends_nothing sample_params (answering (JDict folio_response))
           sample_vacia sample_world). reflexivity.
Defined.

(** ** How an issuance ends *)

Lemma str_Z_nonempty z : Py.nonempty (Py.str_Z z) = true.
Proof.
  unfold Py.str_Z. destruct (Z.to_int z) as [d|d]; [|reflexivity].
  now destruct d.
Qed.

Lemma str_truthy_nonempty v :
  Json.truthy v = true -> Py.nonempty (Json.str v) = true.
Proof.
  destruct v as [|[]|z|s|l|d]; cbn [Json.truthy Json.str Json.repr];
    try discriminate; try reflexivity; intros H.
  - apply str_Z_nonempty.
  - exact H.
Qed.

Lemma dumps_dict_nonempty d : Py.nonempty (Json.dumps (JDict d)) = true.
Proof. now destruct d. Qed.

Section IssuanceOutcome.

Variable params : settings.
Variable server : list request -> reply.

Lemma emitir_ok_inv s s1 :
  emitir params server s = (Ok tt, s1) ->
  exists data resp s0,
    call_simpleapi params server data s = (Ok resp, s0) /\
    procesar_respuesta params server resp s0 = (Ok tt, s1).
Proof.
  intros H.
  destruct (ready_to_issue (rec s)) eqn:Hr.
  2:{ destruct (emitir_not_ready params server s Hr) as [e He].
      rewrite He in H. discriminate. }
  destruct (prepare_api_data (rec s)) as [data|e] eqn:Hd.
  - rewrite (emitir_ready params server s data Hr Hd) in H. unfold bind in H.
    destruct (call_simpleapi params server data s) as [[resp|e] s0] eqn:Hc;
      [|discriminate].
    now exists data, resp, s0.
  - exfalso. revert H.
    unfold ready_to_issue in Hr.
    apply andb_true_iff in Hr as [Hr Hmail].
    apply andb_true_iff in Hr as [Hdesc Hval].
    apply negb_true_iff in Hval.
    unfold emitir.
    unfold bind at 1. unfold gets at 1.
    unfold bind at 1. rewrite Hdesc. unfold raise_if at 1, ret at 1, negb.
    unfold bind at 1. rewrite Hval. unfold raise_if at 1, ret at 1.
    unfold bind at 1. rewrite Hmail. unfold raise_if at 1, ret at 1, negb.
    unfold bind at 1. rewrite Hd. unfold lift at 1. discriminate.
Qed.

Lemma procesar_respuesta_ends resp s s1 :
  procesar_respuesta params server resp s = (Ok tt, s1) ->
  ended_emitted (rec s1) \/ ended_error (rec s1).
Proof.
  intros H. destruct resp as [| | | | |d];
    try (unfold procesar_respuesta, bind, lift in H; cbn in H; discriminate).
  unfold procesar_respuesta, bind, lift in H.
  rewrite is_success_classified in H.
  destruct (classified_success d).
  - destruct (Json.truthy (folio_of d)) eqn:Hf.
    + destruct (process_success_emitted params server d s Hf)
        as (s' & Hrun & Hst & Hnum & Herr & Hdata & _).
      rewrite Hrun in H. injection H as <-. left.
      split; [exact Hst|]. split; [|split; [exact Herr|]].
      * rewrite Hnum. cbn [filled]. now apply str_truthy_nonempty.
      * rewrite Hdata. apply dumps_dict_nonempty.
    + destruct (process_success_without_folio params server d s Hf)
        as (s' & Hrun & Hst & Herr & _).
      rewrite Hrun in H. injection H as <-. right.
      split; [exact Hst|]. eexists. exact Herr.
  - destruct (process_error_run d s) as (s' & Hrun & Hst & Herr & _).
    rewrite Hrun in H. injection H as <-. right.
    split; [exact Hst|]. eexists. exact Herr.
Qed.

(** X11: the issuance of a document never raises, and it ends in one of two
    ways: the document is [emitted], holds a non-empty folio and the
    response, and its error message is cleared; or the document is in
    [error] and holds an error message.  No run leaves the document in
    [draft] or [processing]. *)
Theorem issuance_ends_emitted_or_error s :
  exists s',
    emitir_boleta params server s = (Ok tt, s') /\
    (ended_emitted (rec s') \/ ended_error (rec s')).
Proof.
  destruct s as [r w].
  unfold emitir_boleta, try_except. unfold bind at 1.
  rewrite iniciar_emision_run.
  destruct (emitir params server (Session (iniciado r w) w)) as [[[]|e] s1] eqn:E.
  - exists s1. split; [reflexivity|].
    destruct (emitir_ok_inv _ _ E) as (data & resp & s0 & _ & Hproc).
    exact (procesar_respuesta_ends resp s0 s1 Hproc).
  - rewrite emitir_except_run. eexists. split; [reflexivity|]. right.
    cbn [rec]. unfold ended_error. destruct (rec s1). cbn. eauto.
Qed.

End IssuanceOutcome.

(** ** What no operation loses *)

Lemma data_kept_refl r : data_kept r r.
Proof. split; [reflexivity|]. exists []. now rewrite app_nil_r. Qed.

Lemma data_kept_trans a b c : data_kept a b -> data_kept b c -> data_kept a c.
Proof.
  intros [Hab [l Hl]] [Hbc [l' Hl']]. split.
  - now rewrite Hbc.
  - exists (l ++ l')%list. now rewrite Hl', Hl, app_assoc.
Qed.

Lemma history_frame : frame history_kept.
Proof.
  split.
  - intros s. split; [apply data_kept_refl|]. split; [now exists []|lia].
  - intros a b c (Hd & [l Hl] & Hc) (Hd' & [l' Hl'] & Hc').
    split; [eapply data_kept_trans; eassumption|]. split.
    + exists (l' ++ l)%list. now rewrite Hl', Hl, app_assoc.
    + lia.
Qed.

(** A write to a field of the document outside the business data. *)
Lemma history_write f s :
  (forall r, business_data (f r) = business_data r) ->
  (forall r, messages (f r) = messages r) ->
  history_kept s (Session (f (rec s)) (wld s)).
Proof.
  intros Hb Hm. split; [split|].
  - apply Hb.
  - exists []. cbn [rec]. now rewrite Hm, app_nil_r.
  - split; [now exists []|cbn [wld]; lia].
Qed.

Lemma history_message m s :
  history_kept s (Session (with_messages (messages (rec s) ++ [m]) (rec s)) (wld s)).
Proof.
  split; [split|].
  - cbn [rec]. now destruct (rec s).
  - exists [m]. cbn [rec]. now rewrite messages_with_messages.
  - split; [now exists []|cbn [wld]; lia].
Qed.

Lemma history_sent req s :
  history_kept s (Session (rec s) (sent req (wld s))).
Proof.
  split; [apply data_kept_refl|]. split; [now exists [req]|cbn; lia].
Qed.

Lemma history_sleep n s :
  0 <= n ->
  history_kept s (Session (rec s) (World (clock (wld s) + n) (outbox (wld s)))).
Proof.
  intros Hn. split; [apply data_kept_refl|]. split; [now exists []|cbn; lia].
Qed.

Ltac history_step :=
  match goal with
  | s : session |- history_kept _ _ =>
      first [ apply history_message
            | apply history_sent
            | apply history_sleep; lia
            | apply history_write; intros []; reflexivity ]
  end.

Lemma Forall2_same {A} (Q : A -> A -> Prop) l :
  (forall x, Q x x) -> Forall2 Q l l.
Proof. intros HQ. induction l; constructor; auto. Qed.

(** What the body keeps of each record, the loop keeps of each record of
    the batch, visited or not. *)
Lemma for_each_kept (Q : boleta -> boleta -> Prop) body :
  (forall r, Q r r) ->
  (forall s, Q (rec s) (rec (snd (body s)))) ->
  forall self w, Forall2 Q self (fst (snd (for_each body self w))).
Proof.
  intros Hrefl Hbody. induction self as [|r rest IH]; intros w; cbn [for_each].
  - constructor.
  - pose proof (Hbody (Session r w)) as Hr. cbn [rec] in Hr.
    destruct (body (Session r w)) as [[a|e] s]; cbn [snd] in Hr.
    + specialize (IH (wld s)).
      destruct (for_each body rest (wld s)) as [o [rest' w']].
      cbn [fst snd] in *. now constructor.
    + cbn [fst snd]. constructor; [exact Hr|]. now apply Forall2_same.
Qed.

Section History.

Variable params : settings.
Variable server : list request -> reply.

Lemma emitir_boleta_history : preserves history_kept (emitir_boleta params server).
Proof.
  pose proof history_frame as F.
  unfold emitir_boleta, iniciar_emision, emitir, emitir_except.
  frame_walk; history_step.
Qed.

Lemma anular_boleta_history : preserves history_kept (anular_boleta params server).
Proof.
  pose proof history_frame as F.
  unfold anular_boleta. frame_walk; history_step.
Qed.

Lemma anular_boleta_path_history :
  preserves history_kept (anular_boleta_path params server).
Proof.
  pose proof history_frame as F.
  unfold anular_boleta_path. frame_walk; history_step.
Qed.

(** X12: the issuance never touches what the user entered.  Whatever the
    service answers, the business data of the document are those of before,
    its chatter is continued, the requests sent before are still there
    below the new ones and the clock has not gone back; and in a batch this
    holds of every document. *)
Theorem issuance_keeps_history :
  (forall s, history_kept s (snd (emitir_boleta params server s))) /\
  (forall self w,
      Forall2 data_kept self
              (fst (snd (action_emitir_boleta params server self w)))).
Proof.
  assert (H : forall s, history_kept s (snd (emitir_boleta params server s))).
  { intros s. destruct (emitir_boleta params server s) as [o s'] eqn:E.
    exact (emitir_boleta_history s o s' E). }
  split; [exact H|].
  apply for_each_kept; [apply data_kept_refl|]. intros s. apply H.
Qed.

(** X13: neither void operation touches what the user entered, whether it
    returns or raises: of each document the business data are kept and the
    chatter is continued; no request sent before is lost and the clock
    does not go back. *)
Theorem void_keeps_history :
  (forall s, history_kept s (snd (anular_boleta params server s))) /\
  (forall s, history_kept s (snd (anular_boleta_path params server s))) /\
  (forall self w,
      Forall2 data_kept self
              (fst (snd (action_anular_boleta params server self w)))) /\
  (forall self w,
      Forall2 data_kept self
              (fst (snd (action_anular_boleta_path params server self w)))).
Proof.
  assert (H1 : forall s, history_kept s (snd (anular_boleta params server s))).
  { intros s. destruct (anular_boleta params server s) as [o s'] eqn:E.
    exact (anular_boleta_history s o s' E). }
  assert (H2 : forall s, history_kept s (snd (anular_boleta_path params server s))).
  { intros s. destruct (anular_boleta_path params server s) as [o s'] eqn:E.
    exact (anular_boleta_path_history s o s' E). }
  split; [exact H1|]. split; [exact H2|]. split.
  - apply for_each_kept; [apply data_kept_refl|]. intros s. apply H1.
  - apply for_each_kept; [apply data_kept_refl|]. intros s. apply H2.
Qed.

End History.

(** ** The void operations *)

Section VoidOutcome.

Variable params : settings.
Variable server : list request -> reply.

Lemma anular_boleta_outcome s :
  void_outcome (fun r => can_be_voided (state r)) s (anular_boleta params server s).
Proof.
  destruct s as [r w]. unfold void_outcome, anular_boleta. run.
  destruct (can_be_voided (state r)) eqn:Hst; cbn [negb];
    [|split; [reflexivity|split; [reflexivity|now left]]].
  destruct (get_simpleapi_config params) as [cfg|e]; cbv beta iota;
    [|split; [reflexivity|split; [reflexivity|now left]]].
  destruct (clean_rut (rut_usuario r)) as [rut|e]; cbv beta iota;
    [|split; [reflexivity|split; [reflexivity|now left]]].
  cbn [rec wld outbox clock].
  destruct (server _) as [resp|why]; cbv beta iota zeta;
    [|split; [reflexivity|split; [reflexivity|right; eexists; reflexivity]]].
  destruct ((status_code resp =? 200) && legacy_ok resp); cbv beta iota;
    [|split; [reflexivity|split; [reflexivity|right; eexists; reflexivity]]].
  cbn [rec wld]. split; [reflexivity|]. split; eexists; [|reflexivity].
  unfold anulada. clear. now destruct r.
Qed.

Lemma anular_boleta_path_outcome s :
  void_outcome can_void_by_path s (anular_boleta_path params server s).
Proof.
  destruct s as [r w]. unfold void_outcome, can_void_by_path, anular_boleta_path. run.
  destruct (can_be_voided (state r)) eqn:Hst; cbn [negb];
    [|split; [reflexivity|split; [reflexivity|now left]]].
  destruct (filled (numero_boleta r)) eqn:Hfolio; cbn [negb];
    [|split; [reflexivity|split; [reflexivity|now left]]].
  destruct (valid_motivo (motivo_anulacion r)) eqn:Hmot; cbn [negb];
    [|split; [reflexivity|split; [reflexivity|now left]]].
  destruct (get_simpleapi_config params) as [cfg|e]; cbv beta iota zeta;
    [|destruct (is_UserError e) eqn:He;
      (split; [first [exact He|reflexivity]|split; [reflexivity|now left]])].
  destruct (clean_rut (rut_usuario r)) as [rut|e]; cbv beta iota;
    [|destruct (is_UserError e) eqn:He;
      (split; [first [exact He|reflexivity]|split; [reflexivity|now left]])].
  cbn [rec wld outbox clock].
  destruct (server _) as [resp|why]; cbv beta iota zeta;
    [|cbn [is_UserError exn_class_of];
      split; [reflexivity|split; [reflexivity|right; eexists; reflexivity]]].
  destruct ((status_code resp =? 200) || (status_code resp =? 202)); cbv beta iota;
    [|split; [reflexivity|split; [reflexivity|right; eexists; reflexivity]]].
  destruct (json_of resp) as [[| | | | |data]|why]; cbv beta iota zeta;
    try (destruct (Py.nonempty (Py.strip (text resp))
                   && says_voided (Py.lower (Py.strip (text resp))));
         cbn [rec wld]; (split; [reflexivity|]);
         (split; eexists; [unfold anulada; clear; now destruct r|reflexivity])).
  destruct (success_flag data && negb (Json.truthy (Json.get data "error")));
    cbv beta iota.
  - cbn [rec wld]. split; [reflexivity|]. split; eexists;
      [unfold anulada; clear; now destruct r|reflexivity].
  - split; [reflexivity|split; [reflexivity|right; eexists; reflexivity]].
Qed.

End VoidOutcome.


Section VoidProperties.

Variable params : settings.
Variable server : list request -> reply.

(** X14: a void is all or nothing, for both operations and whatever the
    service does.  When the operation returns, the document was allowed to
    be voided, it is now [cancelled] with one more notification and nothing
    else changed, and exactly one request was sent.  When it raises, the
    error is a [UserError], the document is exactly what it was, and at
    most one request was sent. *)
Theorem void_all_or_nothing s :
  void_outcome (fun r => can_be_voided (state r)) s (anular_boleta params server s) /\
  void_outcome can_void_by_path s (anular_boleta_path params server s).
Proof. split; [apply anular_boleta_outcome|apply anular_boleta_path_outcome]. Qed.

Lemma anular_boleta_refused s :
  can_be_voided (state (rec s)) = false ->
  anular_boleta params server s
  = (Raise (Exn UserError "Solo se pueden anular boletas emitidas"), s).
Proof. intros H. unfold anular_boleta. run. now rewrite H. Qed.

Lemma anular_boleta_path_refused s msg :
  path_refusal (rec s) = Some msg ->
  anular_boleta_path params server s = (Raise (Exn UserError msg), s).
Proof.
  unfold path_refusal, anular_boleta_path. run.
  destruct (negb (can_be_voided (state (rec s)))).
  { intros H. now injection H as <-. }
  destruct (negb (filled (numero_boleta (rec s)))).
  { intros H. now injection H as <-. }
  destruct (negb (valid_motivo (motivo_anulacion (rec s)))).
  { intros H. now injection H as <-. }
  discriminate.
Qed.

Lemma state_anulada note r : state (anulada note r) = cancelled.
Proof. now destruct r. Qed.

(** X15: a document that either operation has voided cannot be voided
    again: it is [cancelled], and both operations refuse it with their
    message about the state, before any request. *)
Theorem voided_is_not_voided_again s s' :
  anular_boleta params server s = (Ok tt, s') \/
  anular_boleta_path params server s = (Ok tt, s') ->
  state (rec s') = cancelled /\
  anular_boleta params server s'
  = (Raise (Exn UserError "Solo se pueden anular boletas emitidas"), s') /\
  anular_boleta_path params server s'
  = (Raise (Exn UserError "Solo se pueden anular boletas emitidas o descargadas"), s').
Proof.
  intros H.
  assert (Hst : state (rec s') = cancelled).
  { destruct H as [H|H].
    - pose proof (anular_boleta_outcome params server s) as Ho.
      rewrite H in Ho. destruct Ho as (_ & [note ->] & _). apply state_anulada.
    - pose proof (anular_boleta_path_outcome params server s) as Ho.
      rewrite H in Ho. destruct Ho as (_ & [note ->] & _). apply state_anulada. }
  split; [exact Hst|]. split.
  - apply anular_boleta_refused. now rewrite Hst.
  - apply anular_boleta_path_refused. unfold path_refusal. now rewrite Hst.
Qed.

(** X16: the path-style void checks the state, then the folio, then the
    reason, and refuses the document with the message of the first check
    that fails; the legacy void checks the state only.  A refused document
    stays as it was and nothing is sent. *)
Theorem void_refusal_sends_nothing r w :
  (forall msg,
      path_refusal r = Some msg ->
      can_void_by_path r = false /\
      action_anular_boleta_path params server [r] w
      = (Raise (Exn UserError msg), ([r], w))) /\
  (path_refusal r = None -> can_void_by_path r = true) /\
  (can_be_voided (state r) = false ->
   action_anular_boleta params server [r] w
   = (Raise (Exn UserError "Solo se pueden anular boletas emitidas"), ([r], w))).
Proof.
  split; [|split].
  - intros msg Hmsg. split.
    + revert Hmsg. unfold path_refusal, can_void_by_path.
      destruct (can_be_voided (state r)); [|reflexivity].
      destruct (filled (numero_boleta r)); [|reflexivity].
      destruct (valid_motivo (motivo_anulacion r)); [discriminate|reflexivity].
    + unfold action_anular_boleta_path. cbn [for_each].
      now rewrite (anular_boleta_path_refused (Session r w) msg Hmsg).
  - unfold path_refusal, can_void_by_path.
    destruct (can_be_voided (state r)); [|discriminate].
    destruct (filled (numero_boleta r)); [|discriminate].
    destruct (valid_motivo (motivo_anulacion r)); [reflexivity|discriminate].
  - intros Hst. unfold action_anular_boleta. cbn [for_each].
    now rewrite (anular_boleta_refused (Session r w) Hst).
Qed.


(** X18: at HTTP 200 or 202 the path-style void fails in one case only:
    the body decodes to a JSON object whose success flag is false or whose
    [error] is truthy.  Every other body, a JSON value that is not an object
    included, leaves the document [cancelled]. *)
Theorem path_void_fails_only_on_object r w req resp :
  can_void_by_path r = true ->
  path_answered params server r w req resp ->
  status_code resp = 200 \/ status_code resp = 202 ->
  (object_says_no resp ->
   exists e,
     anular_boleta_path params server (Session r w)
     = (Raise e, Session r (sent req w))) /\
  (~ object_says_no resp ->
   exists note,
     anular_boleta_path params server (Session r w)
     = (Ok tt, Session (anulada note r) (sent req w))).
Proof.
  intros Hpre Hans Hcode.
  pose proof (anular_boleta_path_answered params server r w req resp Hpre Hans) as Hrun.
  assert (Hst : (status_code resp =? 200) || (status_code resp =? 202) = true).
  { destruct Hcode as [-> | ->]; reflexivity. }
  rewrite Hst in Hrun. clear Hst. unfold object_says_no. split.
  - intros (data & Hjson & Hno). rewrite Hjson in Hrun.
    assert (Hc : success_flag data && negb (Json.truthy (Json.get data "error")) = false).
    { destruct Hno as [-> | ->]; [reflexivity|apply andb_false_r]. }
    rewrite Hc in Hrun. eexists. exact Hrun.
  - intros Hyes.
    destruct (json_of resp) as [[| | | | |data]|why] eqn:Hjson; cbv zeta in Hrun;
      try (destruct (Py.nonempty (Py.strip (text resp))
                     && says_voided (Py.lower (Py.strip (text resp))));
           eexists; exact Hrun).
    destruct (success_flag data) eqn:Hflag;
      [destruct (Json.truthy (Json.get data "error")) eqn:Herr|].
    + exfalso. apply Hyes. exists data. split; [reflexivity|now right].
    + cbn [andb negb] in Hrun. eexists. exact Hrun.
    + exfalso. apply Hyes. exists data. split; [reflexivity|now left].
Qed.

End VoidProperties.

Lemma voided_is_not_voided_again_witness :
  state (anulada (legacy_note sample_anulable empty_object_response) sample_anulable)
  = cancelled /\
  anular_boleta sample_params (always (Replied empty_object_response))
    (Session (anulada (legacy_note sample_anulable empty_object_response)
                      sample_anulable)
             (sent (anular_request sample_config (Some "123") "123456785"
                                   (Some "secreto")) sample_world))
  = (Raise (Exn UserError "Solo se pueden anular boletas emitidas"),
     Session (anulada (legacy_note sample_anulable empty_object_response)
                      sample_anulable)
             (sent (anular_request sample_config (Some "123") "123456785"
                                   (Some "secreto")) sample_world)).
Proof.
  destruct (voided_is_not_voided_again sample_params
              (always (Replied empty_object_response))
              (Session sample_anulable sample_world)
              (Session (anulada (legacy_note sample_anulable empty_object_response)
                                sample_anulable)
                       (sent (anular_request sample_config (Some "123") "123456785"
                                             (Some "secreto")) sample_world))
              (or_introl eq_refl))
    as (H1 & H2 & _).
  split; [exact H1|exact H2].
Defined.

Lemma void_refusal_sends_nothing_witness :
  can_void_by_path sample_boleta = false /\
  action_anular_boleta_path sample_params (always (Replied accepted_response))
                            [sample_boleta] sample_world
  = (Raise (Exn UserError "Solo se pueden anular boletas emitidas o descargadas"),
     ([sample_boleta], sample_world)).
Proof.
  destruct (void_refusal_sends_nothing sample_params
              (always (Replied accepted_response)) sample_boleta sample_world)
    as (H & _).
  apply H. reflexivity.
Defined.

Lemma path_void_fails_only_on_object_witness :
  exists note,
    anular_boleta_path sample_params (always (Replied null_response))
                       (Session sample_anulable sample_world)
    = (Ok tt,
       Session (anulada note sample_anulable)
               (sent (anular_path_request sample_config "123" "1" "123456785"
                                          (Some "secreto")) sample_world)).
Proof.
  destruct (path_void_fails_only_on_object sample_params
              (always (Replied null_response)) sample_anulable sample_world
              (anular_path_request sample_config "123" "1" "123456785" (Some "secreto"))
              null_response eq_refl
              (ex_intro _ sample_config (ex_intro _ "123456785"
                 (conj eq_refl (conj eq_refl (conj eq_refl eq_refl)))))
              (or_introl eq_refl))
    as (_ & H).
  apply H. intros (data & Hjson & _). discriminate Hjson.
Defined.

(** ** The mail request of an issued document *)

Section MailTarget.

Variable params : settings.
Variable server : list request -> reply.



End MailTarget.


(** ** Requests that cannot be built *)

Lemma config_error_class params e :
  get_simpleapi_config params = Raise e -> exn_class_of e = ValueError.
Proof.
  unfold get_simpleapi_config, py_int.
  destruct (Py.int_str _); cbn [obind]; [discriminate|].
  intros H. now injection H as <-.
Qed.

Section Unbuilt.

Variable params : settings.
Variable server : list request -> reply.

Lemma emitir_unbuilt s e :
  ready_to_issue (rec s) = true ->
  prepare_api_data (rec s) = Raise e \/
  ((exists data, prepare_api_data (rec s) = Ok data) /\
   get_simpleapi_config params = Raise e) ->
  emitir params server s = (Raise e, s).
Proof.
  intros Hr H.
  unfold ready_to_issue in Hr.
  apply andb_true_iff in Hr as [Hr Hmail].
  apply andb_true_iff in Hr as [Hdesc Hval].
  apply negb_true_iff in Hval.
  unfold emitir.
  unfold bind at 1. unfold gets at 1.
  unfold bind at 1. rewrite Hdesc. unfold raise_if at 1, ret at 1, negb.
  unfold bind at 1. rewrite Hval. unfold raise_if at 1, ret at 1.
  unfold bind at 1. rewrite Hmail. unfold raise_if at 1, ret at 1, negb.
  destruct H as [Hd | [[data Hd] Hcfg]].
  - unfold bind at 1. rewrite Hd. reflexivity.
  - unfold bind at 1. rewrite Hd. unfold lift at 1.
    unfold bind at 1. unfold call_simpleapi. unfold bind at 1.
    rewrite Hcfg. reflexivity.
Qed.

(** X20: when the preconditions hold but the request cannot be built,
    because a field of the document cannot be converted or because the
    stored timeout is not a number, the issuance sends nothing: the world is
    the one of before and the document ends in state [error] with the text
    of the exception, which is not wrapped in the message of an API
    failure. *)
Theorem unbuilt_issuance_sends_nothing r w e :
  ready_to_issue r = true ->
  prepare_api_data r = Raise e \/
  ((exists data, prepare_api_data r = Ok data) /\
   get_simpleapi_config params = Raise e) ->
  emitir_boleta params server (Session r w)
  = (Ok tt, Session (fallida e (iniciado r w)) w) /\
  state (fallida e (iniciado r w)) = error /\
  error_message (fallida e (iniciado r w)) = Some (str_exn e) /\
  is_UserError e = false.
Proof.
  intros Hr H. split; [|split; [|split]].
  - unfold emitir_boleta, try_except. unfold bind at 1.
    rewrite iniciar_emision_run.
    rewrite (emitir_unbuilt (Session (iniciado r w) w) e).
    + now rewrite emitir_except_run.
    + cbn [rec]. now rewrite ready_iniciado.
    + cbn [rec]. now rewrite prepare_iniciado.
  - apply fallida_fields.
  - apply fallida_fields.
  - destruct H as [Hd | [_ Hcfg]].
    + revert Hd. unfold prepare_api_data, clean_rut, int_field, py_int, strftime_dmy.
      repeat match goal with
             | |- context [match ?x with _ => _ end] =>
                 destruct x; cbn [obind]; try discriminate;
                 try (intros H; now injection H as <-)
             end.
    + unfold is_UserError. now rewrite (config_error_class params e Hcfg).
Qed.

(** X21: when a void cannot build its request, because the stored timeout
    is not a number or because the document has no RUT of the user, nothing
    is sent and the document stays as it was; the legacy operation raises a
    [UserError] that wraps the text of the exception, the path-style one a
    [UserError] that announces an unexpected error. *)
Theorem unbuilt_void_sends_nothing r w e :
  get_simpleapi_config params = Raise e \/
  ((exists cfg, get_simpleapi_config params = Ok cfg) /\
   clean_rut (rut_usuario r) = Raise e) ->
  (can_be_voided (state r) = true ->
   anular_boleta params server (Session r w)
   = (Raise (Exn UserError ("Error anulando boleta: " ++ str_exn e)), Session r w)) /\
  (can_void_by_path r = true ->
   anular_boleta_path params server (Session r w)
   = (Raise (Exn UserError ("Error inesperado anulando boleta: " ++ str_exn e)),
      Session r w)).
Proof.
  intros H.
  assert (He : is_UserError e = false).
  { destruct H as [Hcfg | [_ Hrut]].
    - unfold is_UserError. now rewrite (config_error_class params e Hcfg).
    - unfold clean_rut in Hrut. destruct (rut_usuario r); [discriminate|].
      now injection Hrut as <-. }
  split.
  - intros Hst. unfold anular_boleta. run. rewrite Hst. cbn [negb].
    destruct H as [Hcfg | [[cfg Hcfg] Hrut]]; rewrite Hcfg; cbv beta iota;
      [reflexivity|]. now rewrite Hrut.
  - intros Hpre. unfold can_void_by_path in Hpre.
    apply andb_true_iff in Hpre as [Hpre Hmotivo].
    apply andb_true_iff in Hpre as [Hst Hfolio].
    unfold anular_boleta_path. run. rewrite Hst, Hfolio, Hmotivo. cbn [negb].
    destruct H as [Hcfg | [[cfg Hcfg] Hrut]]; rewrite Hcfg; cbv beta iota zeta;
      [now rewrite He|]. rewrite Hrut. cbv beta iota. now rewrite He.
Qed.

End Unbuilt.

Lemma unbuilt_issuance_sends_nothing_witness :
  emitir_boleta sample_params (answering (JDict folio_response))
                (Session sample_sin_receptor sample_world)
  = (Ok tt,
     Session (fallida (no_attribute "bool" "replace")
                      (iniciado sample_sin_receptor sample_world))
             sample_world) /\
  state (fallida (no_attribute "bool" "replace")
                  (iniciado sample_sin_receptor sample_world)) = error /\
  error_message (fallida (no_attribute "bool" "replace")
                          (iniciado sample_sin_receptor sample_world))
  = Some "'bool' object has no attribute 'replace'" /\
  is_UserError (no_attribute "bool" "replace") = false.
Proof.
  apply (unbuilt_issuance_sends_nothing sample_params
           (answering (JDict folio_response)) sample_sin_receptor sample_world
           (no_attribute "bool" "replace")).
  - reflexivity.
  - left. reflexivity.
Defined.

Lemma unbuilt_void_sends_nothing_witness :
  anular_boleta broken_params (always (Replied empty_object_response))
                (Session sample_anulable sample_world)
  = (Raise (Exn UserError
              ("Error anulando boleta: "
               ++ "invalid literal for int() with base 10: '30s'")),
     Session sample_anulable sample_world) /\
  anular_boleta_path broken_params (always (Replied empty_object_response))
                     (Session sample_anulable sample_world)
  = (Raise (Exn UserError
              ("Error inesperado anulando boleta: "
               ++ "invalid literal for int() with base 10: '30s'")),
     Session sample_anulable sample_world).
Proof.
  destruct (unbuilt_void_sends_nothing broken_params
              (always (Replied empty_object_response)) sample_anulable sample_world
              (Py.int_error "30s") (or_introl eq_refl))
    as (H1 & H2).
  split; [apply H1|apply H2]; reflexivity.
Defined.

(** ** The RUT validator *)

Lemma remove_char_absent c s :
  Py.contains (Py.chr c) s = false -> Py.remove_char c s = s.
Proof.
  induction s as [|a s IH]; [reflexivity|]. rewrite contains_chr. intros H.
  apply orb_false_iff in H as [Ha Hs]. cbn [Py.remove_char].
  rewrite Ascii.eqb_sym, Ha. now rewrite IH.
Qed.

Lemma strip_separators_idem s :
  strip_separators (strip_separators s) = strip_separators s.
Proof.
  destruct (strip_separators_clean s) as [Hdot Hdash].
  unfold strip_separators at 1.
  rewrite (remove_char_absent "." _ Hdot). now apply (remove_char_absent "-").
Qed.

Lemma upper_lower_char c : Py.upper_char (Py.lower_char c) = Py.upper_char c.
Proof. destruct c as [[] [] [] [] [] [] [] []]; vm_compute; reflexivity. Qed.

Lemma upper_lower s : Py.upper (Py.lower s) = Py.upper s.
Proof.
  unfold Py.upper, Py.lower. induction s as [|c s IH]; [reflexivity|].
  cbn [Py.map_str list_ascii_of_string flat_map]. now rewrite upper_lower_char, IH.
Qed.

Lemma lower_char_eqb_separator c d :
  is_separator d = true ->
  Ascii.eqb (Py.lower_char c) d = Ascii.eqb c d.
Proof.
  unfold is_separator. intros H. apply orb_true_iff in H as [H|H];
    apply Ascii.eqb_eq in H; subst d;
    destruct c as [[] [] [] [] [] [] [] []]; vm_compute; reflexivity.
Qed.

Lemma remove_char_lower d s :
  is_separator d = true ->
  Py.remove_char d (Py.lower s) = Py.lower (Py.remove_char d s).
Proof.
  intros Hd. unfold Py.lower. induction s as [|c s IH]; [reflexivity|].
  cbn [Py.map_str Py.remove_char]. rewrite (lower_char_eqb_separator c d Hd).
  destruct (Ascii.eqb c d); [exact IH|]. cbn [Py.map_str]. now rewrite IH.
Qed.

Lemma strip_separators_lower s :
  strip_separators (Py.lower s) = Py.lower (strip_separators s).
Proof.
  unfold strip_separators.
  now rewrite (remove_char_lower "." s), (remove_char_lower "-") by reflexivity.
Qed.

Lemma validate_rut_same_cleaned a b :
  Py.upper (strip_separators a) = Py.upper (strip_separators b) ->
  validate_rut a = validate_rut b.
Proof.
  intros H. unfold validate_rut.
  destruct a as [|ca a], b as [|cb b]; cbn [Py.nonempty negb];
    try reflexivity; cbv zeta.
  - rewrite <- H. reflexivity.
  - rewrite H. reflexivity.
  - now rewrite H.
Qed.

(** X22: [_validate_rut] looks at a RUT only through its cleaned form, the
    text without dots and dashes in upper case: two texts with the same
    cleaned form get the same answer.  So dots and dashes count nowhere, and
    lower and upper case are read alike. *)
Theorem validate_rut_ignores_format rut :
  (forall other,
      Py.upper (strip_separators other) = Py.upper (strip_separators rut) ->
      validate_rut other = validate_rut rut) /\
  validate_rut (strip_separators rut) = validate_rut rut /\
  validate_rut (Py.lower rut) = validate_rut rut.
Proof.
  split; [|split].
  - intros other H. now apply validate_rut_same_cleaned.
  - apply validate_rut_same_cleaned. now rewrite strip_separators_idem.
  - apply validate_rut_same_cleaned.
    now rewrite strip_separators_lower, upper_lower.
Qed.

Lemma expected_check_range body :
  In (RutSpec.expected_check body) (codes "0123456789K").
Proof.
  unfold RutSpec.expected_check.
  set (r := RutSpec.checksum_from 0 (rev body) mod 11).
  assert (Hr : 0 <= r < 11) by (apply Z.mod_pos_bound; lia).
  clearbody r.
  assert (E : r = 0 \/ r = 1 \/ r = 2 \/ r = 3 \/ r = 4 \/ r = 5 \/ r = 6
              \/ r = 7 \/ r = 8 \/ r = 9 \/ r = 10) by lia.
  repeat (destruct E as [->|E]; [vm_compute; tauto|]). subst r. vm_compute. tauto.
Qed.

(** X23: for a number of at least seven decimal digits, dots and dashes
    apart, [_validate_rut] returns and accepts exactly one check character:
    the one of the modulo 11 rule, which is a digit or the letter K. *)
Theorem validate_rut_check_character body c x :
  forallb Py.is_decimal (Py.upper (strip_separators body)) = true ->
  (7 <= List.length (Py.upper (strip_separators body)))%nat ->
  is_separator c = false ->
  Py.upper_char c = [x] ->
  validate_rut (body ++ Py.chr c)
  = Ok (N.eqb x (RutSpec.expected_check (Py.upper (strip_separators body)))) /\
  In (RutSpec.expected_check (Py.upper (strip_separators body)))
     (codes "0123456789K").
Proof.
  intros Hdec Hlen Hc Hx. split; [|apply expected_check_range].
  assert (Hup : Py.upper (strip_separators (body ++ Py.chr c))
                = (Py.upper (strip_separators body) ++ [x])%list).
  { rewrite strip_separators_app, upper_app, strip_separators_chr by exact Hc.
    unfold Py.upper at 2. cbn [Py.chr list_ascii_of_string flat_map].
    now rewrite Hx, app_nil_r. }
  rewrite (validate_rut_verdict _ _ _ Hup).
  apply verdict_decimal; [exact Hdec|].
  apply Nat.leb_le. rewrite length_app. cbn [List.length]. lia.
Qed.

Lemma suma_loop_error ds suma mult e :
  suma_loop ds suma mult = Raise e -> exn_class_of e = ValueError.
Proof.
  revert suma mult. induction ds as [|d ds IH]; intros suma mult H;
    cbn [suma_loop] in H; [discriminate|].
  unfold digit_value in H. destruct (Py.is_decimal d); cbn [obind] in H.
  - exact (IH _ _ H).
  - now injection H as <-.
Qed.

Lemma validate_rut_error rut e :
  validate_rut rut = Raise e -> exn_class_of e = ValueError.
Proof.
  unfold validate_rut.
  destruct (negb (Py.nonempty rut)); [discriminate|]. cbv zeta.
  destruct (_ <? 8)%nat; [discriminate|].
  destruct (negb (Py.isdigit _)); [discriminate|].
  destruct (suma_loop _ 0 2) as [total|e'] eqn:Hloop; cbn [obind];
    [discriminate|].
  intros H. injection H as <-. exact (suma_loop_error _ _ _ _ Hloop).
Qed.


Lemma validate_rut_ignores_format_witness :
  validate_rut "12.345.678-5" = validate_rut "123456785".
Proof.
  destruct (validate_rut_ignores_format "123456785") as (H & _).
  apply H. reflexivity.
Defined.

Lemma validate_rut_check_character_witness :
  validate_rut "12.345.678-5" = Ok true /\
  In 53%N (codes "0123456789K").
Proof.
  apply (validate_rut_check_character "12.345.678-" "5" 53%N);
    [reflexivity|cbn; lia|reflexivity|reflexivity].
Defined.


(** ** The constraints *)

Lemma check_rut_spec field msg self :
  (check_rut field msg self = Passed <->
   Forall (fun r => filled (field r) = true ->
                    validate_rut (str_field (field r)) = Ok true) self) /\
  (forall m, check_rut field msg self = ValidationError m -> m = msg) /\
  (forall e, check_rut field msg self = Escaped e -> exn_class_of e = ValueError).
Proof.
  induction self as [|r rest (IH1 & IH2 & IH3)]; cbn [check_rut].
  - split; [|split]; try discriminate. split; [constructor|reflexivity].
  - destruct (filled (field r)) eqn:Hf.
    + destruct (validate_rut (str_field (field r))) as [[]|e] eqn:Hv.
      * split; [|split; assumption]. split.
        -- intros H. constructor; [intros _; exact Hv|now apply IH1].
        -- intros H. inversion H. now apply IH1.
      * split; [|split].
        -- split; [discriminate|]. intros H. inversion H as [|? ? Hr ?].
           specialize (Hr Hf). rewrite Hv in Hr. discriminate Hr.
        -- intros m H. now injection H as <-.
        -- discriminate.
      * split; [|split].
        -- split; [discriminate|]. intros H. inversion H as [|? ? Hr ?].
           specialize (Hr Hf). rewrite Hv in Hr. discriminate Hr.
        -- discriminate.
        -- intros e' H. injection H as <-. exact (validate_rut_error _ _ Hv).
    + split; [|split; assumption]. split.
      * intros H. constructor; [|now apply IH1].
        intros Hx. rewrite Hf in Hx. discriminate Hx.
      * intros H. inversion H. now apply IH1.
Qed.

(** X25: [_check_valor_bruto] accepts a set of documents exactly when the
    amount of each is greater than zero, and a document that it accepts
    never fails the amount check of the issuance; it raises nothing but its
    [ValidationError]. *)
Theorem check_valor_bruto_accepts self :
  (check_valor_bruto self = Passed <->
   Forall (fun r => (0 < valor_bruto r)%Q) self) /\
  (check_valor_bruto self = Passed \/
   check_valor_bruto self = ValidationError "El valor bruto debe ser mayor a cero") /\
  (check_valor_bruto self = Passed ->
   forall r, In r self ->
     first_failed_check r <> Some "El valor bruto debe ser mayor a cero").
Proof.
  assert (Hpos : forall r, Qle_bool (valor_bruto r) 0 = false <-> (0 < valor_bruto r)%Q).
  { intros r. split.
    - intros H. apply Qnot_le_lt. intros Hle. apply Qle_bool_iff in Hle. congruence.
    - intros H. destruct (Qle_bool (valor_bruto r) 0) eqn:E; [|reflexivity].
      apply Qle_bool_iff in E. exfalso. exact (Qlt_not_le _ _ H E). }
  assert (Hiff : check_valor_bruto self = Passed <->
                 Forall (fun r => Qle_bool (valor_bruto r) 0 = false) self).
  { induction self as [|r rest IH]; cbn [check_valor_bruto].
    - split; [constructor|reflexivity].
    - destruct (Qle_bool (valor_bruto r) 0) eqn:E.
      + split; [discriminate|]. intros H. inversion H. congruence.
      + split.
        * intros H. constructor; [exact E|now apply IH].
        * intros H. inversion H. now apply IH. }
  split; [|split].
  - rewrite Hiff. split; intros H; eapply Forall_impl; try exact H;
      intros r; apply Hpos.
  - clear. induction self as [|r rest IH]; cbn [check_valor_bruto]; [now left|].
    destruct (Qle_bool (valor_bruto r) 0); [now right|exact IH].
  - intros H r Hin. apply Hiff in H. rewrite Forall_forall in H.
    specialize (H r Hin). unfold first_failed_check. rewrite H.
    destruct (negb (filled (descripcion_servicio r))).
    + intros Heq. injection Heq as Heq. discriminate Heq.
    + destruct (negb (valid_email (email_destinatario r))); [|discriminate].
      intros Heq. injection Heq as Heq. discriminate Heq.
Qed.

(** X26: each RUT constraint passes over the documents whose RUT is empty
    and accepts a set exactly when every other RUT is one that
    [_validate_rut] answers [True] for; the only [ValidationError] it raises
    is its own, and whatever else escapes from it is the [ValueError] of the
    validator. *)
Theorem check_rut_accepts self :
  (check_rut_usuario self = Passed <->
   Forall (fun r => filled (rut_usuario r) = true ->
                    validate_rut (str_field (rut_usuario r)) = Ok true) self) /\
  (check_receptor_rut self = Passed <->
   Forall (fun r => filled (receptor_rut r) = true ->
                    validate_rut (str_field (receptor_rut r)) = Ok true) self) /\
  (forall m, check_rut_usuario self = ValidationError m ->
             m = "El RUT del usuario no es v" ++ a_acute ++ "lido") /\
  (forall m, check_receptor_rut self = ValidationError m ->
             m = "El RUT del receptor no es v" ++ a_acute ++ "lido") /\
  (forall e, check_rut_usuario self = Escaped e \/ check_receptor_rut self = Escaped e ->
             exn_class_of e = ValueError).
Proof.
  unfold check_rut_usuario, check_receptor_rut.
  destruct (check_rut_spec rut_usuario
              ("El RUT del usuario no es v" ++ a_acute ++ "lido") self)
    as (U1 & U2 & U3).
  destruct (check_rut_spec receptor_rut
              ("El RUT del receptor no es v" ++ a_acute ++ "lido") self)
    as (R1 & R2 & R3).
  repeat split; try apply U1; try apply R1; try assumption.
  intros e [H|H]; [exact (U3 e H)|exact (R3 e H)].
Qed.

Lemma check_valor_bruto_accepts_witness :
  check_valor_bruto [sample_boleta; sample_anulable] = Passed /\
  first_failed_check sample_boleta <> Some "El valor bruto debe ser mayor a cero".
Proof.
  destruct (check_valor_bruto_accepts [sample_boleta; sample_anulable])
    as (Hiff & _ & Hcheck).
  assert (H : check_valor_bruto [sample_boleta; sample_anulable] = Passed).
  { apply Hiff. repeat constructor. }
  split; [exact H|]. apply (Hcheck H). now left.
Defined.

Lemma check_rut_accepts_witness :
  check_rut_usuario [sample_boleta; sample_anulable] = Passed.
Proof.
  destruct (check_rut_accepts [sample_boleta; sample_anulable]) as (Hiff & _).
  apply Hiff. repeat constructor.
Defined.

(** ** Filling the recipient from a partner *)

Lemma onchange_partner_fields d p :
  let f' := onchange_partner_id (Ficha d (Some p)) in
  partner_id f' = Some p /\
  own_data (doc f') = own_data d /\
  receptor_rut (doc f') = Some (or_empty (ResPartner.vat p)) /\
  receptor_nombre (doc f') = Some (or_empty (ResPartner.name p)) /\
  receptor_direccion (doc f') = Some (or_empty (ResPartner.street p)) /\
  receptor_region (doc f')
  = match ResPartner.state_id p with
    | Some state_name => Some (region_mapping state_name)
    | None => receptor_region d
    end /\
  receptor_comuna (doc f')
  = (if filled (ResPartner.city p) then ResPartner.city p else receptor_comuna d) /\
  email_destinatario (doc f')
  = (if negb (filled (email_destinatario d)) && filled (ResPartner.email p)
     then ResPartner.email p else email_destinatario d).
Proof.
  destruct p as [vat name street st city email], d.
  unfold onchange_partner_id.
  cbn [partner_id doc ResPartner.vat ResPartner.name ResPartner.street
       ResPartner.state_id ResPartner.city ResPartner.email].
  destruct st; destruct (filled city); cbv zeta;
    cbn [with_receptor_rut with_receptor_nombre with_receptor_direccion
         with_receptor_region with_receptor_comuna email_destinatario];
    destruct (negb (filled email_destinatario0) && filled email);
    repeat split.
Qed.

Lemma boleta_ext a b :
  own_data a = own_data b ->
  receptor_rut a = receptor_rut b ->
  receptor_nombre a = receptor_nombre b ->
  receptor_direccion a = receptor_direccion b ->
  receptor_region a = receptor_region b ->
  receptor_comuna a = receptor_comuna b ->
  email_destinatario a = email_destinatario b ->
  a = b.
Proof.
  destruct a, b. unfold own_data.
  cbn [id numero_boleta fecha_emision state rut_usuario password_sii
       direccion_emisor retencion receptor_rut receptor_nombre
       receptor_direccion receptor_region receptor_comuna descripcion_servicio
       valor_bruto response_data email_destinatario error_message
       fecha_procesamiento intentos motivo_anulacion messages].
  intros H -> -> -> -> -> ->. injection H. intros. subst. reflexivity.
Qed.

Lemma onchange_partner_idem d p :
  onchange_partner_id (onchange_partner_id (Ficha d (Some p)))
  = onchange_partner_id (Ficha d (Some p)).
Proof.
  pose proof (onchange_partner_fields d p) as H. cbv zeta in H.
  destruct (onchange_partner_id (Ficha d (Some p))) as [d' p'].
  cbn [doc partner_id] in H.
  destruct H as (-> & Hown & Hrut & Hnom & Hdir & Hreg & Hcom & Hmail).
  pose proof (onchange_partner_fields d' p) as H. cbv zeta in H.
  destruct (onchange_partner_id (Ficha d' (Some p))) as [d'' p''].
  cbn [doc partner_id] in H.
  destruct H as (-> & Hown' & Hrut' & Hnom' & Hdir' & Hreg' & Hcom' & Hmail').
  f_equal. apply boleta_ext.
  - exact Hown'.
  - now rewrite Hrut', Hrut.
  - now rewrite Hnom', Hnom.
  - now rewrite Hdir', Hdir.
  - rewrite Hreg'. destruct (ResPartner.state_id p); [now rewrite Hreg|reflexivity].
  - rewrite Hcom'. destruct (filled (ResPartner.city p)); [now rewrite Hcom|reflexivity].
  - rewrite Hmail'.
    destruct (negb (filled (email_destinatario d)) && filled (ResPartner.email p)) eqn:E.
    + apply andb_true_iff in E as [_ E]. rewrite Hmail, E. reflexivity.
    + rewrite Hmail, E. reflexivity.
Qed.

(** X27: [_onchange_partner_id] writes to the fields of the recipient and
    to nothing else; without a partner it changes nothing; it fills the
    address for the mail only when the document has none, so an address
    already entered is never replaced; the region it writes for a partner
    with a state is one of the three codes it knows; and running it a second
    time changes nothing more. *)
Theorem onchange_partner_fills_recipient f :
  partner_id (onchange_partner_id f) = partner_id f /\
  own_data (doc (onchange_partner_id f)) = own_data (doc f) /\
  (partner_id f = None -> onchange_partner_id f = f) /\
  (filled (email_destinatario (doc f)) = true ->
   email_destinatario (doc (onchange_partner_id f)) = email_destinatario (doc f)) /\
  (forall p, partner_id f = Some p -> ResPartner.state_id p <> None ->
     In (receptor_region (doc (onchange_partner_id f)))
        [Some "13"; Some "5"; Some "8"]) /\
  onchange_partner_id (onchange_partner_id f) = onchange_partner_id f.
Proof.
  destruct f as [d [p|]].
  - pose proof (onchange_partner_fields d p) as H. cbv zeta in H.
    destruct H as (Hp & Hown & _ & _ & _ & Hreg & _ & Hmail). cbn [doc partner_id].
    split; [exact Hp|]. split; [exact Hown|]. split; [discriminate|].
    split; [|split].
    + intros He. rewrite Hmail, He. reflexivity.
    + intros p' Hp' Hst. injection Hp' as <-. rewrite Hreg.
      destruct (ResPartner.state_id p) as [name|]; [|now elim Hst].
      unfold region_mapping.
      destruct (String.eqb name "Santiago"); [now left|].
      destruct (String.eqb name _); [right; now left|].
      destruct (String.eqb name _); [right; right; now left|now left].
    + apply onchange_partner_idem.
  - cbn. repeat split; discriminate.
Qed.

Lemma search_by_vat_found partners rut p :
  search_by_vat partners rut = Some p ->
  In p partners /\ ResPartner.vat p = Some rut.
Proof.
  unfold search_by_vat. intros H. apply find_some in H as [Hin Hvat].
  split; [exact Hin|]. destruct (ResPartner.vat p) as [v|]; [|discriminate].
  apply String.eqb_eq in Hvat. now subst.
Qed.

(** X28: [_onchange_receptor_data] never changes the RUT that was typed,
    nor any field that does not describe the recipient; it does nothing to
    a form that already has a partner; the partner it sets is one of the
    address book whose [vat] is the typed RUT, character for character; and
    running it a second time changes nothing more. *)
Theorem onchange_receptor_keeps_rut partners f :
  receptor_rut (doc (onchange_receptor_data partners f)) = receptor_rut (doc f) /\
  own_data (doc (onchange_receptor_data partners f)) = own_data (doc f) /\
  (partner_id f <> None -> onchange_receptor_data partners f = f) /\
  (forall p, partner_id (onchange_receptor_data partners f) = Some p ->
     partner_id f = Some p \/
     (In p partners /\ ResPartner.vat p = receptor_rut (doc f))) /\
  onchange_receptor_data partners (onchange_receptor_data partners f)
  = onchange_receptor_data partners f.
Proof.
  assert (Hset : forall d0 p0,
             onchange_receptor_data partners (Ficha d0 (Some p0)) = Ficha d0 (Some p0)).
  { intros d0 p0. unfold onchange_receptor_data. cbn [doc partner_id].
    now rewrite andb_false_r. }
  destruct f as [d [p0|]].
  - rewrite !Hset. repeat split. intros p Hp. now left.
  - unfold onchange_receptor_data at 1 2 3 4 6 7. cbn [doc partner_id].
    rewrite andb_true_r.
    destruct (filled (receptor_rut d)) eqn:Hf.
    2:{ assert (Hsame : onchange_receptor_data partners (Ficha d None) = Ficha d None).
        { unfold onchange_receptor_data. cbn [doc partner_id]. now rewrite Hf. }
        repeat split; try discriminate; try exact Hsame. }
    destruct (search_by_vat partners (str_field (receptor_rut d))) as [p|] eqn:Hs.
    2:{ assert (Hsame : onchange_receptor_data partners (Ficha d None) = Ficha d None).
        { unfold onchange_receptor_data. cbn [doc partner_id]. now rewrite Hf, Hs. }
        repeat split; try discriminate; try exact Hsame. }
    destruct (search_by_vat_found _ _ _ Hs) as [Hin Hvat].
    assert (Hrut : Some (str_field (receptor_rut d)) = receptor_rut d).
    { destruct (receptor_rut d); [reflexivity|discriminate Hf]. }
    pose proof (onchange_partner_fields d p) as H. cbv zeta in H.
    destruct H as (Hp & Hown & Hr & _).
    split; [|split; [exact Hown|split; [intros Hne; now elim Hne|split]]].
    + rewrite Hr, Hvat. exact Hrut.
    + intros p' Hp'. rewrite Hp in Hp'. injection Hp' as <-. right.
      split; [exact Hin|]. now rewrite Hvat.
    + destruct (onchange_partner_id (Ficha d (Some p))) as [d' p'].
      cbn [partner_id] in Hp. rewrite Hp. apply Hset.
Qed.

Lemma onchange_partner_fills_recipient_witness :
  email_destinatario (doc (onchange_partner_id (Ficha sample_boleta (Some sample_partner))))
  = Some "cliente@dominio.cl" /\
  In (receptor_region (doc (onchange_partner_id (Ficha sample_boleta (Some sample_partner)))))
     [Some "13"; Some "5"; Some "8"].
Proof.
  destruct (onchange_partner_fills_recipient (Ficha sample_boleta (Some sample_partner)))
    as (_ & _ & _ & Hmail & Hreg & _).
  split; [apply Hmail; reflexivity|].
  apply (Hreg sample_partner); [reflexivity|discriminate].
Defined.

Lemma onchange_receptor_keeps_rut_witness :
  partner_id (onchange_receptor_data [sample_partner] (Ficha sample_boleta None))
  = Some sample_partner /\
  (In sample_partner [sample_partner] /\
   ResPartner.vat sample_partner = receptor_rut sample_boleta).
Proof.
  destruct (onchange_receptor_keeps_rut [sample_partner] (Ficha sample_boleta None))
    as (_ & _ & _ & H & _).
  split; [reflexivity|].
  destruct (H sample_partner eq_refl) as [Hno|Hyes]; [discriminate Hno|exact Hyes].
Defined.
